(** * Whaple: smart routing, durable queue and direct channel

    A shallow embedding of the routing core of the Whaple SDK
    ([Whaple.ts], [QueueManager.ts], [HealthChecker.ts], [ApiClient.ts],
    [WhatsAppConnection.ts]) and the properties its specification states
    about it.

    Conventions.
    - JavaScript numbers that the code uses as counters and millisecond
      timestamps are [Z].
    - An [async] method is a computation in the monad [M] below: it
      threads the process state (cache, database, connection) and ends
      either with a value or with a thrown error.
    - Everything the process does not control (the clock, the UUID
      generator, whether a Firebase operation or an HTTP request fails)
      is read from an environment [Env], one answer per call; what the
      constructor finds ([process.env], whether Firebase initialises)
      is a [Host]. *)

From Stdlib Require Import ZArith List String Ascii Bool Lia.
From Stdlib Require Import Permutation Sorted OrderedTypeEx DecimalString.
Import ListNotations.

Local Open Scope string_scope.
Local Open Scope Z_scope.

(* ================================================================= *)
(** ** JavaScript values and library functions the code relies on     *)
(* ================================================================= *)

Module JS.

Inductive ErrorClass := Error | TypeError | ValidationError | ConfigurationError.

(** A thrown error: its class, its message and, for the errors of
    [types.ts] (the subclasses of [WhapleError]), the [timestamp] their
    constructor reads off the clock. *)
Record Exn := mkExn {
  name : ErrorClass;
  message : string;
  timestamp : option Z
}.

(** How a call ends: [return v] or [throw e]. *)
Inductive Completion (A : Type) : Type :=
| Return (a : A)
| Throw (e : Exn).
Arguments Return {A} a.
Arguments Throw {A} e.

(** [new Error(msg)]. *)
Definition error (msg : string) : Exn := mkExn Error msg None.

(** What evaluating [x.sendMessage(...)] throws when [x] is
    [undefined] (the text is the one of V8). *)
Definition undefinedReceiver : Exn :=
  mkExn TypeError "Cannot read properties of undefined (reading 'sendMessage')" None.

(** An optional property of an object literal: the key is not there,
    it is there with the value [undefined], or it has a value. Reading
    the property gives [undefined] in the first two cases; spreading
    the object ([{...o}]) copies the key in the last two. *)
Inductive Property (A : Type) : Type :=
| absent
| undefined
| present (a : A).
Arguments absent {A}.
Arguments undefined {A}.
Arguments present {A} a.

(** [o.key]. *)
Definition read {A} (p : Property A) : option A :=
  match p with
  | present a => Some a
  | _ => None
  end.

(** The property [key] of [{ key: fallback, ...o }]. *)
Definition spreadOver {A} (fallback : option A) (p : Property A) : option A :=
  match p with
  | absent => fallback
  | undefined => None
  | present a => Some a
  end.

(** Template literal of a number, as in [`direct-${Date.now()}`]. *)
Definition numberToString (z : Z) : string :=
  NilZero.string_of_int (Z.to_int z).

(** [a || b] on an optional string: [undefined] and [''] are falsy. *)
Definition orString (a : option string) (b : option string) : option string :=
  match a with
  | Some EmptyString => b
  | Some s => Some s
  | None => b
  end.

(** [a || b] on an optional number: [undefined] and [0] are falsy. *)
Definition orNumber (a : option Z) (b : Z) : Z :=
  match a with
  | Some 0 => b
  | Some n => n
  | None => b
  end.

(** [x || undefined] on an optional number. *)
Definition orUndefined (a : option Z) : option Z :=
  match a with
  | Some 0 => None
  | other => other
  end.

(** Truthiness of an optional boolean property ([undefined] is falsy). *)
Definition truthy (a : option bool) : bool :=
  match a with
  | Some true => true
  | _ => false
  end.

(** [Array.prototype.sort(compareFn)]: the sort is stable (ECMAScript
    2019), so for a comparator that is a difference of numeric keys
    its result is the one of a stable insertion sort: an element goes
    before the first already-placed element it does not compare
    greater than. *)
Fixpoint insert {A : Type} (compareFn : A -> A -> Z) (x : A) (l : list A) : list A :=
  match l with
  | [] => [x]
  | y :: l' =>
      if compareFn x y <=? 0 then x :: y :: l'
      else y :: insert compareFn x l'
  end.

Fixpoint sort {A : Type} (compareFn : A -> A -> Z) (l : list A) : list A :=
  match l with
  | [] => []
  | x :: l' => insert compareFn x (sort compareFn l')
  end.

(** [Array.prototype.indexOf] on an array of strings. *)
Fixpoint indexOfFrom (i : Z) (l : list string) (x : string) : Z :=
  match l with
  | [] => -1
  | y :: l' => if String.eqb y x then i else indexOfFrom (i + 1) l' x
  end.

Definition indexOf (l : list string) (x : string) : Z := indexOfFrom 0 l x.

(** The character class [\d] (no unicode flag): ASCII digits only. *)
Definition isDigit (c : ascii) : bool :=
  let n := nat_of_ascii c in (48 <=? n)%nat && (n <=? 57)%nat.

(** [s.replace(/[^...]/g, '')] for a character class given as a
    predicate: keep exactly the characters the class accepts. *)
Fixpoint keepChars (keep : ascii -> bool) (s : string) : string :=
  match s with
  | EmptyString => EmptyString
  | String c s' =>
      if keep c then String c (keepChars keep s') else keepChars keep s'
  end.

(** [s.includes(c)] for a one-character string [c]. *)
Fixpoint includesChar (c : ascii) (s : string) : bool :=
  match s with
  | EmptyString => false
  | String d s' => Ascii.eqb d c || includesChar c s'
  end.

(** [s.startsWith('+')]. *)
Definition startsWithPlus (s : string) : bool :=
  match s with
  | String c _ => Ascii.eqb c "+"%char
  | EmptyString => false
  end.

End JS.

Import JS.

(* ================================================================= *)
(** ** Types ([types.ts] and the interfaces of [QueueManager.ts])      *)
(* ================================================================= *)

Inductive Priority := high | medium | low.
Inductive Status := pending | processing | sent | failed.
Inductive Method := direct | queued.

Module SendMessageOptions.
Record t := {
  source : option string;
  timestamp : option Z;
  priority : option Priority;
  retryCount : option Z;
  extra : list (string * string)
}.
Definition empty : t :=
  {| source := None; timestamp := None; priority := None;
     retryCount := None; extra := [] |}.
End SendMessageOptions.

Module MessageData.
Record t := {
  number : string;
  message : string;
  options : SendMessageOptions.t;
  source : string;
  version : string;
  timestamp : Z;
  priority : Priority
}.
End MessageData.

(** A record of the [pending] partition, as [addMessage] writes it:
    the message data, the [QueueMessage] fields, [queuedAt] and
    [attempts]. *)
Module QueueMessage.
Record t := {
  number : string;
  message : string;
  options : SendMessageOptions.t;
  source : string;
  version : string;
  priority : Priority;
  id : string;
  timestamp : Z;
  status : Status;
  retryCount : Z;
  position : Z;
  queuedAt : Z;
  attempts : Z
}.
End QueueMessage.

Module SendMessageResult.
Record t := {
  success : bool;
  messageId : string;
  method : Method;
  timestamp : Z;
  position : option Z;
  error : option string;
  key : option string
}.
End SendMessageResult.

(** The object [getQueueStatus] returns. [conditionalAdd] casts it to
    [QueueStatusWithServer] and reads [serverAlive] from it: the
    property is optional here because a cast adds no property. *)
Module QueueStatus.
Record t := {
  totalMessages : Z;
  pendingMessages : Z;
  processingMessages : Z;
  sentMessages : Z;
  failedMessages : Z;
  isProcessing : bool;
  lastProcessed : option Z;
  nextProcessingTime : option Z;
  serverAlive : option bool
}.
End QueueStatus.

(** The record under [server_status/heartbeat]. *)
Module Heartbeat.
Record t := {
  alive : bool;
  lastSeen : option Z;
  lastProcessed : option Z;
  nextProcessingTime : option Z
}.
End Heartbeat.

(** The Firebase node [message_queue], restricted to what the routing
    core reads and writes. A partition is the list of its children in
    the order [Object.keys(snapshot.val())] enumerates them. *)
Definition Partition := list (string * QueueMessage.t).

Module Store.
Record t := {
  pending : Partition;
  processing : Partition;
  heartbeat : option Heartbeat.t
}.
End Store.

(** [HealthCache] of [HealthChecker.ts]. *)
Module HealthCache.
Record t := {
  lastCheck : option Z;
  lastResult : option bool;
  cacheTimeMs : Z
}.
End HealthCache.

(** The private fields of class [WhatsAppConnection], together with the
    timers the instance has pending in the event loop. *)
Module Channel.

Inductive ConnectionState :=
  disconnected | connecting | waiting_for_qr | connected.

(** What a timer does when it fires:
    - [reconnectTimer]: [{ this.reconnectAttempts++; await this.connect() }]
      (set by [scheduleReconnect]);
    - [scheduleTimer]: [() => this.scheduleReconnect()]
      (set by the close handler on "restart required");
    - [connectTimer]: [() => { this.connect() }]
      (set by [forceReconnect] and [resetAuthentication]). *)
Inductive Callback := reconnectTimer | scheduleTimer | connectTimer.

Record Timer := { handle : nat; delay : Z; callback : Callback }.

Record UserInfo := { userId : string; userName : string }.

Record t := {
  sock : option nat;
  isConnected : bool;
  isAuthenticated : bool;
  userInfo : option UserInfo;
  reconnectAttempts : Z;
  reconnectTimeout : option nat;
  isReconnecting : bool;
  connectionState : ConnectionState;
  currentQR : option string;
  lastQRTime : option Z;
  (* the event loop and what was asked of the network *)
  timers : list Timer;
  timersCreated : nat;
  connectCalls : nat
}.

Definition set_sock v (s : t) : t :=
  {| sock := v; isConnected := isConnected s; isAuthenticated := isAuthenticated s;
     userInfo := userInfo s; reconnectAttempts := reconnectAttempts s;
     reconnectTimeout := reconnectTimeout s; isReconnecting := isReconnecting s;
     connectionState := connectionState s; currentQR := currentQR s;
     lastQRTime := lastQRTime s; timers := timers s;
     timersCreated := timersCreated s; connectCalls := connectCalls s |}.

Definition set_isConnected v (s : t) : t :=
  {| sock := sock s; isConnected := v; isAuthenticated := isAuthenticated s;
     userInfo := userInfo s; reconnectAttempts := reconnectAttempts s;
     reconnectTimeout := reconnectTimeout s; isReconnecting := isReconnecting s;
     connectionState := connectionState s; currentQR := currentQR s;
     lastQRTime := lastQRTime s; timers := timers s;
     timersCreated := timersCreated s; connectCalls := connectCalls s |}.

Definition set_isAuthenticated v (s : t) : t :=
  {| sock := sock s; isConnected := isConnected s; isAuthenticated := v;
     userInfo := userInfo s; reconnectAttempts := reconnectAttempts s;
     reconnectTimeout := reconnectTimeout s; isReconnecting := isReconnecting s;
     connectionState := connectionState s; currentQR := currentQR s;
     lastQRTime := lastQRTime s; timers := timers s;
     timersCreated := timersCreated s; connectCalls := connectCalls s |}.

Definition set_userInfo v (s : t) : t :=
  {| sock := sock s; isConnected := isConnected s; isAuthenticated := isAuthenticated s;
     userInfo := v; reconnectAttempts := reconnectAttempts s;
     reconnectTimeout := reconnectTimeout s; isReconnecting := isReconnecting s;
     connectionState := connectionState s; currentQR := currentQR s;
     lastQRTime := lastQRTime s; timers := timers s;
     timersCreated := timersCreated s; connectCalls := connectCalls s |}.

Definition set_reconnectAttempts v (s : t) : t :=
  {| sock := sock s; isConnected := isConnected s; isAuthenticated := isAuthenticated s;
     userInfo := userInfo s; reconnectAttempts := v;
     reconnectTimeout := reconnectTimeout s; isReconnecting := isReconnecting s;
     connectionState := connectionState s; currentQR := currentQR s;
     lastQRTime := lastQRTime s; timers := timers s;
     timersCreated := timersCreated s; connectCalls := connectCalls s |}.

Definition set_reconnectTimeout v (s : t) : t :=
  {| sock := sock s; isConnected := isConnected s; isAuthenticated := isAuthenticated s;
     userInfo := userInfo s; reconnectAttempts := reconnectAttempts s;
     reconnectTimeout := v; isReconnecting := isReconnecting s;
     connectionState := connectionState s; currentQR := currentQR s;
     lastQRTime := lastQRTime s; timers := timers s;
     timersCreated := timersCreated s; connectCalls := connectCalls s |}.

Definition set_isReconnecting v (s : t) : t :=
  {| sock := sock s; isConnected := isConnected s; isAuthenticated := isAuthenticated s;
     userInfo := userInfo s; reconnectAttempts := reconnectAttempts s;
     reconnectTimeout := reconnectTimeout s; isReconnecting := v;
     connectionState := connectionState s; currentQR := currentQR s;
     lastQRTime := lastQRTime s; timers := timers s;
     timersCreated := timersCreated s; connectCalls := connectCalls s |}.

Definition set_connectionState v (s : t) : t :=
  {| sock := sock s; isConnected := isConnected s; isAuthenticated := isAuthenticated s;
     userInfo := userInfo s; reconnectAttempts := reconnectAttempts s;
     reconnectTimeout := reconnectTimeout s; isReconnecting := isReconnecting s;
     connectionState := v; currentQR := currentQR s;
     lastQRTime := lastQRTime s; timers := timers s;
     timersCreated := timersCreated s; connectCalls := connectCalls s |}.

Definition set_currentQR v (s : t) : t :=
  {| sock := sock s; isConnected := isConnected s; isAuthenticated := isAuthenticated s;
     userInfo := userInfo s; reconnectAttempts := reconnectAttempts s;
     reconnectTimeout := reconnectTimeout s; isReconnecting := isReconnecting s;
     connectionState := connectionState s; currentQR := v;
     lastQRTime := lastQRTime s; timers := timers s;
     timersCreated := timersCreated s; connectCalls := connectCalls s |}.

Definition set_lastQRTime v (s : t) : t :=
  {| sock := sock s; isConnected := isConnected s; isAuthenticated := isAuthenticated s;
     userInfo := userInfo s; reconnectAttempts := reconnectAttempts s;
     reconnectTimeout := reconnectTimeout s; isReconnecting := isReconnecting s;
     connectionState := connectionState s; currentQR := currentQR s;
     lastQRTime := v; timers := timers s;
     timersCreated := timersCreated s; connectCalls := connectCalls s |}.

Definition set_timers v (s : t) : t :=
  {| sock := sock s; isConnected := isConnected s; isAuthenticated := isAuthenticated s;
     userInfo := userInfo s; reconnectAttempts := reconnectAttempts s;
     reconnectTimeout := reconnectTimeout s; isReconnecting := isReconnecting s;
     connectionState := connectionState s; currentQR := currentQR s;
     lastQRTime := lastQRTime s; timers := v;
     timersCreated := timersCreated s; connectCalls := connectCalls s |}.

Definition set_timersCreated v (s : t) : t :=
  {| sock := sock s; isConnected := isConnected s; isAuthenticated := isAuthenticated s;
     userInfo := userInfo s; reconnectAttempts := reconnectAttempts s;
     reconnectTimeout := reconnectTimeout s; isReconnecting := isReconnecting s;
     connectionState := connectionState s; currentQR := currentQR s;
     lastQRTime := lastQRTime s; timers := timers s;
     timersCreated := v; connectCalls := connectCalls s |}.

Definition set_connectCalls v (s : t) : t :=
  {| sock := sock s; isConnected := isConnected s; isAuthenticated := isAuthenticated s;
     userInfo := userInfo s; reconnectAttempts := reconnectAttempts s;
     reconnectTimeout := reconnectTimeout s; isReconnecting := isReconnecting s;
     connectionState := connectionState s; currentQR := currentQR s;
     lastQRTime := lastQRTime s; timers := timers s;
     timersCreated := timersCreated s; connectCalls := v |}.

(** The field initialisers of the class. *)
Definition initial : t :=
  {| sock := None; isConnected := false; isAuthenticated := false;
     userInfo := None; reconnectAttempts := 0; reconnectTimeout := None;
     isReconnecting := false; connectionState := disconnected;
     currentQR := None; lastQRTime := None;
     timers := []; timersCreated := 0; connectCalls := 0 |}.

End Channel.

(* ================================================================= *)
(** ** The process: environment, state, and the monad of async code    *)
(* ================================================================= *)

Module Runtime.

(** How the health probe of [checkServerHealth] ends. [probeInvalidUrl]
    is [new URL(url)] throwing inside the promise executor, which
    rejects the promise; the other three resolve it. *)
Inductive ProbeOutcome :=
| probeResponse (statusCode : Z)
| probeTimeout
| probeError (msg : string)
| probeInvalidUrl (msg : string).

(** The JSON body [makeApiRequest] resolves with. *)
Record ApiResponse := {
  apiSuccess : bool;
  apiMessageId : option string;
  apiKeyId : option string;
  apiError : option string;
  apiMessageTimestamp : option Z
}.

(** How [makeApiRequest] ends: resolved with a body, or rejected
    (HTTP error status, invalid JSON, network error, timeout). *)
Inductive ApiOutcome :=
| apiResolved (response : ApiResponse)
| apiRejected (msg : string).

(** How [sock.sendMessage] ends: resolved with the message key (if
    any), or rejected. *)
Inductive SockOutcome :=
| sockResolved (keyId : option string)
| sockRejected (e : Exn).

(** Everything outside the process, one answer per call:
    the [n]-th [Date.now()], the [n]-th generated UUID, whether the
    [n]-th Firebase operation rejects (and with which message), and the
    outcomes of the [n]-th probe, API request and socket send. *)
Record Env := {
  dateNow : nat -> Z;
  randomUUID : nat -> string;
  firebaseFault : nat -> option string;
  healthProbe : nat -> ProbeOutcome;
  apiRequest : nat -> ApiOutcome;
  sockSendMessage : nat -> SockOutcome
}.

(** The state of the process. The four counters say how many answers
    of the environment were consumed; [apiLog] and [sockLog] list the
    messages handed to the API server and to the socket. *)
Record World := {
  nowCalls : nat;
  uuidCalls : nat;
  firebaseOps : nat;
  probeCalls : nat;
  apiLog : list (string * string);
  sockLog : list (string * string);
  cache : HealthCache.t;
  lastResponseTime : option Z;
  store : Store.t;
  whatsappConnection : option Channel.t
}.

Definition set_nowCalls v (w : World) : World :=
  {| nowCalls := v; uuidCalls := uuidCalls w; firebaseOps := firebaseOps w;
     probeCalls := probeCalls w; apiLog := apiLog w; sockLog := sockLog w;
     cache := cache w; lastResponseTime := lastResponseTime w;
     store := store w; whatsappConnection := whatsappConnection w |}.

Definition set_uuidCalls v (w : World) : World :=
  {| nowCalls := nowCalls w; uuidCalls := v; firebaseOps := firebaseOps w;
     probeCalls := probeCalls w; apiLog := apiLog w; sockLog := sockLog w;
     cache := cache w; lastResponseTime := lastResponseTime w;
     store := store w; whatsappConnection := whatsappConnection w |}.

Definition set_firebaseOps v (w : World) : World :=
  {| nowCalls := nowCalls w; uuidCalls := uuidCalls w; firebaseOps := v;
     probeCalls := probeCalls w; apiLog := apiLog w; sockLog := sockLog w;
     cache := cache w; lastResponseTime := lastResponseTime w;
     store := store w; whatsappConnection := whatsappConnection w |}.

Definition set_probeCalls v (w : World) : World :=
  {| nowCalls := nowCalls w; uuidCalls := uuidCalls w; firebaseOps := firebaseOps w;
     probeCalls := v; apiLog := apiLog w; sockLog := sockLog w;
     cache := cache w; lastResponseTime := lastResponseTime w;
     store := store w; whatsappConnection := whatsappConnection w |}.

Definition set_apiLog v (w : World) : World :=
  {| nowCalls := nowCalls w; uuidCalls := uuidCalls w; firebaseOps := firebaseOps w;
     probeCalls := probeCalls w; apiLog := v; sockLog := sockLog w;
     cache := cache w; lastResponseTime := lastResponseTime w;
     store := store w; whatsappConnection := whatsappConnection w |}.

Definition set_sockLog v (w : World) : World :=
  {| nowCalls := nowCalls w; uuidCalls := uuidCalls w; firebaseOps := firebaseOps w;
     probeCalls := probeCalls w; apiLog := apiLog w; sockLog := v;
     cache := cache w; lastResponseTime := lastResponseTime w;
     store := store w; whatsappConnection := whatsappConnection w |}.

Definition set_cache v (w : World) : World :=
  {| nowCalls := nowCalls w; uuidCalls := uuidCalls w; firebaseOps := firebaseOps w;
     probeCalls := probeCalls w; apiLog := apiLog w; sockLog := sockLog w;
     cache := v; lastResponseTime := lastResponseTime w;
     store := store w; whatsappConnection := whatsappConnection w |}.

Definition set_lastResponseTime v (w : World) : World :=
  {| nowCalls := nowCalls w; uuidCalls := uuidCalls w; firebaseOps := firebaseOps w;
     probeCalls := probeCalls w; apiLog := apiLog w; sockLog := sockLog w;
     cache := cache w; lastResponseTime := v;
     store := store w; whatsappConnection := whatsappConnection w |}.

Definition set_store v (w : World) : World :=
  {| nowCalls := nowCalls w; uuidCalls := uuidCalls w; firebaseOps := firebaseOps w;
     probeCalls := probeCalls w; apiLog := apiLog w; sockLog := sockLog w;
     cache := cache w; lastResponseTime := lastResponseTime w;
     store := v; whatsappConnection := whatsappConnection w |}.

Definition set_whatsappConnection v (w : World) : World :=
  {| nowCalls := nowCalls w; uuidCalls := uuidCalls w; firebaseOps := firebaseOps w;
     probeCalls := probeCalls w; apiLog := apiLog w; sockLog := sockLog w;
     cache := cache w; lastResponseTime := lastResponseTime w;
     store := store w; whatsappConnection := v |}.

(** An async computation: from a state to a completion and the state
    it leaves. State changes made before a [throw] are kept. *)
Definition M (A : Type) : Type := World -> Completion A * World.

Definition ret {A} (a : A) : M A := fun w => (Return a, w).

Definition bind {A B} (m : M A) (f : A -> M B) : M B :=
  fun w =>
    match m w with
    | (Return a, w') => f a w'
    | (Throw e, w') => (Throw e, w')
    end.

Definition throw {A} (e : Exn) : M A := fun w => (Throw e, w).

(** [try { m } catch (error) { handler error }]. *)
Definition tryCatch {A} (m : M A) (handler : Exn -> M A) : M A :=
  fun w =>
    match m w with
    | (Return a, w') => (Return a, w')
    | (Throw e, w') => handler e w'
    end.

Definition get : M World := fun w => (Return w, w).
Definition modify (f : World -> World) : M unit := fun w => (Return tt, f w).

Declare Scope async_scope.
Delimit Scope async_scope with async.
Notation "x <- m ;; k" := (bind m (fun x => k))
  (at level 61, m at next level, right associativity) : async_scope.
Notation "m ;;; k" := (bind m (fun _ => k))
  (at level 61, right associativity) : async_scope.

Section WithEnv.
Variable env : Env.

(** [Date.now()]. *)
Definition now : M Z :=
  fun w => (Return (dateNow env (nowCalls w)), set_nowCalls (S (nowCalls w)) w).

(** [randomUUID()]. *)
Definition uuid : M string :=
  fun w => (Return (randomUUID env (uuidCalls w)), set_uuidCalls (S (uuidCalls w)) w).

(** One operation on a Firebase reference ([once('value')] or
    [set]): it takes effect and resolves, or it rejects. *)
Definition firebase {A} (op : M A) : M A :=
  fun w =>
    let w' := set_firebaseOps (S (firebaseOps w)) w in
    match firebaseFault env (firebaseOps w) with
    | Some msg => (Throw (error msg), w')
    | None => op w'
    end.

(** [await Promise.all([a, b, c])]: the three operations are started
    in order; the result rejects when one of them rejects. *)
Definition promiseAll3 {A B C} (a : M A) (b : M B) (c : M C) : M (A * B * C) :=
  fun w =>
    let '(ra, w1) := a w in
    let '(rb, w2) := b w1 in
    let '(rc, w3) := c w2 in
    match ra, rb, rc with
    | Return x, Return y, Return z => (Return (x, y, z), w3)
    | Throw e, _, _ => (Throw e, w3)
    | _, Throw e, _ => (Throw e, w3)
    | _, _, Throw e => (Throw e, w3)
    end.

End WithEnv.

End Runtime.

Import Runtime.
Local Open Scope async_scope.

(* ================================================================= *)
(** ** [WhatsAppConnection.ts]: the direct channel                     *)
(* ================================================================= *)

Module WhatsAppConnection.
Import Channel.

Definition MAX_RECONNECT_ATTEMPTS : Z := 3.
Definition BASE_RECONNECT_DELAY : Z := 5000.
Definition MAX_RECONNECT_DELAY : Z := 60000.

(** [lastDisconnect.error.output.statusCode], compared by the handler
    with two members of Baileys' [DisconnectReason]; [otherReason]
    stands for every other status code. *)
Inductive DisconnectReason :=
| loggedOut
| restartRequired
| otherReason (statusCode : Z).

Inductive Connection := connectionClose | connectionOpen | connectionConnecting.

(** The argument of a ["connection.update"] event. *)
Record ConnectionUpdate := {
  connection : option Connection;
  lastDisconnect : option DisconnectReason;
  qr : option string
}.

(** [setTimeout(callback, delay)]: a new pending timer. *)
Definition setTimeout (cb : Callback) (ms : Z) (s : t) : nat * t :=
  let h := timersCreated s in
  (h, set_timersCreated (S h)
        (set_timers (timers s ++ [{| handle := h; delay := ms; callback := cb |}]) s)).

(** [clearTimeout(handle)]. *)
Definition clearTimeout (h : nat) (s : t) : t :=
  set_timers (filter (fun tm => negb (Nat.eqb (handle tm) h)) (timers s)) s.

(** [calculateReconnectDelay], with [jitter] the value of
    [Math.random() * 1000] for this call. *)
Definition calculateReconnectDelay (jitter : Z) (s : t) : Z :=
  let delay := Z.min (BASE_RECONNECT_DELAY * 2 ^ reconnectAttempts s)
                     MAX_RECONNECT_DELAY in
  delay + jitter.

Definition scheduleReconnect (jitter : Z) (s : t) : t :=
  if MAX_RECONNECT_ATTEMPTS <=? reconnectAttempts s then
    set_isReconnecting false s
  else if isReconnecting s then
    s
  else
    let s1 := set_isReconnecting true s in
    let delay := calculateReconnectDelay jitter s1 in
    let '(h, s2) := setTimeout reconnectTimer delay s1 in
    set_reconnectTimeout (Some h) s2.

Definition resetReconnectState (s : t) : t :=
  let s1 := set_isReconnecting false (set_reconnectAttempts 0 s) in
  match reconnectTimeout s1 with
  | Some h => set_reconnectTimeout None (clearTimeout h s1)
  | None => s1
  end.

(** [connect()]. [ok] says whether loading the auth state and creating
    the socket went through; when it did, the new socket replaces
    [this.sock] and the handlers are registered on it. *)
Definition connect (ok : bool) (jitter : Z) (s : t) : t :=
  let s0 := set_connectCalls (S (connectCalls s)) s in
  if ok then
    set_sock (Some (connectCalls s)) s0
  else
    scheduleReconnect jitter (set_isAuthenticated false (set_isConnected false s0)).

(** The [qr] branch of the ["connection.update"] handler. *)
Definition onQR (u : ConnectionUpdate) (time : Z) (s : t) : t :=
  match qr u with
  | Some (String c q) =>
      match connectionState s with
      | waiting_for_qr => s
      | _ =>
          resetReconnectState
            (set_isConnected false
               (set_isAuthenticated false
                  (set_connectionState waiting_for_qr
                     (set_lastQRTime (Some time)
                        (set_currentQR (Some (String c q)) s)))))
      end
  | _ => s
  end.

(** The [connection === "close"] branch. *)
Definition onClose (statusCode : option DisconnectReason) (jitter : Z) (s : t) : t :=
  let shouldReconnect :=
    match statusCode with Some loggedOut => false | _ => true end in
  let s1 := set_isReconnecting false
              (set_connectionState disconnected (set_isConnected false s)) in
  match statusCode with
  | Some loggedOut =>
      resetReconnectState
        (set_lastQRTime None
           (set_currentQR None
              (set_userInfo None (set_isAuthenticated false s1))))
  | Some restartRequired =>
      snd (setTimeout scheduleTimer 1000 (set_reconnectAttempts 0 s1))
  | _ =>
      if shouldReconnect && negb (isReconnecting s1) then
        scheduleReconnect jitter s1
      else
        resetReconnectState s1
  end.

(** The [connection === "open"] branch; [user] is [this.sock.user]. *)
Definition onOpen (user : option UserInfo) (s : t) : t :=
  let s1 := resetReconnectState
              (set_lastQRTime None
                 (set_currentQR None
                    (set_connectionState connected
                       (set_isAuthenticated true (set_isConnected true s))))) in
  match user with
  | Some info => set_userInfo (Some info) s1
  | None => s1
  end.

(** The ["connection.update"] handler registered by [connect]. *)
Definition onConnectionUpdate (u : ConnectionUpdate) (user : option UserInfo)
    (time : Z) (jitter : Z) (s : t) : t :=
  let s1 := onQR u time s in
  match connection u with
  | Some connectionClose => onClose (lastDisconnect u) jitter s1
  | Some connectionOpen => onOpen user s1
  | Some connectionConnecting =>
      set_isConnected false (set_connectionState connecting s1)
  | None => s1
  end.

Definition disconnect (s : t) : t :=
  resetReconnectState (set_isAuthenticated false (set_isConnected false s)).

(** The assignments [forceReconnect] and [resetAuthentication] both
    start with. *)
Definition clearSession (s : t) : t :=
  resetReconnectState
    (set_lastQRTime None
       (set_currentQR None
          (set_userInfo None
             (set_isAuthenticated false (set_isConnected false s))))).

Definition forceReconnect (s : t) : t :=
  snd (setTimeout connectTimer 1000 (disconnect (clearSession s))).

Definition resetAuthentication (s : t) : t :=
  snd (setTimeout connectTimer 2000 (disconnect (clearSession s))).

(** A pending timer fires: it leaves the event loop and its callback
    runs. *)
Definition runCallback (cb : Callback) (ok : bool) (jitter : Z) (s : t) : t :=
  match cb with
  | reconnectTimer =>
      connect ok jitter (set_reconnectAttempts (reconnectAttempts s + 1) s)
  | scheduleTimer => scheduleReconnect jitter s
  | connectTimer => connect ok jitter s
  end.

Definition fire (h : nat) (ok : bool) (jitter : Z) (s : t) : t :=
  match find (fun tm => Nat.eqb (handle tm) h) (timers s) with
  | Some tm => runCallback (callback tm) ok jitter (clearTimeout h s)
  | None => s
  end.

(** What can happen to an instance: a method is called, the socket
    emits an update, or a timer fires. *)
Inductive Event :=
| connectCalled (ok : bool) (jitter : Z)
| updateEmitted (u : ConnectionUpdate) (user : option UserInfo) (time : Z) (jitter : Z)
| timerFired (h : nat) (ok : bool) (jitter : Z)
| disconnectCalled
| forceReconnectCalled
| resetAuthenticationCalled.

(** An update needs a socket with the handler on it; a timer fires
    only while it is pending. *)
Definition enabled (s : t) (ev : Event) : bool :=
  match ev with
  | updateEmitted _ _ _ _ => match sock s with Some _ => true | None => false end
  | timerFired h _ _ => existsb (fun tm => Nat.eqb (handle tm) h) (timers s)
  | _ => true
  end.

Definition step (s : t) (ev : Event) : t :=
  match ev with
  | connectCalled ok jitter => connect ok jitter s
  | updateEmitted u user time jitter => onConnectionUpdate u user time jitter s
  | timerFired h ok jitter => fire h ok jitter s
  | disconnectCalled => disconnect s
  | forceReconnectCalled => forceReconnect s
  | resetAuthenticationCalled => resetAuthentication s
  end.

Definition run (s : t) (evs : list Event) : t := fold_left step evs s.

(** The states an instance can be in. *)
Inductive reachable : t -> Prop :=
| reachable_initial : reachable initial
| reachable_step s ev :
    reachable s -> enabled s ev = true -> reachable (step s ev).

(** Pending timers that will call [connect] after a reconnect delay. *)
Definition pendingReconnects (s : t) : list Timer :=
  filter (fun tm => match callback tm with reconnectTimer => true | _ => false end)
         (timers s).

(** [getConnectionStatus().isConnected && ....isAuthenticated] in the
    [connected] state: the channel is ready. *)
Definition ready (s : t) : bool :=
  match connectionState s with
  | connected => isAuthenticated s
  | _ => false
  end.

(** Apart from the fields it resets, [disconnect] ends the socket
    ([this.sock.end(undefined)]); what the socket emits in answer is
    an [updateEmitted] event of its own. *)

Section WithEnv.
Variable env : Env.

Definition notConnected : Exn := error "WhatsApp not connected".

(** [sock.sendMessage(jid, { text })]: the message is handed to the
    socket, which resolves or rejects. *)
Definition sockSend (jid text : string) : M (option string) :=
  fun w =>
    let w' := set_sockLog (sockLog w ++ [(jid, text)]) w in
    match sockSendMessage env (List.length (sockLog w)) with
    | sockRejected e => (Throw e, w')
    | sockResolved keyId => (Return keyId, w')
    end.

(** [sendMessage(number, message)] on the instance [this]. *)
Definition sendMessage (this : t) (number message : string)
  : M SendMessageResult.t :=
  if negb (isConnected this)
     || match sock this with Some _ => false | None => true end
  then throw notConnected
  else
    let cleanNumber := keepChars isDigit number in
    let formattedNumber :=
      if includesChar "@"%char cleanNumber then cleanNumber
      else (cleanNumber ++ "@s.whatsapp.net")%string in
    tryCatch
      (keyId <- sockSend formattedNumber message ;;
       id <- match orString keyId None with
             | Some k => ret k
             | None => t <- now env ;; ret ("direct-" ++ numberToString t)%string
             end ;;
       t <- now env ;;
       ret {| SendMessageResult.success := true;
              SendMessageResult.method := direct;
              SendMessageResult.messageId := id;
              SendMessageResult.timestamp := t;
              SendMessageResult.position := None;
              SendMessageResult.error := None;
              SendMessageResult.key := keyId |})
      (fun e => throw e).

End WithEnv.

End WhatsAppConnection.

(* ================================================================= *)
(** ** [HealthChecker.ts]: the health monitor                          *)
(* ================================================================= *)

Module HealthChecker.
Import HealthCache.

(** The cache the constructor creates. *)
Definition initialCache : HealthCache.t :=
  {| lastCheck := None; lastResult := None; cacheTimeMs := 5000 |}.

Section WithEnv.
Variable env : Env.

(** [!this.cache.lastCheck] holds for [null] and for [0]. *)
Definition isCacheValid : M bool :=
  w <- get ;;
  match lastCheck (cache w) with
  | None => ret false
  | Some 0 => ret false
  | Some checked =>
      t <- now env ;;
      let cacheAge := t - checked in
      ret (cacheAge <? cacheTimeMs (cache w))
  end.

Definition updateResponseTime (responseTime : Z) : M unit :=
  modify (set_lastResponseTime (Some responseTime)).

Definition updateCache (result : bool) : M unit :=
  t <- now env ;;
  modify (fun w =>
    set_cache {| lastCheck := Some t; lastResult := Some result;
                 cacheTimeMs := cacheTimeMs (cache w) |} w).

(** [checkServerHealth]: one request to [/health]. *)
Definition checkServerHealth : M bool :=
  startTime <- now env ;;
  outcome <- (fun w => (Return (healthProbe env (probeCalls w)),
                        set_probeCalls (S (probeCalls w)) w)) ;;
  match outcome with
  | probeInvalidUrl msg => throw (error msg)
  | probeResponse statusCode =>
      t <- now env ;;
      updateResponseTime (t - startTime) ;;;
      ret (statusCode =? 200)
  | probeTimeout => ret false
  | probeError _ => ret false
  end.

(** [isServerHealthy]. The cached [lastResult!] is a boolean or
    [null]. *)
Definition isServerHealthy : M (option bool) :=
  valid <- isCacheValid ;;
  if valid then
    w <- get ;; ret (lastResult (cache w))
  else
    tryCatch
      (healthResult <- checkServerHealth ;;
       updateCache healthResult ;;;
       ret (Some healthResult))
      (fun _ =>
       updateCache false ;;;
       ret (Some false)).

Definition clearCache : M unit :=
  modify (fun w =>
    set_cache {| lastCheck := None; lastResult := None;
                 cacheTimeMs := cacheTimeMs (cache w) |} w).

Definition setCacheTime (ms : Z) : M unit :=
  modify (fun w =>
    set_cache {| lastCheck := lastCheck (cache w);
                 lastResult := lastResult (cache w);
                 cacheTimeMs := ms |} w).

End WithEnv.

End HealthChecker.

(* ================================================================= *)
(** ** [QueueManager.ts]: the durable queue                            *)
(* ================================================================= *)

Module QueueManager.

(** [ref.child(key).set(value)] on a partition: the child is replaced
    when it exists; a new child takes its place in lexical key order,
    the order in which a snapshot lists keys that are not integer-like
    (the ids [addMessage] writes under are UUIDs). *)
Fixpoint setChild (key : string) (value : QueueMessage.t) (p : Partition) : Partition :=
  match p with
  | [] => [(key, value)]
  | (k, x) :: p' =>
      if String.eqb k key then (key, value) :: p'
      else if String.ltb key k then (key, value) :: (k, x) :: p'
      else (k, x) :: setChild key value p'
  end.

Definition setPending (key : string) (value : QueueMessage.t) (w : World) : World :=
  set_store {| Store.pending := setChild key value (Store.pending (store w));
               Store.processing := Store.processing (store w);
               Store.heartbeat := Store.heartbeat (store w) |} w.

(** [(a, b) => messages[a].queuedAt - messages[b].queuedAt], on the
    entries of the snapshot. *)
Definition byQueuedAt (a b : string * QueueMessage.t) : Z :=
  QueueMessage.queuedAt (snd a) - QueueMessage.queuedAt (snd b).

(** [Object.keys(messages).sort(...)]. *)
Definition sortedIds (messages : Partition) : list string :=
  map fst (JS.sort byQueuedAt messages).

(** The body of [getQueuePosition] once the snapshot is read. *)
Definition positionIn (messages : Partition) (messageId : string) : Z :=
  match messages with
  | [] => -1
  | _ => indexOf (sortedIds messages) messageId
  end.

(** The all-zero status of the [catch] branch of [getQueueStatus]. *)
Definition emptyStatus : QueueStatus.t :=
  {| QueueStatus.totalMessages := 0;
     QueueStatus.pendingMessages := 0;
     QueueStatus.processingMessages := 0;
     QueueStatus.sentMessages := 0;
     QueueStatus.failedMessages := 0;
     QueueStatus.isProcessing := false;
     QueueStatus.lastProcessed := None;
     QueueStatus.nextProcessingTime := None;
     QueueStatus.serverAlive := None |}.

(** [conditions.custom]: absent (or falsy), a function that returns a
    boolean or throws, or some other truthy value. *)
Inductive Custom :=
| customAbsent
| customFunction (f : QueueStatus.t -> Completion bool)
| customOther.

Record Evaluation := { result : bool; reason : string }.

Definition evaluateConditions (queueStatus : QueueStatus.t) (custom : Custom)
  : Evaluation :=
  match custom with
  | customAbsent =>
      if negb (truthy (QueueStatus.serverAlive queueStatus)) then
        {| result := true; reason := "server_offline" |}
      else if 0 <? QueueStatus.totalMessages queueStatus then
        {| result := true; reason := "queue_not_empty" |}
      else
        {| result := false; reason := "server_online_queue_empty" |}
  | customFunction f =>
      match f queueStatus with
      | Return customResult =>
          {| result := customResult;
             reason := if customResult then "custom_condition_met"
                       else "custom_condition_failed" |}
      | Throw e =>
          {| result := false;
             reason := ("custom_condition_error: " ++ message e)%string |}
      end
  | customOther => {| result := false; reason := "invalid_conditions" |}
  end.

Record ConditionalAddResult := {
  success : bool;
  method : string;
  reason' : option string;
  queueStatus : option QueueStatus.t;
  messageId : option string;
  timestamp : option Z;
  position : option Z
}.

(** The object [getProcessingEstimate] returns; its [position] and
    [error] are [estimatePosition] and [estimateError] here. *)
Record ProcessingEstimate := {
  found : bool;
  estimatePosition : option Z;
  messagesAhead : option Z;
  estimatedWaitTimeMs : option Z;
  estimatedWaitTimeMin : option Z;
  serverStatus : option string;
  note : option string;
  estimateError : option string
}.

Section WithEnv.
Variable env : Env.

Definition generateMessageId : M string := uuid env.

Definition readPending : M Partition :=
  firebase env (w <- get ;; ret (Store.pending (store w))).

Definition readProcessing : M Partition :=
  firebase env (w <- get ;; ret (Store.processing (store w))).

Definition readHeartbeat : M (option Heartbeat.t) :=
  firebase env (w <- get ;; ret (Store.heartbeat (store w))).

Definition getQueuePosition (messageId : string) : M Z :=
  tryCatch
    (messages <- readPending ;;
     ret (positionIn messages messageId))
    (fun _ => ret (-1)).

Definition addMessage (messageData : MessageData.t) : M SendMessageResult.t :=
  tryCatch
    (messageId <- generateMessageId ;;
     timestamp <- now env ;;
     position <- getQueuePosition messageId ;;
     queuedAt <- now env ;;
     firebase env
       (modify (setPending messageId
          {| QueueMessage.number := MessageData.number messageData;
             QueueMessage.message := MessageData.message messageData;
             QueueMessage.options := MessageData.options messageData;
             QueueMessage.source := MessageData.source messageData;
             QueueMessage.version := MessageData.version messageData;
             QueueMessage.priority := MessageData.priority messageData;
             QueueMessage.id := messageId;
             QueueMessage.timestamp := timestamp;
             QueueMessage.status := pending;
             QueueMessage.retryCount := 0;
             QueueMessage.position := position;
             QueueMessage.queuedAt := queuedAt;
             QueueMessage.attempts := 0 |})) ;;;
     position' <- getQueuePosition messageId ;;
     ret {| SendMessageResult.success := true;
            SendMessageResult.method := queued;
            SendMessageResult.messageId := messageId;
            SendMessageResult.timestamp := timestamp;
            SendMessageResult.position := Some position';
            SendMessageResult.error := None;
            SendMessageResult.key := None |})
    (fun e => throw (error ("Failed to queue message: " ++ message e)%string)).

(** [isServerAlive] is computed, and is not part of the object
    returned. *)
Definition getQueueStatus : M QueueStatus.t :=
  tryCatch
    (snaps <- promiseAll3 readPending readProcessing readHeartbeat ;;
     let '(pendingSnap, processingSnap, heartbeat) := snaps in
     let pendingMessages := Z.of_nat (List.length pendingSnap) in
     let processingMessages := Z.of_nat (List.length processingSnap) in
     isServerAlive <-
       match heartbeat with
       | None => ret false
       | Some hb =>
           if Heartbeat.alive hb then
             t <- now env ;;
             ret (t - orNumber (Heartbeat.lastSeen hb) 0 <? 60000)
           else ret false
       end ;;
     ret {| QueueStatus.totalMessages := pendingMessages + processingMessages;
            QueueStatus.pendingMessages := pendingMessages;
            QueueStatus.processingMessages := processingMessages;
            QueueStatus.sentMessages := 0;
            QueueStatus.failedMessages := 0;
            QueueStatus.isProcessing := 0 <? processingMessages;
            QueueStatus.lastProcessed :=
              match heartbeat with
              | Some hb => orUndefined (Heartbeat.lastProcessed hb)
              | None => None
              end;
            QueueStatus.nextProcessingTime :=
              match heartbeat with
              | Some hb => orUndefined (Heartbeat.nextProcessingTime hb)
              | None => None
              end;
            QueueStatus.serverAlive := None |})
    (fun _ => ret emptyStatus).

Definition conditionalAdd (messageData : MessageData.t) (custom : Custom)
  : M ConditionalAddResult :=
  tryCatch
    (status <- getQueueStatus ;;
     let shouldAdd := evaluateConditions status custom in
     if result shouldAdd then
       r <- addMessage messageData ;;
       ret {| success := true;
              method := "queued";
              reason' := None;
              queueStatus := None;
              messageId := Some (SendMessageResult.messageId r);
              timestamp := Some (SendMessageResult.timestamp r);
              position := SendMessageResult.position r |}
     else
       ret {| success := false;
              method := "condition_failed";
              reason' := Some (reason shouldAdd);
              queueStatus := Some status;
              messageId := None;
              timestamp := None;
              position := None |})
    (fun e => throw (error ("Conditional add failed: " ++ message e)%string)).

(** [getProcessingEstimate]. The two calls of [Promise.all] start in
    order: the three reads of [getQueueStatus], then the read of
    [getQueuePosition]. [Math.ceil(x / 60000)] is [- ((- x) / 60000)]
    on integers. *)
Definition getProcessingEstimate (messageId : string) : M ProcessingEstimate :=
  tryCatch
    (status <- getQueueStatus ;;
     position <- getQueuePosition messageId ;;
     if position =? -1 then
       ret {| found := false;
              estimatePosition := None;
              messagesAhead := None;
              estimatedWaitTimeMs := None;
              estimatedWaitTimeMin := None;
              serverStatus := None;
              note := None;
              estimateError := Some "Message not found in pending queue" |}
     else
       let avgProcessingTime := 3000 in
       let estimatedWaitTime := position * avgProcessingTime in
       ret {| found := true;
              estimatePosition := Some (position + 1);
              messagesAhead := Some position;
              estimatedWaitTimeMs := Some estimatedWaitTime;
              estimatedWaitTimeMin := Some (- ((- estimatedWaitTime) / 60000));
              serverStatus :=
                Some (if truthy (QueueStatus.serverAlive status)
                      then "online" else "offline");
              note :=
                Some (if truthy (QueueStatus.serverAlive status)
                      then "Server is processing messages"
                      else "Server is offline, messages will be processed when server comes online");
              estimateError := None |})
    (fun e =>
     ret {| found := false;
            estimatePosition := None;
            messagesAhead := None;
            estimatedWaitTimeMs := None;
            estimatedWaitTimeMin := None;
            serverStatus := None;
            note := None;
            estimateError := Some (JS.message e) |}).

End WithEnv.

End QueueManager.

(* ================================================================= *)
(** ** [ApiClient.ts]: the remote API                                  *)
(* ================================================================= *)

Module ApiClient.

Record SendMessageResult := {
  success : bool;
  messageId : string;
  timestamp : Z
}.

(** [BatchMessage]: [{ number, message, options }]. *)
Record BatchMessage := {
  batchNumber : string;
  batchText : string;
  batchOptions : SendMessageOptions.t
}.

(** [BatchResult]: [{ index, success, messageId, timestamp, error,
    number, message }], in this order. *)
Record BatchResult := {
  index : Z;
  sent : bool;
  sentId : option string;
  sentAt : option Z;
  failure : option string;
  failedNumber : option string;
  failedText : option string
}.

Section WithEnv.
Variable env : Env.

(** [makeApiRequest('/api/send-message', ...)] with the payload
    [{ number, message, ...options }]. *)
Definition makeApiRequest (number message : string) : M ApiResponse :=
  fun w =>
    let w' := set_apiLog (apiLog w ++ [(number, message)]) w in
    match apiRequest env (List.length (apiLog w)) with
    | apiResolved response => (Return response, w')
    | apiRejected msg => (Throw (error msg), w')
    end.

Definition sendMessage (number message : string) (options : SendMessageOptions.t)
  : M SendMessageResult :=
  tryCatch
    (response <- makeApiRequest number message ;;
     if negb (apiSuccess response) then
       throw (error match orString (apiError response) None with
                    | Some e => e
                    | None => "API request failed"
                    end)
     else
       id <- match orString (apiMessageId response)
                     (orString (apiKeyId response) None) with
             | Some i => ret i
             | None => t <- now env ;; ret ("api-" ++ numberToString t)%string
             end ;;
       ts <- match orUndefined (apiMessageTimestamp response) with
             | Some t => ret t
             | None => now env
             end ;;
       ret {| success := true; messageId := id; timestamp := ts |})
    (fun e => throw (error ("API request failed: " ++ JS.message e)%string)).

(** [delay(ms)]: the promise resolves after [ms] milliseconds; the
    state of the process is what it was. *)
Definition delay (ms : Z) : M unit := ret tt.

(** The loop of [sendBatch] from index [i] on: one [sendMessage] per
    entry, its outcome pushed on [results], and a pause before every
    entry but the first. *)
Fixpoint sendBatchFrom (i : Z) (messages : list BatchMessage) (pause : Z)
  : M (list BatchResult) :=
  match messages with
  | [] => ret []
  | msg :: rest =>
      r <- tryCatch
             (result <- sendMessage (batchNumber msg) (batchText msg)
                          (batchOptions msg) ;;
              ret {| index := i;
                     sent := true;
                     sentId := Some (messageId result);
                     sentAt := Some (timestamp result);
                     failure := None;
                     failedNumber := None;
                     failedText := None |})
             (fun e =>
              ret {| index := i;
                     sent := false;
                     sentId := None;
                     sentAt := None;
                     failure := Some (JS.message e);
                     failedNumber := Some (batchNumber msg);
                     failedText := Some (batchText msg) |}) ;;
      match rest with
      | [] => ret tt
      | _ => delay pause
      end ;;;
      results <- sendBatchFrom (i + 1) rest pause ;;
      ret (r :: results)
  end.

(** [sendBatch(messages, options)], with [options.batchDelay || 1000]. *)
Definition sendBatch (messages : list BatchMessage) (batchDelay : option Z)
  : M (list BatchResult) :=
  sendBatchFrom 0 messages (orNumber batchDelay 1000).

End WithEnv.

End ApiClient.

(* ================================================================= *)
(** ** [Whaple.ts]: the router                                         *)
(* ================================================================= *)

Module Whaple.

(** A service account, as far as the SDK looks into it. *)
Record FirebaseServiceAccount := {
  project_id : string;
  client_email : string;
  private_key : string
}.

(** The constructor argument: the keys of [WhapleConfig] that decide
    what the modelled code does, and [useDirectWhatsApp]. ([debug] only
    switches logging on; the timeouts and retry settings go to the
    HTTP requests, whose outcomes are read from the environment.) *)
Record WhapleConfig := {
  whatsappServerUrl : Property string;
  apiKey : Property string;
  firebaseConfig : Property FirebaseServiceAccount;
  enableSmartRouting : Property bool;
  queueThreshold : Property Z;
  useDirectWhatsApp : Property bool
}.

(** What the constructor finds around it: the three variables of
    [process.env]; what [JSON.parse] makes of the service account
    variable ([None] when it throws or gives a falsy value); and
    whether the firebase-admin calls of [initializeServices] throw, and
    with which message, for the service account they are given. *)
Record Host := {
  WHATSAPP_SERVER_URL : option string;
  WHATSAPP_API_KEY : option string;
  FIREBASE_SERVICE_ACCOUNT : option string;
  jsonParse : string -> option FirebaseServiceAccount;
  initializeFirebase : option FirebaseServiceAccount -> option string
}.

(** [this.useDirectWhatsApp] and what the router reads of
    [this.config] after the constructor: whether [enableSmartRouting]
    is truthy, and [queueThreshold] ([None] when it is [undefined]). *)
Record t := {
  directWhatsApp : bool;
  smartRouting : bool;
  threshold : option Z
}.

Definition missing (a : option string) : bool :=
  match orString a None with Some _ => false | None => true end.

(** [parseFirebaseConfig]: [null] when the variable is not set, is
    empty or does not parse. *)
Definition parseFirebaseConfig (host : Host) : option FirebaseServiceAccount :=
  match orString (FIREBASE_SERVICE_ACCOUNT host) None with
  | Some configStr => jsonParse host configStr
  | None => None
  end.

Section WithEnv.
Variable env : Env.

(** [new ConfigurationError(msg)], [new ValidationError(msg)]: the
    constructor of [WhapleError] reads the clock. *)
Definition newWhapleError (errorClass : ErrorClass) (msg : string) : M Exn :=
  time <- now env ;;
  ret (mkExn errorClass msg (Some time)).

Definition validateConfig (direct : bool) (url key : option string)
    (firebase : option FirebaseServiceAccount) : M unit :=
  if negb direct && missing url then
    e <- newWhapleError ConfigurationError
           "WhatsApp server URL is required when not using direct WhatsApp connection" ;;
    throw e
  else if negb direct && missing key then
    e <- newWhapleError ConfigurationError
           "API key is required when not using direct WhatsApp connection" ;;
    throw e
  else
    match firebase with
    | None =>
        e <- newWhapleError ConfigurationError "Firebase configuration is required" ;;
        throw e
    | Some _ => ret tt
    end.

(** [initializeServices]: Firebase first, inside its own [try]; then
    a new health checker (with an empty cache) and, in direct mode
    only, a new WhatsApp connection. The API client is created in the
    other mode only: see [withApiClient]. *)
Definition initializeServices (host : Host) (direct : bool)
    (firebase : option FirebaseServiceAccount) : M unit :=
  match initializeFirebase host firebase with
  | Some msg =>
      e <- newWhapleError ConfigurationError
             ("Firebase initialization failed: " ++ msg)%string ;;
      throw e
  | None =>
      modify (fun w =>
        set_whatsappConnection (if direct then Some Channel.initial else None)
          (set_lastResponseTime None
             (set_cache HealthChecker.initialCache w)))
  end.

(** The constructor. Each default is written before [...config], so
    a key the caller passes wins over it, also when its value is
    [undefined]. *)
Definition create (host : Host) (config : WhapleConfig) : M t :=
  let direct := truthy (read (useDirectWhatsApp config)) in
  let url :=
    spreadOver
      (orString (read (whatsappServerUrl config))
         (orString (WHATSAPP_SERVER_URL host) (Some "")))
      (whatsappServerUrl config) in
  let key :=
    spreadOver
      (orString (read (apiKey config))
         (orString (WHATSAPP_API_KEY host) (Some "")))
      (apiKey config) in
  let firebase :=
    spreadOver
      (match read (firebaseConfig config) with
       | Some c => Some c
       | None => parseFirebaseConfig host
       end)
      (firebaseConfig config) in
  let this :=
    {| directWhatsApp := direct;
       smartRouting :=
         truthy
           (spreadOver
              (Some (match read (enableSmartRouting config) with
                     | Some false => false
                     | _ => true
                     end))
              (enableSmartRouting config));
       threshold :=
         spreadOver (Some (orNumber (read (queueThreshold config)) 0))
           (queueThreshold config) |} in
  validateConfig direct url key firebase ;;;
  initializeServices host direct firebase ;;;
  ret this.

(** [normalizePhoneNumber]. The class [[^\d+]] keeps digits and every
    ['+']. *)
Definition normalizePhoneNumber (number : string) : M string :=
  match number with
  | EmptyString =>
      e <- newWhapleError ValidationError "Phone number is required" ;;
      throw e
  | _ =>
      let normalized :=
        keepChars (fun c => isDigit c || Ascii.eqb c "+"%char) number in
      if negb (startsWithPlus normalized) then
        ret (String "+"%char normalized)
      else ret normalized
  end.

Variable this : t.

(** [this.apiClient.m(...)]: [initializeServices] creates the API
    client only when the direct connection is off. In direct mode
    [this.apiClient] is [undefined] and the call throws a [TypeError]
    before its arguments are evaluated. *)
Definition withApiClient {A} (call : M A) : M A :=
  if directWhatsApp this then throw undefinedReceiver else call.

(** The object literal [messageData] of [sendMessage] and
    [queueMessage]. *)
Definition buildMessageData (number message : string)
    (options : SendMessageOptions.t) : M MessageData.t :=
  normalized <- normalizePhoneNumber number ;;
  timestamp <- now env ;;
  ret {| MessageData.number := normalized;
         MessageData.message := message;
         MessageData.options := options;
         MessageData.source := "sdk";
         MessageData.version := "1.0.0";
         MessageData.timestamp := timestamp;
         MessageData.priority :=
           match SendMessageOptions.priority options with
           | Some p => p
           | None => medium
           end |}.

Definition sendDirectWithFallback (messageData : MessageData.t)
  : M SendMessageResult.t :=
  tryCatch
    (result <- withApiClient
                 (ApiClient.sendMessage env
                    (MessageData.number messageData)
                    (MessageData.message messageData)
                    (MessageData.options messageData)) ;;
     id <- match ApiClient.messageId result with
           | EmptyString =>
               t <- now env ;; ret ("direct-" ++ numberToString t)%string
           | i => ret i
           end ;;
     timestamp <- now env ;;
     ret {| SendMessageResult.success := true;
            SendMessageResult.method := direct;
            SendMessageResult.messageId := id;
            SendMessageResult.timestamp := timestamp;
            SendMessageResult.position := None;
            SendMessageResult.error := None;
            SendMessageResult.key := None |})
    (fun e =>
     queueResult <- QueueManager.addMessage env messageData ;;
     ret {| SendMessageResult.success := SendMessageResult.success queueResult;
            SendMessageResult.method := SendMessageResult.method queueResult;
            SendMessageResult.messageId := SendMessageResult.messageId queueResult;
            SendMessageResult.timestamp := SendMessageResult.timestamp queueResult;
            SendMessageResult.position := SendMessageResult.position queueResult;
            SendMessageResult.error := Some ("Fallback: " ++ message e)%string;
            SendMessageResult.key := None |}).

(** [shouldUseQueue] of [smartRoutingDecision]; [n > undefined] is
    false. *)
Definition shouldUseQueue (isServerHealthy : option bool)
    (queueStatus : QueueStatus.t) : bool :=
  negb (truthy isServerHealthy)
  || match threshold this with
     | Some queueThreshold =>
         queueThreshold <? QueueStatus.pendingMessages queueStatus
     | None => false
     end
  || (0 <? QueueStatus.processingMessages queueStatus).

Definition smartRoutingDecision (messageData : MessageData.t)
  : M SendMessageResult.t :=
  tryCatch
    (isServerHealthy <- HealthChecker.isServerHealthy env ;;
     queueStatus <- QueueManager.getQueueStatus env ;;
     if shouldUseQueue isServerHealthy queueStatus then
       QueueManager.addMessage env messageData
     else
       sendDirectWithFallback messageData)
    (fun _ => QueueManager.addMessage env messageData).

Definition queueMessage (number message : string)
    (options : SendMessageOptions.t) : M SendMessageResult.t :=
  messageData <- buildMessageData number message options ;;
  QueueManager.addMessage env messageData.

Definition sendDirect (number message : string)
    (options : SendMessageOptions.t) : M ApiClient.SendMessageResult :=
  withApiClient
    (normalized <- normalizePhoneNumber number ;;
     ApiClient.sendMessage env normalized message options).

Definition sendMessage (number message : string)
    (options : SendMessageOptions.t) : M SendMessageResult.t :=
  messageData <- buildMessageData number message options ;;
  tryCatch
    (w <- get ;;
     match (if directWhatsApp this then whatsappConnection w else None) with
     | Some connection =>
         if Channel.isConnected connection && Channel.isAuthenticated connection
         then
           tryCatch
             (WhatsAppConnection.sendMessage env connection
                (MessageData.number messageData)
                (MessageData.message messageData))
             (fun _ => QueueManager.addMessage env messageData)
         else QueueManager.addMessage env messageData
     | None =>
         if smartRouting this then smartRoutingDecision messageData
         else queueMessage (MessageData.number messageData)
                           (MessageData.message messageData) options
     end)
    (fun e => throw (error ("Failed to send message: " ++ JS.message e)%string)).

End WithEnv.

End Whaple.

(* ================================================================= *)
(** ** The vocabulary of the specification                             *)
(* ================================================================= *)

Module Spec.

Fixpoint allChars (p : ascii -> bool) (s : string) : bool :=
  match s with
  | EmptyString => true
  | String c s' => p c && allChars p s'
  end.

Definition isPlus (c : ascii) : bool := Ascii.eqb c "+"%char.

(** A ['+'] followed only by characters that satisfy [p]. *)
Definition plusThen (p : ascii -> bool) (s : string) : bool :=
  match s with
  | String c rest => isPlus c && allChars p rest
  | EmptyString => false
  end.

(** The canonical form of a destination: ['+'], then digits only. *)
Definition canonical (s : string) : bool := plusThen isDigit s.

Definition digitOrPlus (c : ascii) : bool := isDigit c || isPlus c.

(** The destination has no ['+'] after its first character. *)
Definition plusOnlyInFront (d : string) : bool :=
  match d with
  | String _ rest => negb (includesChar "+"%char rest)
  | EmptyString => true
  end.

(** Ascending [queuedAt], ties broken by the lexical order of the id. *)
Definition precedes (a b : string * QueueMessage.t) : bool :=
  (QueueMessage.queuedAt (snd a) <? QueueMessage.queuedAt (snd b))
  || ((QueueMessage.queuedAt (snd a) =? QueueMessage.queuedAt (snd b))
      && String.ltb (fst a) (fst b)).

(** The record stored under an id, if any. *)
Definition child (messageId : string) (p : Partition)
  : option (string * QueueMessage.t) :=
  find (fun e => String.eqb (fst e) messageId) p.

(** The 0-based rank of a record in that order: how many records of
    the partition precede it; [-1] when the id is not there. *)
Definition rank (p : Partition) (messageId : string) : Z :=
  match child messageId p with
  | Some e => Z.of_nat (List.length (filter (fun x => precedes x e) p))
  | None => -1
  end.

(** The records the partition enumerates before the one with the
    given id. *)
Fixpoint enumeratedBefore (messageId : string) (p : Partition) : Partition :=
  match p with
  | [] => []
  | x :: p' =>
      if String.eqb (fst x) messageId then []
      else x :: enumeratedBefore messageId p'
  end.

(** The 0-based rank of a record in the order of ascending [queuedAt],
    ties broken by the order in which the partition enumerates its
    children: the number of records queued earlier, plus the number of
    records queued at the same time and enumerated before it; [-1]
    when the id is not there. *)
Definition rankAsEnumerated (p : Partition) (messageId : string) : Z :=
  match child messageId p with
  | Some e =>
      Z.of_nat
        (List.length
           (filter (fun x => QueueMessage.queuedAt (snd x)
                             <? QueueMessage.queuedAt (snd e)) p)
         + List.length
             (filter (fun x => QueueMessage.queuedAt (snd x)
                               =? QueueMessage.queuedAt (snd e))
                (enumeratedBefore messageId p)))
  | None => -1
  end.

(** The partition lists the children of one node: no key twice. *)
Definition distinctKeys (p : Partition) : Prop := NoDup (map fst p).

Definition before (a b : string * QueueMessage.t) : Prop := precedes a b = true.

(** The order the comparator of [getQueuePosition] sorts by. *)
Definition queuedNoLater (a b : string * QueueMessage.t) : Prop :=
  QueueMessage.queuedAt (snd a) <= QueueMessage.queuedAt (snd b).

Definition keyBefore (a b : string * QueueMessage.t) : Prop :=
  String.ltb (fst a) (fst b) = true.

(** The children of the partition are enumerated in ascending key
    order, as Firebase does for keys that are not integers. *)
Definition keyOrdered (p : Partition) : Prop := StronglySorted keyBefore p.

(** A probe that did not succeed: a timeout, a network error, a
    request that could not be made, or a status outside 2xx. *)
Definition probeFails (o : ProbeOutcome) : bool :=
  match o with
  | probeResponse statusCode => negb ((200 <=? statusCode) && (statusCode <? 300))
  | _ => true
  end.



(** What [this.config] holds for a credential after the constructor:
    the caller's value when the key is passed (also when the value is
    [undefined]), the environment variable otherwise. *)
Definition credential (given : Property string) (variable : option string)
  : option string :=
  match given with
  | absent => variable
  | undefined => None
  | present s => Some s
  end.

(** Likewise for the service account; the environment variable is
    parsed. *)
Definition serviceAccountOf (host : Whaple.Host) (config : Whaple.WhapleConfig)
  : option Whaple.FirebaseServiceAccount :=
  match Whaple.firebaseConfig config with
  | absent => Whaple.parseFirebaseConfig host
  | undefined => None
  | present c => Some c
  end.



(** The default policy of [conditionalEnqueue]: enqueue iff the worker
    is not alive or something is queued or processing. *)
Definition defaultPolicy (workerAlive : bool) (total : Z) : bool :=
  negb workerAlive || (0 <? total).

(** Liveness of the worker: [heartbeat.alive] and a heartbeat seen
    less than a minute ago. *)
Definition workerAlive (hb : option Heartbeat.t) (time : Z) : bool :=
  match hb with
  | Some h =>
      Heartbeat.alive h
      && (time - match Heartbeat.lastSeen h with Some t => t | None => 0 end <? 60000)
  | None => false
  end.

(** An API request that went through: the server answered with a body
    whose [success] is true. *)
Definition accepts (o : ApiOutcome) : bool :=
  match o with
  | apiResolved response => apiSuccess response
  | apiRejected _ => false
  end.

(** The reason [ApiClient.sendMessage] quotes when a request fails. *)
Definition refusal (o : ApiOutcome) : string :=
  match o with
  | apiResolved response =>
      match orString (apiError response) None with
      | Some e => e
      | None => "API request failed"
      end
  | apiRejected msg => msg
  end.

(** "The message is enqueued": the [pending] partition holds, under
    the id of the result, a record with the destination and the text
    of the message and status [pending]; its other records are as they
    were. *)
Definition isEnqueued (md : MessageData.t) (r : SendMessageResult.t)
    (before after : Store.t) : Prop :=
  (exists record,
      child (SendMessageResult.messageId r) (Store.pending after)
      = Some (SendMessageResult.messageId r, record)
      /\ QueueMessage.number record = MessageData.number md
      /\ QueueMessage.message record = MessageData.message md
      /\ QueueMessage.status record = pending)
  /\ (forall k, k <> SendMessageResult.messageId r ->
        child k (Store.pending after) = child k (Store.pending before)).

(** Whether a call returned. *)
Definition returned {A} (c : Completion A) : bool :=
  match c with
  | Return _ => true
  | Throw _ => false
  end.

End Spec.

Import Spec.

(* ================================================================= *)
(** ** How a routed call ends                                          *)
(* ================================================================= *)

Module Outcome.
Section WithEnv.
Variable env : Env.

(** The error [sendMessage] rethrows. *)
Definition failed (e : Exn) : Exn :=
  error ("Failed to send message: " ++ JS.message e)%string.

(** What the router returns when it enqueues: the result of
    [addMessage], of a second [addMessage] when the first one throws,
    or the error of the second one. *)
Definition enqueueOnce (md : MessageData.t) (w : World)
  : Completion SendMessageResult.t * World :=
  match QueueManager.addMessage env md w with
  | (Return r, w') => (Return r, w')
  | (Throw _, w') => QueueManager.addMessage env md w'
  end.

(** The outer [try]/[catch] of [sendMessage]. *)
Definition wrapFailure {A} (out : Completion A * World) : Completion A * World :=
  match out with
  | (Return r, w') => (Return r, w')
  | (Throw e, w') => (Throw (failed e), w')
  end.

(** The result of the fallback: the enqueue result, with the error of
    the direct attempt in its [error] field. *)
Definition annotate (q : SendMessageResult.t) (e : Exn) : SendMessageResult.t :=
  {| SendMessageResult.success := SendMessageResult.success q;
     SendMessageResult.method := SendMessageResult.method q;
     SendMessageResult.messageId := SendMessageResult.messageId q;
     SendMessageResult.timestamp := SendMessageResult.timestamp q;
     SendMessageResult.position := SendMessageResult.position q;
     SendMessageResult.error := Some ("Fallback: " ++ JS.message e)%string;
     SendMessageResult.key := None |}.

End WithEnv.
End Outcome.
Import Outcome.

(* ================================================================= *)
(** ** Invariants of the direct channel                                *)
(* ================================================================= *)

Module Invariant.
Import Channel.

(** The fields [sendMessage] and the router look at. *)
Definition core (s : Channel.t) :=
  (sock s, isConnected s, isAuthenticated s, connectionState s).

(** [isConnected] is only ever true in the [connected] state of an
    authenticated session that has a socket. *)
Definition consistent (s : Channel.t) : Prop :=
  isConnected s = true ->
  connectionState s = connected /\ isAuthenticated s = true /\ sock s <> None.

(** Conversely, a connected and authenticated session has
    [isConnected] set. *)
Definition settled (s : Channel.t) : Prop :=
  connectionState s = connected -> isAuthenticated s = true ->
  isConnected s = true.

End Invariant.
Import Invariant.

(* ================================================================= *)
(** ** Concrete environments and states                                *)
(* ================================================================= *)

Module Scenario.

Definition clock (n : nat) : Z := 1000 + Z.of_nat n.

Definition ids (n : nat) : string :=
  match n with
  | O => "m1"
  | 1%nat => "m2"
  | _ => "m3"
  end.

Definition accepted : ApiResponse :=
  {| apiSuccess := true; apiMessageId := Some "wamid-1"; apiKeyId := None;
     apiError := None; apiMessageTimestamp := None |}.

(** Everything works. *)
Definition allUp : Env :=
  {| dateNow := clock; randomUUID := ids;
     firebaseFault := fun _ => None;
     healthProbe := fun _ => probeResponse 200;
     apiRequest := fun _ => apiResolved accepted;
     sockSendMessage := fun _ => sockResolved (Some "key-1") |}.

(** The server answers the probe and rejects the send. *)
Definition apiDown : Env :=
  {| dateNow := clock; randomUUID := ids;
     firebaseFault := fun _ => None;
     healthProbe := fun _ => probeResponse 200;
     apiRequest := fun _ => apiRejected "Network error: down";
     sockSendMessage := fun _ => sockResolved None |}.

(** The probe times out; the database works. *)
Definition probeDown : Env :=
  {| dateNow := clock; randomUUID := ids;
     firebaseFault := fun _ => None;
     healthProbe := fun _ => probeTimeout;
     apiRequest := fun _ => apiResolved accepted;
     sockSendMessage := fun _ => sockResolved None |}.

(** The probe times out and the database is unreachable. *)
Definition allDown : Env :=
  {| dateNow := clock; randomUUID := ids;
     firebaseFault := fun _ => Some "PERMISSION_DENIED";
     healthProbe := fun _ => probeTimeout;
     apiRequest := fun _ => apiRejected "Network error: down";
     sockSendMessage := fun _ => sockRejected (error "closed") |}.

Definition emptyStore : Store.t :=
  {| Store.pending := []; Store.processing := []; Store.heartbeat := None |}.

Definition freshWorld (s : Store.t) : World :=
  {| nowCalls := 0; uuidCalls := 0; firebaseOps := 0; probeCalls := 0;
     apiLog := []; sockLog := [];
     cache := HealthChecker.initialCache; lastResponseTime := None;
     store := s; whatsappConnection := None |}.

Definition queuedRecord (key : string) (time : Z) : string * QueueMessage.t :=
  (key,
   {| QueueMessage.number := "+15555550100";
      QueueMessage.message := "earlier";
      QueueMessage.options := SendMessageOptions.empty;
      QueueMessage.source := "sdk";
      QueueMessage.version := "1.0.0";
      QueueMessage.priority := medium;
      QueueMessage.id := key;
      QueueMessage.timestamp := time;
      QueueMessage.status := pending;
      QueueMessage.retryCount := 0;
      QueueMessage.position := -1;
      QueueMessage.queuedAt := time;
      QueueMessage.attempts := 0 |}).

(** Three pending records; ["a"] and ["b"] were queued at the same
    time, ["c"] before them. *)
Definition backlog : Store.t :=
  {| Store.pending := [queuedRecord "a" 5; queuedRecord "b" 5; queuedRecord "c" 1];
     Store.processing := [];
     Store.heartbeat := None |}.

(** Two pending records queued at the same time under integer-like
    keys, in the order [Object.keys] lists them: ascending numeric
    order, ["9"] before ["10"]. *)
Definition tied : Store.t :=
  {| Store.pending := [queuedRecord "9" 5; queuedRecord "10" 5];
     Store.processing := [];
     Store.heartbeat := None |}.

(** An empty queue and a worker whose heartbeat was seen just now. *)
Definition aliveAndIdle : Store.t :=
  {| Store.pending := []; Store.processing := [];
     Store.heartbeat :=
       Some {| Heartbeat.alive := true; Heartbeat.lastSeen := Some 1000;
               Heartbeat.lastProcessed := None;
               Heartbeat.nextProcessingTime := None |} |}.

Definition hello : MessageData.t :=
  {| MessageData.number := "+15555550123";
     MessageData.message := "hi";
     MessageData.options := SendMessageOptions.empty;
     MessageData.source := "sdk";
     MessageData.version := "1.0.0";
     MessageData.timestamp := 1000;
     MessageData.priority := medium |}.

(** What enqueueing [hello] behind the backlog returns, and the state
    it leaves. *)
Definition enqueued : SendMessageResult.t :=
  {| SendMessageResult.success := true;
     SendMessageResult.messageId := "m1";
     SendMessageResult.method := queued;
     SendMessageResult.timestamp := 1000;
     SendMessageResult.position := Some 3;
     SendMessageResult.error := None;
     SendMessageResult.key := None |}.

Definition afterEnqueue : World :=
  snd (QueueManager.addMessage allUp hello (freshWorld backlog)).





Definition sdk : Whaple.t :=
  {| Whaple.directWhatsApp := false; Whaple.smartRouting := true;
     Whaple.threshold := Some 0 |}.


(** The states [sendMessage "+15555550123" "hi"] goes through before it
    routes: after building the message data, after the health check,
    after reading the queue status. *)
Definition afterBuild (env : Env) (w : World) : World :=
  snd (Whaple.buildMessageData env "+15555550123" "hi" SendMessageOptions.empty w).

Definition afterProbe (env : Env) (w : World) : World :=
  snd (HealthChecker.isServerHealthy env (afterBuild env w)).







(** Events on the direct channel: the socket closes with a reason, the
    socket opens. *)
Definition closed (reason : option WhatsAppConnection.DisconnectReason)
  : WhatsAppConnection.Event :=
  WhatsAppConnection.updateEmitted
    {| WhatsAppConnection.connection := Some WhatsAppConnection.connectionClose;
       WhatsAppConnection.lastDisconnect := reason;
       WhatsAppConnection.qr := None |} None 0 0.

Definition opened : WhatsAppConnection.Event :=
  WhatsAppConnection.updateEmitted
    {| WhatsAppConnection.connection := Some WhatsAppConnection.connectionOpen;
       WhatsAppConnection.lastDisconnect := None;
       WhatsAppConnection.qr := None |} None 0 0.

(** Two sockets were created ([connect] was called twice) and the
    first of them has closed on a connection loss (status 428). *)
Definition oneClosed : Channel.t :=
  WhatsAppConnection.run Channel.initial
    [WhatsAppConnection.connectCalled true 0;
     WhatsAppConnection.connectCalled true 0;
     closed (Some (WhatsAppConnection.otherReason 428))].

(** A session that was open and closes with "restart required". *)
Definition restarting : Channel.t :=
  WhatsAppConnection.run Channel.initial
    [WhatsAppConnection.connectCalled true 0;
     opened;
     closed (Some WhatsAppConnection.restartRequired)].

(** A session that was connected and has opened. *)
Definition online : Channel.t :=
  WhatsAppConnection.run Channel.initial
    [WhatsAppConnection.connectCalled true 0; opened].

(** A process whose direct channel is [c]. *)
Definition withChannel (c : Channel.t) (s : Store.t) : World :=
  {| nowCalls := 0; uuidCalls := 0; firebaseOps := 0; probeCalls := 0;
     apiLog := []; sockLog := [];
     cache := HealthChecker.initialCache; lastResponseTime := None;
     store := s; whatsappConnection := Some c |}.

(** An instance in direct WhatsApp mode. *)
Definition directSdk : Whaple.t :=
  {| Whaple.directWhatsApp := true; Whaple.smartRouting := true;
     Whaple.threshold := Some 0 |}.

(** The socket rejects every send; the database works. *)
Definition socketDown : Env :=
  {| dateNow := clock; randomUUID := ids;
     firebaseFault := fun _ => None;
     healthProbe := fun _ => probeResponse 200;
     apiRequest := fun _ => apiResolved accepted;
     sockSendMessage := fun _ => sockRejected (error "Connection Closed") |}.

End Scenario.

(* ================================================================= *)
(** ** Destination normalisation                                       *)
(* ================================================================= *)

Section PhoneNumber.
Import Whaple.
Variable env : Env.

Lemma keepChars_allChars keep s : allChars keep (keepChars keep s) = true.
Proof.
  induction s as [|c s IH]; simpl; [reflexivity|].
  destruct (keep c) eqn:K; simpl; [rewrite K|]; assumption.
Qed.

Lemma keepChars_fixed keep s : allChars keep s = true -> keepChars keep s = s.
Proof.
  induction s as [|c s IH]; simpl; [reflexivity|].
  intros H. apply andb_true_iff in H as [K H]. rewrite K, IH; auto.
Qed.

Lemma isDigit_not_plus c : isDigit c = true -> isPlus c = false.
Proof.
  unfold isPlus.
  destruct (Ascii.eqb_spec c "+"%char) as [->|]; [discriminate|reflexivity].
Qed.

(** Among digits and ['+'] characters, "digits only" is "no ['+']". *)
Lemma digits_when_no_plus s :
  allChars digitOrPlus s = true ->
  allChars isDigit s = negb (includesChar "+"%char s).
Proof.
  induction s as [|c s IH]; simpl; [reflexivity|].
  intros H. apply andb_true_iff in H as [C H]. rewrite (IH H).
  unfold digitOrPlus in C. destruct (isDigit c) eqn:D.
  - apply isDigit_not_plus in D. unfold isPlus in D. rewrite D. reflexivity.
  - unfold isPlus in C. simpl in C. rewrite C. reflexivity.
Qed.

(** What [normalizePhoneNumber] returns for a non-empty number; it
    reads and changes nothing. *)
Lemma normalize_returns d w :
  d <> "" ->
  normalizePhoneNumber env d w
  = (Return (if startsWithPlus (keepChars digitOrPlus d)
             then keepChars digitOrPlus d
             else String "+"%char (keepChars digitOrPlus d)), w).
Proof.
  intros Hd. unfold normalizePhoneNumber.
  destruct d as [|c d]; [congruence|].
  change (fun c => isDigit c || Ascii.eqb c "+"%char) with digitOrPlus.
  destruct (startsWithPlus (keepChars digitOrPlus (String c d))); reflexivity.
Qed.

Lemma normalize_shape d w :
  d <> "" ->
  exists s, normalizePhoneNumber env d w = (Return s, w)
            /\ plusThen digitOrPlus s = true.
Proof.
  intros Hd. rewrite (normalize_returns d w Hd).
  set (n := keepChars digitOrPlus d).
  assert (A : allChars digitOrPlus n = true) by apply keepChars_allChars.
  destruct (startsWithPlus n) eqn:P.
  - exists n. split; [reflexivity|].
    destruct n as [|x n]; [discriminate|]. simpl in *.
    apply andb_true_iff in A as [_ A]. unfold isPlus. rewrite P, A. reflexivity.
  - exists (String "+"%char n). split; [reflexivity|]. simpl. exact A.
Qed.

Lemma normalize_fixed s w :
  plusThen digitOrPlus s = true -> normalizePhoneNumber env s w = (Return s, w).
Proof.
  destruct s as [|c s]; [discriminate|]. intros H.
  rewrite normalize_returns by discriminate.
  simpl in H. apply andb_true_iff in H as [P A].
  rewrite keepChars_fixed.
  - simpl. unfold isPlus in P. rewrite P. reflexivity.
  - simpl. rewrite A. unfold digitOrPlus. rewrite P, orb_true_r. reflexivity.
Qed.

(** The result is canonical exactly when, among the characters the
    filter keeps, no ['+'] comes after the first. *)
Lemma normalize_canonical d s w w' :
  normalizePhoneNumber env d w = (Return s, w') ->
  canonical s = plusOnlyInFront (keepChars digitOrPlus d).
Proof.
  destruct d as [|c d]; [discriminate|].
  rewrite normalize_returns by discriminate.
  set (n := keepChars digitOrPlus (String c d)).
  assert (A : allChars digitOrPlus n = true) by apply keepChars_allChars.
  clearbody n. intros E.
  destruct n as [|x r].
  - simpl in E. inversion E; subst s. reflexivity.
  - simpl in A. apply andb_true_iff in A as [X A].
    unfold canonical. simpl in E |- *.
    destruct (Ascii.eqb x "+"%char) eqn:P; inversion E; subst s; simpl.
    + unfold isPlus. rewrite P. simpl. apply digits_when_no_plus. exact A.
    + unfold digitOrPlus, isPlus in X. rewrite P, orb_false_r in X.
      rewrite X. simpl. apply digits_when_no_plus. exact A.
Qed.

(** C4, amended: for every non-empty destination [d],
    [normalizePhoneNumber d] returns a string that begins with ['+']
    and continues with digits and ['+'] characters only; it continues
    with digits only exactly when, among the characters of [d] that
    are digits or ['+'], no ['+'] comes after the first; and
    normalising the result again returns it unchanged. *)
Theorem normalize_plus_prefix_idempotent d w :
  d <> "" ->
  exists s, normalizePhoneNumber env d w = (Return s, w)
            /\ plusThen digitOrPlus s = true
            /\ canonical s = plusOnlyInFront (keepChars digitOrPlus d)
            /\ normalizePhoneNumber env s w = (Return s, w).
Proof.
  intros Hd. destruct (normalize_shape d w Hd) as [s [E P]].
  exists s. split; [exact E|]. split; [exact P|]. split.
  - eapply normalize_canonical. exact E.
  - apply normalize_fixed. exact P.
Qed.

End PhoneNumber.

(** C4, as stated, fails: a ['+'] inside the destination survives the
    filter. [normalizePhoneNumber "1+2"] returns ["+1+2"], which is not
    a ['+'] followed only by digits, so no statement "for every
    non-empty destination the result is canonical" can hold. *)
Lemma normalize_keeps_inner_plus :
  Whaple.normalizePhoneNumber Scenario.allUp "1+2"
    (Scenario.freshWorld Scenario.emptyStore)
  = (Return "+1+2", Scenario.freshWorld Scenario.emptyStore)
  /\ canonical "+1+2" = false
  /\ ~ (forall d, d <> "" ->
          exists s w',
            Whaple.normalizePhoneNumber Scenario.allUp d
              (Scenario.freshWorld Scenario.emptyStore) = (Return s, w')
            /\ canonical s = true).
Proof.
  split; [reflexivity|]. split; [reflexivity|].
  intros H. destruct (H "1+2") as [s [w' [E C]]]; [discriminate|].
  cbv in E. inversion E; subst s. cbv in C. discriminate.
Qed.

Lemma normalize_plus_prefix_idempotent_witness :
  exists s, Whaple.normalizePhoneNumber Scenario.allUp "(+1) 555-0123"
              (Scenario.freshWorld Scenario.emptyStore)
            = (Return s, Scenario.freshWorld Scenario.emptyStore)
            /\ plusThen digitOrPlus s = true
            /\ canonical s = plusOnlyInFront (keepChars digitOrPlus "(+1) 555-0123")
            /\ Whaple.normalizePhoneNumber Scenario.allUp s
                 (Scenario.freshWorld Scenario.emptyStore)
               = (Return s, Scenario.freshWorld Scenario.emptyStore).
Proof.
  apply (normalize_plus_prefix_idempotent Scenario.allUp "(+1) 555-0123"
           (Scenario.freshWorld Scenario.emptyStore)).
  discriminate.
Defined.

(* ================================================================= *)
(** ** Queue position                                                  *)
(* ================================================================= *)

Section StringOrder.

Lemma ltb_lt a b : String.ltb a b = true <-> String_as_OT.lt a b.
Proof.
  unfold String.ltb. rewrite <- String_as_OT.cmp_lt. unfold String_as_OT.cmp.
  destruct (String.compare a b); split; congruence.
Qed.

Lemma ltb_irrefl a : String.ltb a a = false.
Proof.
  unfold String.ltb.
  pose proof (proj2 (String_as_OT.cmp_eq a a) eq_refl) as E.
  unfold String_as_OT.cmp in E. rewrite E. reflexivity.
Qed.

Lemma ltb_trans a b c :
  String.ltb a b = true -> String.ltb b c = true -> String.ltb a c = true.
Proof. rewrite !ltb_lt. apply String_as_OT.lt_trans. Qed.

End StringOrder.

Section QueuePosition.
Import QueueManager.

Lemma precedes_irrefl a : precedes a a = false.
Proof.
  unfold precedes. rewrite Z.ltb_irrefl, Z.eqb_refl, ltb_irrefl. reflexivity.
Qed.

Lemma precedes_trans a b c : before a b -> before b c -> before a c.
Proof.
  unfold before, precedes. intros H1 H2.
  apply orb_true_iff in H1. apply orb_true_iff in H2. apply orb_true_iff.
  destruct H1 as [H1|H1], H2 as [H2|H2];
    repeat match goal with
           | H : _ && _ = true |- _ => apply andb_true_iff in H as [? ?]
           | H : (_ <? _) = true |- _ => apply Z.ltb_lt in H
           | H : (_ =? _) = true |- _ => apply Z.eqb_eq in H
           end.
  - left. apply Z.ltb_lt. lia.
  - left. apply Z.ltb_lt. lia.
  - left. apply Z.ltb_lt. lia.
  - right. apply andb_true_iff.
    split; [apply Z.eqb_eq; lia|eapply ltb_trans; eauto].
Qed.

Lemma precedes_asym a b : before a b -> precedes b a = false.
Proof.
  intros H. destruct (precedes b a) eqn:E; [|reflexivity].
  pose proof (precedes_trans _ _ _ H E) as T. unfold before in T.
  rewrite precedes_irrefl in T. discriminate.
Qed.

Lemma insert_perm x l : Permutation (x :: l) (insert byQueuedAt x l).
Proof.
  induction l as [|y l IH]; simpl; [reflexivity|].
  destruct (byQueuedAt x y <=? 0); [reflexivity|].
  rewrite perm_swap. constructor. exact IH.
Qed.

Lemma sort_perm l : Permutation l (JS.sort byQueuedAt l).
Proof.
  induction l as [|x l IH]; simpl; [constructor|].
  rewrite <- insert_perm. constructor. exact IH.
Qed.

(** Inserting a record whose key is below every key already placed
    keeps the array in the order of the specification: the stable sort
    leaves it in front of the records queued at the same time. *)
Lemma insert_sorted x l :
  StronglySorted before l -> Forall (keyBefore x) l ->
  StronglySorted before (insert byQueuedAt x l).
Proof.
  induction l as [|y l IH]; simpl; intros S K.
  - repeat constructor.
  - inversion S as [|? ? S' Fy]; subst. inversion K as [|? ? Ky K']; subst.
    assert (C : byQueuedAt x y
                = QueueMessage.queuedAt (snd x) - QueueMessage.queuedAt (snd y))
      by reflexivity.
    destruct (byQueuedAt x y <=? 0) eqn:Le.
    + apply Z.leb_le in Le.
      assert (B : before x y).
      { unfold before, precedes, keyBefore in *. apply orb_true_iff.
        destruct (Z.eq_dec (QueueMessage.queuedAt (snd x))
                           (QueueMessage.queuedAt (snd y))) as [E|N].
        - right. rewrite E, Z.eqb_refl, Ky. reflexivity.
        - left. apply Z.ltb_lt. lia. }
      constructor; [exact S|]. constructor; [exact B|].
      eapply Forall_impl; [|exact Fy]. intros z Hz. eapply precedes_trans; eauto.
    + apply Z.leb_gt in Le.
      constructor; [apply IH; assumption|].
      eapply Permutation_Forall; [apply insert_perm|].
      constructor; [|exact Fy].
      unfold before, precedes. apply orb_true_iff. left. apply Z.ltb_lt. lia.
Qed.

Lemma sort_sorted l : keyOrdered l -> StronglySorted before (JS.sort byQueuedAt l).
Proof.
  unfold keyOrdered. induction 1 as [|x l S IH F]; simpl; [constructor|].
  apply insert_sorted; [exact IH|].
  eapply Permutation_Forall; [apply sort_perm|exact F].
Qed.

Lemma indexOfFrom_absent i l k : ~ In k l -> indexOfFrom i l k = -1.
Proof.
  revert i. induction l as [|y l IH]; simpl; intros i N; [reflexivity|].
  destruct (String.eqb_spec y k) as [->|D]; [tauto|]. apply IH. tauto.
Qed.

Lemma indexOfFrom_present i l k : In k l -> i <= indexOfFrom i l k.
Proof.
  revert i. induction l as [|y l IH]; simpl; intros i H; [tauto|].
  destruct (String.eqb_spec y k) as [->|D]; [lia|].
  destruct H as [H|H]; [congruence|]. specialize (IH (i + 1) H). lia.
Qed.

Lemma keyOrdered_NoDup l : keyOrdered l -> NoDup (map fst l).
Proof.
  induction 1 as [|x l S IH F]; simpl; constructor; [|exact IH].
  intros H. apply in_map_iff in H as [y [E Hy]].
  rewrite Forall_forall in F. specialize (F y Hy). unfold keyBefore in F.
  rewrite E, ltb_irrefl in F. discriminate.
Qed.

(** In an array in the order of the specification, the index of a
    record is the number of records that precede it. *)
Lemma index_in_sorted i l e :
  StronglySorted before l -> NoDup (map fst l) -> In e l ->
  indexOfFrom i (map fst l) (fst e)
  = i + Z.of_nat (List.length (filter (fun x => precedes x e) l)).
Proof.
  revert i. induction l as [|y l IH]; simpl; intros i S N H; [tauto|].
  inversion S as [|? ? S' Fy]; subst. inversion N as [|? ? Ny N']; subst.
  destruct (String.eqb_spec (fst y) (fst e)) as [E|D].
  - assert (y = e).
    { destruct H as [H|H]; [exact H|]. exfalso. apply Ny. rewrite E.
      apply in_map. exact H. }
    subst y. rewrite precedes_irrefl.
    replace (filter (fun x => precedes x e) l)
      with (@nil (string * QueueMessage.t)).
    + simpl. lia.
    + symmetry. clear -Fy. induction l as [|z l IHl]; simpl; [reflexivity|].
      inversion Fy; subst. rewrite (precedes_asym e z); auto.
  - destruct H as [H|H]; [congruence|].
    rewrite Forall_forall in Fy. pose proof (Fy e H) as B. unfold before in B.
    rewrite B. cbn [List.length]. rewrite (IH (i + 1) S' N' H). lia.
Qed.

Lemma filter_length_perm {A} (f : A -> bool) l l' :
  Permutation l l' -> List.length (filter f l) = List.length (filter f l').
Proof.
  induction 1; simpl; auto.
  - destruct (f x); simpl; congruence.
  - destruct (f x), (f y); reflexivity.
  - congruence.
Qed.

Lemma child_some k p e : child k p = Some e -> In e p /\ fst e = k.
Proof.
  unfold child. intros H. apply find_some in H as [H E].
  apply String.eqb_eq in E. auto.
Qed.

Lemma child_none k p : child k p = None -> ~ In k (map fst p).
Proof.
  unfold child. intros H I. apply in_map_iff in I as [e [E I]].
  pose proof (find_none _ _ H e I) as F. simpl in F.
  rewrite E, String.eqb_refl in F. discriminate.
Qed.

Lemma positionIn_absent p k : ~ In k (map fst p) -> positionIn p k = -1.
Proof.
  intros N. unfold positionIn, sortedIds, indexOf. destruct p; [reflexivity|].
  apply indexOfFrom_absent. intros I. apply N.
  eapply Permutation_in; [apply Permutation_map, Permutation_sym, sort_perm|exact I].
Qed.

Lemma positionIn_present p k : In k (map fst p) -> 0 <= positionIn p k.
Proof.
  intros I. unfold positionIn, sortedIds, indexOf. destruct p; [destruct I|].
  apply indexOfFrom_present.
  eapply Permutation_in; [apply Permutation_map, sort_perm|exact I].
Qed.

(** On a partition enumerated in key order, the position the code
    computes is the rank of the specification. *)
Lemma positionIn_rank p k : keyOrdered p -> positionIn p k = rank p k.
Proof.
  intros K. unfold rank. destruct (child k p) as [e|] eqn:C.
  - apply child_some in C as [I E]. subst k.
    unfold positionIn, sortedIds, indexOf.
    destruct p as [|x p]; [destruct I|].
    rewrite index_in_sorted.
    + rewrite (filter_length_perm _ _ _ (sort_perm (x :: p))). lia.
    + apply sort_sorted. exact K.
    + eapply Permutation_NoDup; [apply Permutation_map, sort_perm|].
      apply keyOrdered_NoDup. exact K.
    + eapply Permutation_in; [apply sort_perm|exact I].
  - apply positionIn_absent, child_none. exact C.
Qed.

(** *** The order of the code: ties follow the enumeration *)

Lemma byQueuedAt_le x y :
  (byQueuedAt x y <=? 0)
  = (QueueMessage.queuedAt (snd x) <=? QueueMessage.queuedAt (snd y)).
Proof.
  unfold byQueuedAt.
  destruct (Z.leb_spec (QueueMessage.queuedAt (snd x) - QueueMessage.queuedAt (snd y)) 0);
    destruct (Z.leb_spec (QueueMessage.queuedAt (snd x)) (QueueMessage.queuedAt (snd y)));
    (reflexivity || lia).
Qed.

Lemma insert_ascending x l :
  StronglySorted queuedNoLater l ->
  StronglySorted queuedNoLater (insert byQueuedAt x l).
Proof.
  induction l as [|y l IH]; simpl; intros St.
  - repeat constructor.
  - inversion St as [|? ? St' Fy]; subst. rewrite byQueuedAt_le.
    destruct (Z.leb_spec (QueueMessage.queuedAt (snd x))
                (QueueMessage.queuedAt (snd y))) as [Le|Gt].
    + constructor; [exact St|]. constructor; [exact Le|].
      eapply Forall_impl; [|exact Fy]. unfold queuedNoLater. intros z Hz. lia.
    + constructor; [apply IH; exact St'|].
      eapply Permutation_Forall; [apply insert_perm|].
      constructor; [unfold queuedNoLater; lia|exact Fy].
Qed.

Lemma sort_ascending l : StronglySorted queuedNoLater (JS.sort byQueuedAt l).
Proof.
  induction l as [|x l IH]; simpl; [constructor|]. apply insert_ascending. exact IH.
Qed.

Lemma indexOfFrom_shift i l k :
  In k l -> indexOfFrom (i + 1) l k = indexOfFrom i l k + 1.
Proof.
  revert i. induction l as [|y l IH]; simpl; intros i H; [tauto|].
  destruct (String.eqb_spec y k) as [->|D]; [reflexivity|].
  destruct H as [H|H]; [congruence|]. apply IH. exact H.
Qed.

(** Where the stable sort puts a new record: behind the records queued
    earlier, in front of the others. *)
Lemma insert_index_new i x l :
  StronglySorted queuedNoLater l -> ~ In (fst x) (map fst l) ->
  indexOfFrom i (map fst (insert byQueuedAt x l)) (fst x)
  = i + Z.of_nat (List.length
                    (filter (fun y => QueueMessage.queuedAt (snd y)
                                      <? QueueMessage.queuedAt (snd x)) l)).
Proof.
  revert i. induction l as [|y l IH]; intros i St N.
  - simpl. rewrite String.eqb_refl. lia.
  - inversion St as [|? ? St' Fy]; subst.
    cbn [insert]. rewrite byQueuedAt_le.
    destruct (Z.leb_spec (QueueMessage.queuedAt (snd x))
                (QueueMessage.queuedAt (snd y))) as [Le|Gt].
    + cbn [map indexOfFrom]. rewrite String.eqb_refl.
      replace (filter _ (y :: l)) with (@nil (string * QueueMessage.t)); [simpl; lia|].
      symmetry.
      assert (A : Forall (queuedNoLater y) (y :: l))
        by (constructor; [unfold queuedNoLater; lia|exact Fy]).
      clear -A Le. induction A as [|z l' Hz A IHA]; [reflexivity|].
      simpl. unfold queuedNoLater in Hz.
      destruct (Z.ltb_spec (QueueMessage.queuedAt (snd z))
                  (QueueMessage.queuedAt (snd x))); [lia|exact IHA].
    + cbn [map indexOfFrom filter].
      destruct (String.eqb_spec (fst y) (fst x)) as [E|D].
      * exfalso. apply N. left. exact E.
      * rewrite IH; [|exact St'|intros I; apply N; right; exact I].
        destruct (Z.ltb_spec (QueueMessage.queuedAt (snd y))
                    (QueueMessage.queuedAt (snd x))); [|lia].
        cbn [List.length]. lia.
Qed.

(** What it does to the index of a record already placed: one further
    when the new record was queued no later. *)
Lemma insert_index_old i x l e :
  StronglySorted queuedNoLater l -> NoDup (map fst l) ->
  In e l -> fst e <> fst x ->
  indexOfFrom i (map fst (insert byQueuedAt x l)) (fst e)
  = indexOfFrom i (map fst l) (fst e)
    + (if QueueMessage.queuedAt (snd x) <=? QueueMessage.queuedAt (snd e)
       then 1 else 0).
Proof.
  revert i. induction l as [|y l IH]; intros i St N I D; [destruct I|].
  inversion St as [|? ? St' Fy]; subst. inversion N as [|? ? Ny N']; subst.
  cbn [insert]. rewrite byQueuedAt_le.
  destruct (Z.leb_spec (QueueMessage.queuedAt (snd x))
              (QueueMessage.queuedAt (snd y))) as [Le|Gt].
  - assert (Ge : QueueMessage.queuedAt (snd x) <= QueueMessage.queuedAt (snd e)).
    { destruct I as [<-|I]; [exact Le|].
      rewrite Forall_forall in Fy. specialize (Fy e I). unfold queuedNoLater in Fy. lia. }
    destruct (Z.leb_spec (QueueMessage.queuedAt (snd x))
                (QueueMessage.queuedAt (snd e))); [|lia].
    change (map fst (x :: y :: l)) with (fst x :: map fst (y :: l)).
    cbn [indexOfFrom].
    destruct (String.eqb_spec (fst x) (fst e)) as [E|_]; [congruence|].
    apply indexOfFrom_shift. apply in_map. exact I.
  - cbn [map indexOfFrom].
    destruct (String.eqb_spec (fst y) (fst e)) as [E|D'].
    + assert (y = e).
      { destruct I as [I|I]; [exact I|]. exfalso. apply Ny. rewrite E.
        apply in_map. exact I. }
      subst y.
      destruct (Z.leb_spec (QueueMessage.queuedAt (snd x))
                  (QueueMessage.queuedAt (snd e))); lia.
    + destruct I as [I|I]; [congruence|]. apply IH; assumption.
Qed.

Lemma enumeratedBefore_head k x p :
  fst x <> k -> enumeratedBefore k (x :: p) = x :: enumeratedBefore k p.
Proof.
  intros D. simpl. destruct (String.eqb_spec (fst x) k); [congruence|reflexivity].
Qed.

(** In the sorted array, a record stands behind the records queued
    earlier and those queued at the same time that the partition
    enumerates before it. *)
Lemma index_as_enumerated i l e :
  NoDup (map fst l) -> In e l ->
  indexOfFrom i (map fst (JS.sort byQueuedAt l)) (fst e)
  = i + Z.of_nat
          (List.length
             (filter (fun x => QueueMessage.queuedAt (snd x)
                               <? QueueMessage.queuedAt (snd e)) l)
           + List.length
               (filter (fun x => QueueMessage.queuedAt (snd x)
                                 =? QueueMessage.queuedAt (snd e))
                  (enumeratedBefore (fst e) l))).
Proof.
  induction l as [|x l IH]; intros N I; [destruct I|].
  inversion N as [|? ? Nx N']; subst.
  assert (Keys : forall k, In k (map fst (JS.sort byQueuedAt l)) <-> In k (map fst l)).
  { intros k. split; intros H.
    - eapply Permutation_in; [apply Permutation_map, Permutation_sym, sort_perm|exact H].
    - eapply Permutation_in; [apply Permutation_map, sort_perm|exact H]. }
  cbn [JS.sort].
  destruct (String.eqb_spec (fst x) (fst e)) as [E|D].
  - assert (x = e).
    { destruct I as [I|I]; [exact I|]. exfalso. apply Nx. rewrite E.
      apply in_map. exact I. }
    subst x.
    rewrite insert_index_new; [|apply sort_ascending|rewrite Keys; exact Nx].
    rewrite <- (filter_length_perm _ _ _ (sort_perm l)).
    cbn [filter enumeratedBefore]. rewrite String.eqb_refl, Z.ltb_irrefl.
    cbn [filter List.length]. lia.
  - destruct I as [I|I]; [congruence|].
    rewrite insert_index_old;
      [|apply sort_ascending
       |eapply Permutation_NoDup; [apply Permutation_map, sort_perm|exact N']
       |eapply Permutation_in; [apply sort_perm|exact I]
       |congruence].
    rewrite (IH N' I), (enumeratedBefore_head _ _ _ D). cbn [filter].
    destruct (Z.leb_spec (QueueMessage.queuedAt (snd x))
                (QueueMessage.queuedAt (snd e)));
      destruct (Z.ltb_spec (QueueMessage.queuedAt (snd x))
                  (QueueMessage.queuedAt (snd e)));
      destruct (Z.eqb_spec (QueueMessage.queuedAt (snd x))
                  (QueueMessage.queuedAt (snd e)));
      cbn [List.length]; lia.
Qed.

(** The position the code computes is the rank in the order of
    ascending [queuedAt], ties in the order of the enumeration. *)
Lemma positionIn_as_enumerated p k :
  distinctKeys p -> positionIn p k = rankAsEnumerated p k.
Proof.
  intros N. unfold rankAsEnumerated. destruct (child k p) as [e|] eqn:C.
  - apply child_some in C as [I E]. subst k.
    unfold positionIn, sortedIds, indexOf.
    destruct p as [|x p]; [destruct I|].
    rewrite (index_as_enumerated 0 (x :: p) e N I). lia.
  - apply positionIn_absent, child_none. exact C.
Qed.

End QueuePosition.


(* ================================================================= *)
(** ** Running async code                                              *)
(* ================================================================= *)

Section Async.
Variable env : Env.

Lemma bind_uuid {B} (k : string -> M B) w :
  bind (uuid env) k w
  = k (randomUUID env (uuidCalls w)) (set_uuidCalls (S (uuidCalls w)) w).
Proof. reflexivity. Qed.

Lemma bind_now {B} (k : Z -> M B) w :
  bind (now env) k w
  = k (dateNow env (nowCalls w)) (set_nowCalls (S (nowCalls w)) w).
Proof. reflexivity. Qed.

Lemma bind_modify {B} f (k : unit -> M B) w : bind (modify f) k w = k tt (f w).
Proof. reflexivity. Qed.

Lemma bind_firebase {A B} (op : M A) (k : A -> M B) w :
  bind (firebase env op) k w
  = match firebaseFault env (firebaseOps w) with
    | Some msg => (Throw (error msg), set_firebaseOps (S (firebaseOps w)) w)
    | None => bind op k (set_firebaseOps (S (firebaseOps w)) w)
    end.
Proof.
  unfold bind, firebase. destruct (firebaseFault env (firebaseOps w)); reflexivity.
Qed.

Lemma bind_returned {A B} (m : M A) (k : A -> M B) w a w' :
  m w = (Return a, w') -> bind m k w = k a w'.
Proof. intros H. unfold bind. rewrite H. reflexivity. Qed.

Lemma bind_thrown {A B} (m : M A) (k : A -> M B) w e w' :
  m w = (Throw e, w') -> bind m k w = (Throw e, w').
Proof. intros H. unfold bind. rewrite H. reflexivity. Qed.

Lemma tryCatch_returned {A} (m : M A) h w a w' :
  m w = (Return a, w') -> tryCatch m h w = (Return a, w').
Proof. intros H. unfold tryCatch. rewrite H. reflexivity. Qed.

Lemma tryCatch_thrown {A} (m : M A) h w e w' :
  m w = (Throw e, w') -> tryCatch m h w = h e w'.
Proof. intros H. unfold tryCatch. rewrite H. reflexivity. Qed.

End Async.

(* ================================================================= *)
(** ** Enqueueing                                                      *)
(* ================================================================= *)

Section Enqueue.
Import QueueManager.
Variable env : Env.

Lemma getQueuePosition_run k w :
  getQueuePosition env k w =
  (Return (match firebaseFault env (firebaseOps w) with
           | Some _ => -1
           | None => positionIn (Store.pending (store w)) k
           end),
   set_firebaseOps (S (firebaseOps w)) w).
Proof.
  unfold getQueuePosition, readPending, firebase, tryCatch, bind, get, ret.
  destruct (firebaseFault env (firebaseOps w)); reflexivity.
Qed.

Lemma bind_getQueuePosition {B} k (f : Z -> M B) w :
  bind (getQueuePosition env k) f w
  = f (match firebaseFault env (firebaseOps w) with
       | Some _ => -1
       | None => positionIn (Store.pending (store w)) k
       end) (set_firebaseOps (S (firebaseOps w)) w).
Proof. unfold bind. rewrite getQueuePosition_run. reflexivity. Qed.

Lemma child_setChild k v p : child k (setChild k v p) = Some (k, v).
Proof.
  unfold child. induction p as [|[k' x] p IH]; simpl.
  - rewrite String.eqb_refl. reflexivity.
  - destruct (String.eqb_spec k' k) as [->|D]; simpl.
    + rewrite String.eqb_refl. reflexivity.
    + destruct (String.ltb k k'); simpl.
      * rewrite String.eqb_refl. reflexivity.
      * destruct (String.eqb_spec k' k); [congruence|]. exact IH.
Qed.

Lemma child_setChild_other k k' v p :
  k' <> k -> child k' (setChild k v p) = child k' p.
Proof.
  intros N. unfold child. induction p as [|[k0 x] p IH]; cbn [setChild find fst].
  - destruct (String.eqb_spec k k'); [congruence|reflexivity].
  - destruct (String.eqb_spec k0 k) as [->|D]; cbn [find fst].
    + destruct (String.eqb_spec k k'); [congruence|]. reflexivity.
    + destruct (String.ltb k k0); cbn [find fst].
      * destruct (String.eqb_spec k k'); [congruence|]. reflexivity.
      * rewrite IH. reflexivity.
Qed.

(** What [addMessage] leaves behind, by the outcome of its write. *)
Lemma addMessage_outcome md w :
  match firebaseFault env (S (firebaseOps w)) with
  | Some msg =>
      exists w',
        addMessage env md w
        = (Throw (error ("Failed to queue message: " ++ msg)%string), w')
        /\ store w' = store w
        /\ firebaseOps w' = S (S (firebaseOps w))
  | None =>
      exists r w',
        addMessage env md w = (Return r, w')
        /\ SendMessageResult.success r = true
        /\ SendMessageResult.method r = queued
        /\ isEnqueued md r (store w) (store w')
  end.
Proof.
  unfold addMessage, generateMessageId, tryCatch.
  rewrite bind_uuid, bind_now, bind_getQueuePosition, bind_now, bind_firebase.
  cbn [firebaseOps set_firebaseOps set_nowCalls set_uuidCalls nowCalls uuidCalls].
  destruct (firebaseFault env (S (firebaseOps w))) as [msg|].
  - eexists. split; [reflexivity|]. split; reflexivity.
  - rewrite bind_modify, bind_getQueuePosition. unfold ret.
    eexists _, _. split; [reflexivity|]. split; [reflexivity|]. split; [reflexivity|].
    unfold isEnqueued.
    cbn [SendMessageResult.messageId store set_firebaseOps setPending set_store
         Store.pending].
    split.
    + eexists. split; [apply child_setChild|]. repeat split.
    + intros k N. apply child_setChild_other. exact N.
Qed.

(** The two ways [addMessage] ends. It throws exactly when the write
    ([set]) rejects; the reads before and after it only decide the two
    positions. Nothing but the message id, the clock and the database
    is touched. *)
Lemma addMessage_cases md w :
  let messageId := randomUUID env (uuidCalls w) in
  (exists msg w',
      firebaseFault env (S (firebaseOps w)) = Some msg /\
      addMessage env md w
      = (Throw (error ("Failed to queue message: " ++ msg)%string), w') /\
      apiLog w' = apiLog w /\ sockLog w' = sockLog w)
  \/
  (exists r w' record,
      firebaseFault env (S (firebaseOps w)) = None /\
      addMessage env md w = (Return r, w') /\
      SendMessageResult.success r = true /\
      SendMessageResult.method r = queued /\
      SendMessageResult.messageId r = messageId /\
      SendMessageResult.error r = None /\
      QueueMessage.position record =
        match firebaseFault env (firebaseOps w) with
        | Some _ => -1
        | None => positionIn (Store.pending (store w)) messageId
        end /\
      Store.pending (store w')
      = setChild messageId record (Store.pending (store w)) /\
      SendMessageResult.position r =
        Some match firebaseFault env (S (S (firebaseOps w))) with
             | Some _ => -1
             | None => positionIn (Store.pending (store w')) messageId
             end /\
      apiLog w' = apiLog w /\ sockLog w' = sockLog w).
Proof.
  intros messageId.
  unfold addMessage, generateMessageId, tryCatch.
  rewrite bind_uuid, bind_now, bind_getQueuePosition, bind_now, bind_firebase.
  cbn [firebaseOps set_firebaseOps set_nowCalls set_uuidCalls nowCalls uuidCalls].
  destruct (firebaseFault env (S (firebaseOps w))) as [msg|] eqn:F.
  - left. eexists _, _. split; [reflexivity|]. split; [reflexivity|].
    split; reflexivity.
  - right. rewrite bind_modify, bind_getQueuePosition. unfold ret.
    eexists _, _, _. split; [reflexivity|]. split; [reflexivity|]. cbn.
    repeat split; reflexivity.
Qed.

Lemma addMessage_returned md w r w' :
  addMessage env md w = (Return r, w') ->
  SendMessageResult.success r = true /\ SendMessageResult.method r = queued
  /\ SendMessageResult.error r = None.
Proof.
  intros H.
  destruct (addMessage_cases md w)
    as [(msg & w1 & _ & E & _)|(r1 & w1 & rec & _ & E & S & Q & _ & X & _)];
    rewrite E in H; inversion H; subst; auto.
Qed.

Lemma addMessage_apiLog md w : apiLog (snd (addMessage env md w)) = apiLog w.
Proof.
  destruct (addMessage_cases md w)
    as [(msg & w1 & _ & E & L & _)
       |(r1 & w1 & rec & _ & E & _ & _ & _ & _ & _ & _ & _ & L & _)];
    rewrite E; exact L.
Qed.

(** C5, amended: for every state of the [pending] partition and
    every message id, when the read of the partition resolves
    [getQueuePosition] returns the 0-based rank of the record with that
    id in the order of ascending [queuedAt], ties broken by the order
    in which the children of the partition are enumerated, and [-1]
    when the id is not in [pending]. That rank is the one with ties
    broken by the lexical order of the ids whenever the partition is
    enumerated in lexical key order. When the read fails the answer is
    [-1]. *)
Theorem queue_position_is_rank messageId w :
  distinctKeys (Store.pending (store w)) ->
  match firebaseFault env (firebaseOps w) with
  | None =>
      fst (getQueuePosition env messageId w)
      = Return (rankAsEnumerated (Store.pending (store w)) messageId)
      /\ (~ In messageId (map fst (Store.pending (store w))) ->
          rankAsEnumerated (Store.pending (store w)) messageId = -1)
      /\ (keyOrdered (Store.pending (store w)) ->
          rankAsEnumerated (Store.pending (store w)) messageId
          = rank (Store.pending (store w)) messageId)
  | Some _ => fst (getQueuePosition env messageId w) = Return (-1)
  end.
Proof.
  intros N. rewrite getQueuePosition_run.
  destruct (firebaseFault env (firebaseOps w)); [reflexivity|]. cbn [fst].
  rewrite (positionIn_as_enumerated _ _ N). split; [reflexivity|]. split.
  - intros A. rewrite <- (positionIn_as_enumerated _ _ N).
    apply positionIn_absent. exact A.
  - intros K. rewrite <- (positionIn_as_enumerated _ _ N).
    apply positionIn_rank. exact K.
Qed.

(** C10: when an enqueue succeeds and the generated id was not yet in
    [pending], the [position] stored in the record is [-1] whatever the
    queue holds; the position returned to the caller is computed on the
    partition after the write, where the id has a rank. *)
Theorem stored_position_is_minus_one md w r w' :
  addMessage env md w = (Return r, w') ->
  ~ In (randomUUID env (uuidCalls w)) (map fst (Store.pending (store w))) ->
  exists record,
    child (SendMessageResult.messageId r) (Store.pending (store w'))
    = Some (SendMessageResult.messageId r, record)
    /\ QueueMessage.position record = -1
    /\ SendMessageResult.position r =
         Some match firebaseFault env (S (S (firebaseOps w))) with
              | Some _ => -1
              | None => positionIn (Store.pending (store w'))
                          (SendMessageResult.messageId r)
              end
    /\ 0 <= positionIn (Store.pending (store w')) (SendMessageResult.messageId r).
Proof.
  intros H N.
  destruct (addMessage_cases md w)
    as [(msg & w1 & _ & E & _)
       |(r1 & w1 & rec & _ & E & _ & _ & I & _ & P & S & R & _)];
    rewrite E in H; inversion H; subst r1 w1; clear H.
  exists rec. rewrite I, S. split; [apply child_setChild|].
  split.
  - rewrite P. destruct (firebaseFault env (firebaseOps w)); [reflexivity|].
    apply positionIn_absent. exact N.
  - split.
    + rewrite R, S. reflexivity.
    + apply positionIn_present.
      pose proof (child_setChild (randomUUID env (uuidCalls w)) rec
                    (Store.pending (store w))) as C.
      apply child_some in C as [C _]. apply (in_map fst) in C. exact C.
Qed.

End Enqueue.

(** C5, as stated, fails. Ties are broken by the order in which the
    keys of the snapshot are enumerated, and the ids are never
    compared. An object lists its integer-like keys in ascending
    numeric order, so the children ["9"] and ["10"], queued at the same
    time, are enumerated ["9"], ["10"]: [getQueuePosition] gives ["10"]
    position 1 where the lexical order of the ids gives it rank 0. And
    when the read of the partition fails the answer is [-1] for an id
    that is there. *)
Lemma position_ties_follow_enumeration :
  fst (QueueManager.getQueuePosition Scenario.allUp "10"
         (Scenario.freshWorld Scenario.tied)) = Return 1
  /\ rank (Store.pending Scenario.tied) "10" = 0
  /\ fst (QueueManager.getQueuePosition Scenario.allUp "9"
            (Scenario.freshWorld Scenario.tied)) = Return 0
  /\ rank (Store.pending Scenario.tied) "9" = 1
  /\ fst (QueueManager.getQueuePosition Scenario.allDown "c"
            (Scenario.freshWorld Scenario.backlog)) = Return (-1)
  /\ rank (Store.pending Scenario.backlog) "c" = 0.
Proof. repeat split; vm_compute; reflexivity. Qed.

Lemma queue_position_is_rank_witness :
  fst (QueueManager.getQueuePosition Scenario.allUp "10"
         (Scenario.freshWorld Scenario.tied))
  = Return (rankAsEnumerated (Store.pending Scenario.tied) "10")
  /\ (~ In "10" (map fst (Store.pending Scenario.tied)) ->
      rankAsEnumerated (Store.pending Scenario.tied) "10" = -1)
  /\ (keyOrdered (Store.pending Scenario.tied) ->
      rankAsEnumerated (Store.pending Scenario.tied) "10"
      = rank (Store.pending Scenario.tied) "10").
Proof.
  apply (queue_position_is_rank Scenario.allUp "10"
           (Scenario.freshWorld Scenario.tied)).
  unfold distinctKeys. simpl. repeat constructor; simpl; intuition discriminate.
Defined.

Lemma stored_position_is_minus_one_witness :
  exists record,
    child (SendMessageResult.messageId Scenario.enqueued)
      (Store.pending (store Scenario.afterEnqueue))
    = Some (SendMessageResult.messageId Scenario.enqueued, record)
    /\ QueueMessage.position record = -1
    /\ SendMessageResult.position Scenario.enqueued =
         Some match firebaseFault Scenario.allUp 2 with
              | Some _ => -1
              | None => QueueManager.positionIn
                          (Store.pending (store Scenario.afterEnqueue))
                          (SendMessageResult.messageId Scenario.enqueued)
              end
    /\ 0 <= QueueManager.positionIn
              (Store.pending (store Scenario.afterEnqueue))
              (SendMessageResult.messageId Scenario.enqueued).
Proof.
  apply (stored_position_is_minus_one Scenario.allUp Scenario.hello
           (Scenario.freshWorld Scenario.backlog)).
  - vm_compute. reflexivity.
  - vm_compute. intuition discriminate.
Defined.

(* ================================================================= *)
(** ** The health monitor and the queue status                         *)
(* ================================================================= *)

Section Health.
Import HealthChecker.
Variable env : Env.

Lemma isCacheValid_total w :
  exists b w', isCacheValid env w = (Return b, w')
    /\ apiLog w' = apiLog w /\ probeCalls w' = probeCalls w
    /\ firebaseOps w' = firebaseOps w /\ store w' = store w.
Proof.
  unfold isCacheValid, bind, get, ret, now.
  destruct (HealthCache.lastCheck (cache w)) as [[| |]|]; eexists _, _; repeat split.
Qed.

Lemma checkServerHealth_cases w :
  let outcome := healthProbe env (probeCalls w) in
  exists c w', checkServerHealth env w = (c, w')
    /\ apiLog w' = apiLog w /\ firebaseOps w' = firebaseOps w /\ store w' = store w
    /\ (probeFails outcome = true -> c = Return false \/ exists e, c = Throw e)
    /\ (outcome = probeResponse 200 -> c = Return true).
Proof.
  intros outcome. unfold checkServerHealth. rewrite bind_now.
  unfold bind at 1. cbn [probeCalls set_nowCalls]. fold outcome.
  destruct outcome as [code| |msg|msg] eqn:O.
  - rewrite bind_now. unfold updateResponseTime. rewrite bind_modify. unfold ret.
    eexists _, _. split; [reflexivity|]. repeat split.
    + cbn. intros F. left. f_equal. apply negb_true_iff in F.
      destruct (Z.eqb_spec code 200) as [->|]; [discriminate|reflexivity].
    + intros E. inversion E. reflexivity.
  - eexists _, _. split; [reflexivity|]. repeat split; [intros; left; reflexivity|discriminate].
  - eexists _, _. split; [reflexivity|]. repeat split; [intros; left; reflexivity|discriminate].
  - eexists _, _. split; [reflexivity|]. repeat split; [intros; right; eexists; reflexivity|discriminate].
Qed.

Lemma updateCache_run b w :
  updateCache env b w
  = (Return tt,
     set_cache {| HealthCache.lastCheck := Some (dateNow env (nowCalls w));
                  HealthCache.lastResult := Some b;
                  HealthCache.cacheTimeMs := HealthCache.cacheTimeMs (cache w) |}
       (set_nowCalls (S (nowCalls w)) w)).
Proof. reflexivity. Qed.

Lemma isServerHealthy_total w :
  exists h w', isServerHealthy env w = (Return h, w')
    /\ apiLog w' = apiLog w /\ firebaseOps w' = firebaseOps w /\ store w' = store w.
Proof.
  unfold isServerHealthy.
  destruct (isCacheValid_total w) as (b & w1 & E & L & _ & F & St).
  rewrite (bind_returned _ _ _ _ _ E). destruct b.
  - unfold bind, get, ret. eexists _, _. repeat split; assumption.
  - destruct (checkServerHealth_cases w1) as (c & w2 & E2 & L2 & F2 & St2 & _).
    destruct c as [r|e].
    + rewrite (tryCatch_returned _ _ _ (Some r)
                 (set_cache {| HealthCache.lastCheck := Some (dateNow env (nowCalls w2));
                               HealthCache.lastResult := Some r;
                               HealthCache.cacheTimeMs := HealthCache.cacheTimeMs (cache w2) |}
                    (set_nowCalls (S (nowCalls w2)) w2))).
      * eexists _, _. split; [reflexivity|]. cbn. repeat split; congruence.
      * rewrite (bind_returned _ _ _ _ _ E2).
        rewrite (bind_returned _ _ _ _ _ (updateCache_run r w2)). reflexivity.
    + rewrite (tryCatch_thrown _ _ _ e w2).
      * rewrite (bind_returned _ _ _ _ _ (updateCache_run false w2)).
        eexists _, _. split; [reflexivity|]. cbn. repeat split; congruence.
      * rewrite (bind_thrown _ _ _ _ _ E2). reflexivity.
Qed.

(** A probe that is made and fails gives [false]. *)
Lemma isServerHealthy_probe_fails w w1 :
  isCacheValid env w = (Return false, w1) ->
  probeFails (healthProbe env (probeCalls w1)) = true ->
  fst (isServerHealthy env w) = Return (Some false).
Proof.
  intros E P. unfold isServerHealthy. rewrite (bind_returned _ _ _ _ _ E).
  destruct (checkServerHealth_cases w1) as (c & w2 & E2 & _ & _ & _ & C & _).
  destruct (C P) as [->|[e ->]].
  - erewrite tryCatch_returned; [reflexivity|].
    rewrite (bind_returned _ _ _ _ _ E2).
    rewrite (bind_returned _ _ _ _ _ (updateCache_run false w2)). reflexivity.
  - erewrite tryCatch_thrown; [|rewrite (bind_thrown _ _ _ _ _ E2); reflexivity].
    rewrite (bind_returned _ _ _ _ _ (updateCache_run false w2)). reflexivity.
Qed.
End Health.

Section Status.
Import QueueManager.
Variable env : Env.

Lemma read_run {A} (f : World -> A) w :
  firebase env (w0 <- get ;; ret (f w0)) w
  = (match firebaseFault env (firebaseOps w) with
     | Some msg => Throw (error msg)
     | None => Return (f (set_firebaseOps (S (firebaseOps w)) w))
     end,
     set_firebaseOps (S (firebaseOps w)) w).
Proof.
  unfold firebase, bind, get, ret.
  destruct (firebaseFault env (firebaseOps w)); reflexivity.
Qed.

(** [getQueueStatus] always returns, and the object it returns has no
    [serverAlive] property. *)
Lemma getQueueStatus_total w :
  exists status w', getQueueStatus env w = (Return status, w')
    /\ apiLog w' = apiLog w /\ store w' = store w
    /\ cache w' = cache w
    /\ QueueStatus.serverAlive status = None
    /\ firebaseOps w' = (3 + firebaseOps w)%nat.
Proof.
  unfold getQueueStatus, tryCatch. unfold bind at 1.
  unfold promiseAll3, readPending, readProcessing, readHeartbeat.
  rewrite !read_run. cbn [firebaseOps set_firebaseOps store].
  destruct (firebaseFault env (firebaseOps w));
    destruct (firebaseFault env (S (firebaseOps w)));
    destruct (firebaseFault env (S (S (firebaseOps w))));
    try (eexists _, _; split; [reflexivity|]; repeat split).
  destruct (Store.heartbeat (store w)) as [hb|].
  - destruct (Heartbeat.alive hb).
    + unfold bind, now, ret. eexists _, _; (split; [reflexivity|]); repeat split.
    + unfold bind, ret. eexists _, _; (split; [reflexivity|]); repeat split.
  - unfold bind, ret. eexists _, _; (split; [reflexivity|]); repeat split.
Qed.
End Status.

Section Api.
Variable env : Env.

(** [ApiClient.sendMessage] makes exactly one request, whatever its
    outcome. *)
Lemma api_sendMessage_cases number message options w :
  exists c w', ApiClient.sendMessage env number message options w = (c, w')
    /\ apiLog w' = (apiLog w ++ [(number, message)])%list
    /\ store w' = store w /\ firebaseOps w' = firebaseOps w
    /\ uuidCalls w' = uuidCalls w.
Proof.
  unfold ApiClient.sendMessage, ApiClient.makeApiRequest, tryCatch, bind, throw, ret, now.
  destruct (apiRequest env (List.length (apiLog w))) as [response|msg].
  - destruct (apiSuccess response); cbn [negb].
    + destruct (orString (apiMessageId response) (orString (apiKeyId response) None));
        destruct (orUndefined (apiMessageTimestamp response));
        eexists _, _; (split; [reflexivity|]); repeat split.
    + eexists _, _; (split; [reflexivity|]); repeat split.
  - eexists _, _; (split; [reflexivity|]); repeat split.
Qed.
End Api.

(* ================================================================= *)
(** ** The router                                                      *)
(* ================================================================= *)

Section Router.
Import Whaple.
Variable env : Env.

Lemma buildMessageData_returned number message options w md w0 :
  buildMessageData env number message options w = (Return md, w0) ->
  normalizePhoneNumber env number w = (Return (MessageData.number md), w)
  /\ MessageData.message md = message
  /\ MessageData.options md = options
  /\ apiLog w0 = apiLog w
  /\ store w0 = store w
  /\ firebaseOps w0 = firebaseOps w.
Proof.
  destruct number as [|c n]; [intros H; discriminate|].
  unfold buildMessageData.
  rewrite (bind_returned _ _ _ _ _ (normalize_returns env (String c n) w ltac:(discriminate))).
  rewrite normalize_returns by discriminate.
  unfold bind, now, ret. intros H. inversion H; subst. repeat split.
Qed.

Lemma sendMessage_smart this number message options w md w0 :
  directWhatsApp this = false -> smartRouting this = true ->
  buildMessageData env number message options w = (Return md, w0) ->
  sendMessage env this number message options w
  = wrapFailure (smartRoutingDecision env this md w0).
Proof.
  intros D S B. unfold sendMessage. rewrite (bind_returned _ _ _ _ _ B).
  unfold tryCatch, bind, get, wrapFailure, throw, failed. rewrite D, S.
  destruct (smartRoutingDecision env this md w0) as [[r|e] w']; reflexivity.
Qed.

Lemma smartRouting_queue this md w0 h w1 status w2 :
  HealthChecker.isServerHealthy env w0 = (Return h, w1) ->
  QueueManager.getQueueStatus env w1 = (Return status, w2) ->
  shouldUseQueue this h status = true ->
  smartRoutingDecision env this md w0 = enqueueOnce env md w2.
Proof.
  intros H Q U. unfold smartRoutingDecision, tryCatch, enqueueOnce.
  rewrite (bind_returned _ _ _ _ _ H), (bind_returned _ _ _ _ _ Q), U.
  destruct (QueueManager.addMessage env md w2) as [[r|e] w3]; reflexivity.
Qed.

Lemma smartRouting_direct this md w0 h w1 status w2 :
  HealthChecker.isServerHealthy env w0 = (Return h, w1) ->
  QueueManager.getQueueStatus env w1 = (Return status, w2) ->
  shouldUseQueue this h status = false ->
  smartRoutingDecision env this md w0
  = match sendDirectWithFallback env this md w2 with
    | (Return r, w3) => (Return r, w3)
    | (Throw _, w3) => QueueManager.addMessage env md w3
    end.
Proof.
  intros H Q U. unfold smartRoutingDecision, tryCatch.
  rewrite (bind_returned _ _ _ _ _ H), (bind_returned _ _ _ _ _ Q), U.
  reflexivity.
Qed.

Lemma sendDirectWithFallback_cases this md w :
  directWhatsApp this = false ->
  exists c w3,
    ApiClient.sendMessage env (MessageData.number md) (MessageData.message md)
      (MessageData.options md) w = (c, w3)
    /\ apiLog w3 = (apiLog w ++ [(MessageData.number md, MessageData.message md)])%list
    /\ match c with
       | Return _ =>
           exists r w4, sendDirectWithFallback env this md w = (Return r, w4)
                        /\ SendMessageResult.success r = true
                        /\ SendMessageResult.method r = direct
                        /\ apiLog w4 = apiLog w3
       | Throw e =>
           sendDirectWithFallback env this md w
           = match QueueManager.addMessage env md w3 with
             | (Return q, w4) => (Return (annotate q e), w4)
             | (Throw e', w4) => (Throw e', w4)
             end
       end.
Proof.
  intros D.
  destruct (api_sendMessage_cases env (MessageData.number md) (MessageData.message md)
              (MessageData.options md) w) as (c & w3 & E & L & _).
  exists c, w3. split; [exact E|]. split; [exact L|].
  unfold sendDirectWithFallback, withApiClient. rewrite D. destruct c as [res|e].
  - unfold tryCatch. rewrite (bind_returned _ _ _ _ _ E).
    destruct (ApiClient.messageId res); unfold bind, now, ret;
      eexists _, _; (split; [reflexivity|]); repeat split.
  - rewrite (tryCatch_thrown _ _ _ e w3); [|rewrite (bind_thrown _ _ _ _ _ E); reflexivity].
    unfold bind, ret, annotate.
    destruct (QueueManager.addMessage env md w3) as [[q|e'] w4]; reflexivity.
Qed.

(** In direct mode there is no API client: the attempt throws a
    [TypeError] without a request, and the message is enqueued. *)
Lemma sendDirectWithFallback_no_client this md w :
  directWhatsApp this = true ->
  sendDirectWithFallback env this md w
  = match QueueManager.addMessage env md w with
    | (Return q, w4) => (Return (annotate q undefinedReceiver), w4)
    | (Throw e', w4) => (Throw e', w4)
    end.
Proof.
  intros D. unfold sendDirectWithFallback, withApiClient. rewrite D.
  unfold tryCatch, bind, throw, ret, annotate.
  destruct (QueueManager.addMessage env md w) as [[q|e'] w4]; reflexivity.
Qed.


Lemma enqueueOnce_cases md w :
  apiLog (snd (enqueueOnce env md w)) = apiLog w
  /\ (forall r w', enqueueOnce env md w = (Return r, w') ->
        SendMessageResult.success r = true /\ SendMessageResult.method r = queued).
Proof.
  unfold enqueueOnce.
  destruct (QueueManager.addMessage env md w) as [[r|e] w1] eqn:E.
  - split.
    + pose proof (addMessage_apiLog env md w) as L. rewrite E in L. exact L.
    + intros r' w' H. inversion H; subst.
      destruct (addMessage_returned env md w r' w' E) as (S & Q & _). auto.
  - split.
    + pose proof (addMessage_apiLog env md w) as L. rewrite E in L. cbn in L.
      rewrite addMessage_apiLog. exact L.
    + intros r' w' H.
      destruct (addMessage_returned env md w1 r' w' H) as (S & Q & _). auto.
Qed.

(** When the router enqueues: the call returns exactly when one of the
    (at most) two writes resolves, and then the message is in
    [pending]; it throws the error of the second write, and the
    database is as it was. *)
Lemma enqueueOnce_outcome md w :
  ((exists r w', enqueueOnce env md w = (Return r, w'))
   <-> (firebaseFault env (S (firebaseOps w)) = None
        \/ firebaseFault env (S (S (S (firebaseOps w)))) = None))
  /\ (forall r w', enqueueOnce env md w = (Return r, w') ->
        SendMessageResult.success r = true
        /\ SendMessageResult.method r = queued
        /\ isEnqueued md r (store w) (store w'))
  /\ (forall e w', enqueueOnce env md w = (Throw e, w') ->
        exists msg,
          firebaseFault env (S (S (S (firebaseOps w)))) = Some msg
          /\ e = error ("Failed to queue message: " ++ msg)%string
          /\ store w' = store w).
Proof.
  unfold enqueueOnce.
  pose proof (addMessage_outcome env md w) as A.
  destruct (firebaseFault env (S (firebaseOps w))) as [m1|].
  - destruct A as (w1 & E1 & S1 & F1). rewrite E1.
    pose proof (addMessage_outcome env md w1) as B. rewrite F1 in B.
    destruct (firebaseFault env (S (S (S (firebaseOps w))))) as [m2|].
    + destruct B as (w2 & E2 & S2 & _). rewrite E2. split; [|split].
      * split; [intros (r & w' & H); discriminate|intros [H|H]; discriminate].
      * intros r w' H. discriminate.
      * intros e w' H. inversion H; subst. exists m2. repeat split. congruence.
    + destruct B as (r & w2 & E2 & Sr & Mr & Q). rewrite E2. split; [|split].
      * split; [intros _; right; reflexivity|intros _; eauto].
      * intros r' w' H. inversion H; subst r' w'. rewrite <- S1. auto.
      * intros e w' H. discriminate.
  - destruct A as (r & w1 & E1 & Sr & Mr & Q). rewrite E1. split; [|split].
    + split; [intros _; left; reflexivity|intros _; eauto].
    + intros r' w' H. inversion H; subst r' w'. auto.
    + intros e w' H. discriminate.
Qed.

Lemma wrapFailure_world {A} (out : Completion A * World) :
  snd (wrapFailure out) = snd out.
Proof. destruct out as [[r|e] w']; reflexivity. Qed.

Lemma wrapFailure_returned {A} (out : Completion A * World) r w' :
  wrapFailure out = (Return r, w') -> out = (Return r, w').
Proof. destruct out as [[r0|e] w0]; cbn; intros H; inversion H; reflexivity. Qed.

Lemma wrapFailure_thrown {A} (out : Completion A * World) x w' :
  wrapFailure out = (Throw x, w') ->
  exists e, out = (Throw e, w') /\ x = failed e.
Proof.
  destruct out as [[r0|e] w0]; cbn; intros H; inversion H. eauto.
Qed.

Lemma wrapFailure_returns {A} (out : Completion A * World) :
  (exists r w', wrapFailure out = (Return r, w'))
  <-> (exists r w', out = (Return r, w')).
Proof.
  destruct out as [[r0|e] w0]; cbn; split; intros (r & w' & H);
    solve [eauto | discriminate].
Qed.

(** The state in which the router enqueues: the database and the
    request log are as [sendMessage] found them, three reads later. *)
Lemma routing_frame number message options w md w0 h w1 status w2 :
  buildMessageData env number message options w = (Return md, w0) ->
  HealthChecker.isServerHealthy env w0 = (Return h, w1) ->
  QueueManager.getQueueStatus env w1 = (Return status, w2) ->
  apiLog w2 = apiLog w /\ store w2 = store w
  /\ firebaseOps w2 = (3 + firebaseOps w)%nat.
Proof.
  intros B H Q.
  destruct (buildMessageData_returned _ _ _ _ _ _ B) as (_ & _ & _ & L0 & S0 & F0).
  destruct (isServerHealthy_total env w0) as (h' & w1' & E1 & L1 & F1 & S1).
  rewrite H in E1. inversion E1; subst h' w1'.
  destruct (getQueueStatus_total env w1) as (s' & w2' & E2 & L2 & S2 & _ & _ & F2).
  rewrite Q in E2. inversion E2; subst s' w2'.
  repeat split; congruence.
Qed.



(** C9, amended: when the health probe is made and fails (timeout,
    network error, request that cannot be made, status outside 2xx),
    [isServerHealthy] returns [false] and throws nothing; under smart
    routing [sendMessage] then makes no request to the API server and
    routes to the queue. It returns exactly when the write to
    [pending] resolves (at the first attempt or at the one retry), and
    then with [method = queued] and the message stored in [pending];
    it throws only when both writes are rejected, and then the error
    of the second write, with the database as it was. *)
Theorem probe_failure_routes_to_queue this number message options w md w0 wc :
  directWhatsApp this = false ->
  smartRouting this = true ->
  buildMessageData env number message options w = (Return md, w0) ->
  HealthChecker.isCacheValid env w0 = (Return false, wc) ->
  probeFails (healthProbe env (probeCalls wc)) = true ->
  let out := sendMessage env this number message options w in
  fst (HealthChecker.isServerHealthy env w0) = Return (Some false)
  /\ apiLog (snd out) = apiLog w
  /\ (exists w2, out = wrapFailure (enqueueOnce env md w2))
  /\ ((exists r w', out = (Return r, w'))
      <-> (firebaseFault env (4 + firebaseOps w) = None
           \/ firebaseFault env (6 + firebaseOps w) = None))
  /\ (forall r w', out = (Return r, w') ->
        SendMessageResult.success r = true
        /\ SendMessageResult.method r = queued
        /\ isEnqueued md r (store w) (store w'))
  /\ (forall x w', out = (Throw x, w') ->
        exists msg,
          firebaseFault env (4 + firebaseOps w) <> None
          /\ firebaseFault env (6 + firebaseOps w) = Some msg
          /\ x = error ("Failed to send message: Failed to queue message: "
                        ++ msg)%string
          /\ store w' = store w).
Proof.
  intros D S B V P out.
  pose proof (isServerHealthy_probe_fails env w0 wc V P) as F.
  destruct (isServerHealthy_total env w0) as (h & w1 & E1 & L1 & _).
  rewrite E1 in F. cbn in F. inversion F; subst h.
  destruct (getQueueStatus_total env w1) as (status & w2 & E2 & L2 & _).
  destruct (routing_frame _ _ _ _ _ _ _ _ _ _ B E1 E2) as (L0 & S0 & F0).
  assert (U : shouldUseQueue this (Some false) status = true) by reflexivity.
  subst out. rewrite (sendMessage_smart _ _ _ _ _ _ _ D S B).
  rewrite (smartRouting_queue _ _ _ _ _ _ _ E1 E2 U).
  destruct (enqueueOnce_cases md w2) as (L & _).
  destruct (enqueueOnce_outcome md w2) as (R & St & T).
  rewrite F0 in R, T. rewrite S0 in St, T.
  split; [rewrite E1; reflexivity|].
  split; [rewrite wrapFailure_world; congruence|].
  split; [exists w2; reflexivity|]. split; [|split].
  - rewrite wrapFailure_returns. exact R.
  - intros r w' E. apply wrapFailure_returned in E. eauto.
  - intros x w' E. apply wrapFailure_thrown in E as (e & E & X).
    destruct (T e w' E) as (msg & M2 & Ee & Sw).
    exists msg. split.
    + intros M1. assert (Y : exists r w'0, enqueueOnce env md w2 = (Return r, w'0))
        by (apply R; left; exact M1).
      destruct Y as (r & w'' & Y). congruence.
    + split; [exact M2|]. split; [|exact Sw].
      subst x e. reflexivity.
Qed.
End Router.




(** C9, as stated, fails: with a failing probe the call is routed to
    the queue, and when the database then rejects the write (twice)
    [sendMessage] throws. *)
Lemma probe_failure_with_store_failure_throws :
  fst (HealthChecker.isServerHealthy Scenario.allDown
         (Scenario.afterBuild Scenario.allDown
            (Scenario.freshWorld Scenario.emptyStore)))
  = Return (Some false)
  /\ fst (Whaple.sendMessage Scenario.allDown Scenario.sdk "+15555550123" "hi"
            SendMessageOptions.empty (Scenario.freshWorld Scenario.emptyStore))
     = Throw (error
         "Failed to send message: Failed to queue message: PERMISSION_DENIED").
Proof. split; vm_compute; reflexivity. Qed.

Lemma probe_failure_routes_to_queue_witness :
  let w := Scenario.freshWorld Scenario.emptyStore in
  let out := Whaple.sendMessage Scenario.probeDown Scenario.sdk "+15555550123" "hi"
               SendMessageOptions.empty w in
  fst (HealthChecker.isServerHealthy Scenario.probeDown
         (Scenario.afterBuild Scenario.probeDown w))
  = Return (Some false)
  /\ apiLog (snd out) = apiLog w
  /\ (exists w2, out = wrapFailure (enqueueOnce Scenario.probeDown Scenario.hello w2))
  /\ ((exists r w', out = (Return r, w'))
      <-> (firebaseFault Scenario.probeDown (4 + firebaseOps w) = None
           \/ firebaseFault Scenario.probeDown (6 + firebaseOps w) = None))
  /\ (forall r w', out = (Return r, w') ->
        SendMessageResult.success r = true
        /\ SendMessageResult.method r = queued
        /\ isEnqueued Scenario.hello r (store w) (store w'))
  /\ (forall x w', out = (Throw x, w') ->
        exists msg,
          firebaseFault Scenario.probeDown (4 + firebaseOps w) <> None
          /\ firebaseFault Scenario.probeDown (6 + firebaseOps w) = Some msg
          /\ x = error ("Failed to send message: Failed to queue message: "
                        ++ msg)%string
          /\ store w' = store w).
Proof.
  apply (probe_failure_routes_to_queue Scenario.probeDown Scenario.sdk
           "+15555550123" "hi" SendMessageOptions.empty
           (Scenario.freshWorld Scenario.emptyStore)
           Scenario.hello
           (Scenario.afterBuild Scenario.probeDown
              (Scenario.freshWorld Scenario.emptyStore))
           (Scenario.afterBuild Scenario.probeDown
              (Scenario.freshWorld Scenario.emptyStore))).
  - reflexivity.
  - reflexivity.
  - vm_compute. reflexivity.
  - vm_compute. reflexivity.
  - vm_compute. reflexivity.
Defined.

(* ================================================================= *)
(** ** The direct channel                                              *)
(* ================================================================= *)

Section DirectChannel.
Import Channel WhatsAppConnection.

Lemma core_setTimeout cb ms s : core (snd (setTimeout cb ms s)) = core s.
Proof. reflexivity. Qed.

Lemma core_clearTimeout h s : core (clearTimeout h s) = core s.
Proof. reflexivity. Qed.

Lemma core_scheduleReconnect j s : core (scheduleReconnect j s) = core s.
Proof.
  unfold scheduleReconnect.
  destruct (MAX_RECONNECT_ATTEMPTS <=? reconnectAttempts s); [reflexivity|].
  destruct (isReconnecting s); reflexivity.
Qed.

Lemma core_resetReconnectState s : core (resetReconnectState s) = core s.
Proof.
  unfold resetReconnectState. cbn [reconnectTimeout set_isReconnecting set_reconnectAttempts].
  destruct (reconnectTimeout s); reflexivity.
Qed.

Lemma consistent_core s s' :
  core s' = core s -> consistent s -> consistent s'.
Proof.
  unfold core, consistent. intros E. inversion E as [[E1 E2 E3 E4]].
  rewrite E1, E2, E3, E4. auto.
Qed.

Lemma disconnected_consistent s : isConnected s = false -> consistent s.
Proof. unfold consistent. congruence. Qed.

Lemma isConnected_core s s' : core s' = core s -> isConnected s' = isConnected s.
Proof. unfold core. intros E. inversion E. reflexivity. Qed.

Lemma consistent_connect ok j s : consistent s -> consistent (connect ok j s).
Proof.
  intros C. unfold connect. destruct ok.
  - unfold consistent in *. cbn. intros H. destruct (C H) as (A & B & _).
    repeat split; auto. discriminate.
  - apply disconnected_consistent.
    rewrite (isConnected_core _ _ (core_scheduleReconnect _ _)). reflexivity.
Qed.

Lemma consistent_onQR u time s : consistent s -> consistent (onQR u time s).
Proof.
  intros C. unfold onQR. destruct (qr u) as [[|c q]|]; try exact C.
  destruct (connectionState s) eqn:E; try exact C;
    apply disconnected_consistent;
    rewrite (isConnected_core _ _ (core_resetReconnectState _)); reflexivity.
Qed.

Lemma onClose_disconnected code j s : isConnected (onClose code j s) = false.
Proof.
  unfold onClose. destruct code as [[| |n]|].
  - rewrite (isConnected_core _ _ (core_resetReconnectState _)). reflexivity.
  - reflexivity.
  - cbn [isReconnecting set_isReconnecting negb andb].
    rewrite (isConnected_core _ _ (core_scheduleReconnect _ _)). reflexivity.
  - cbn [isReconnecting set_isReconnecting negb andb].
    rewrite (isConnected_core _ _ (core_scheduleReconnect _ _)). reflexivity.
Qed.

Lemma consistent_onOpen user s : sock s <> None -> consistent (onOpen user s).
Proof.
  intros N. unfold onOpen.
  set (s0 := set_lastQRTime None _).
  assert (C : consistent (resetReconnectState s0)).
  { apply (consistent_core s0); [apply core_resetReconnectState|].
    unfold consistent. cbn. auto. }
  destruct user; [|exact C].
  eapply consistent_core; [|exact C]. reflexivity.
Qed.

Lemma sock_onQR u time s : sock (onQR u time s) = sock s.
Proof.
  unfold onQR. destruct (qr u) as [[|c q]|]; try reflexivity.
  destruct (connectionState s); try reflexivity;
    pose proof (core_resetReconnectState
      (set_isConnected false
         (set_isAuthenticated false
            (set_connectionState waiting_for_qr
               (set_lastQRTime (Some time)
                  (set_currentQR (Some (String c q)) s)))))) as E;
    unfold core in E; inversion E; reflexivity.
Qed.

Lemma consistent_step s ev :
  enabled s ev = true -> consistent s -> consistent (step s ev).
Proof.
  intros En C. destruct ev as [ok j|u user time j|h ok j| | |]; cbn [step].
  - apply consistent_connect. exact C.
  - unfold onConnectionUpdate.
    pose proof (consistent_onQR u time s C) as CQ.
    destruct (connection u) as [[| |]|].
    + apply disconnected_consistent, onClose_disconnected.
    + apply consistent_onOpen. rewrite sock_onQR.
      cbn in En. destruct (sock s); [discriminate|discriminate].
    + apply disconnected_consistent. reflexivity.
    + exact CQ.
  - unfold fire. destruct (find _ (timers s)) as [tm|]; [|exact C].
    assert (C' : consistent (clearTimeout h s))
      by (apply (consistent_core s); [apply core_clearTimeout|exact C]).
    destruct (callback tm); cbn [runCallback].
    + apply consistent_connect. eapply consistent_core; [|exact C']. reflexivity.
    + eapply consistent_core; [apply core_scheduleReconnect|exact C'].
    + apply consistent_connect. exact C'.
  - apply disconnected_consistent. unfold disconnect.
    rewrite (isConnected_core _ _ (core_resetReconnectState _)). reflexivity.
  - apply disconnected_consistent. unfold forceReconnect, disconnect.
    rewrite (isConnected_core _ _ (core_setTimeout _ _ _)).
    rewrite (isConnected_core _ _ (core_resetReconnectState _)). reflexivity.
  - apply disconnected_consistent. unfold resetAuthentication, disconnect.
    rewrite (isConnected_core _ _ (core_setTimeout _ _ _)).
    rewrite (isConnected_core _ _ (core_resetReconnectState _)). reflexivity.
Qed.

Lemma reachable_consistent s : reachable s -> consistent s.
Proof.
  induction 1 as [|s ev R IH En].
  - apply disconnected_consistent. reflexivity.
  - apply consistent_step; assumption.
Qed.

Lemma settled_core s s' : core s' = core s -> settled s -> settled s'.
Proof.
  unfold core, settled. intros E. inversion E as [[E1 E2 E3 E4]].
  rewrite E2, E3, E4. auto.
Qed.

Lemma unauthenticated_settled s : isAuthenticated s = false -> settled s.
Proof. unfold settled. congruence. Qed.

Lemma isAuthenticated_core s s' :
  core s' = core s -> isAuthenticated s' = isAuthenticated s.
Proof. unfold core. intros E. inversion E. reflexivity. Qed.

Lemma connectionState_core s s' :
  core s' = core s -> connectionState s' = connectionState s.
Proof. unfold core. intros E. inversion E. reflexivity. Qed.

Lemma settled_connect ok j s : settled s -> settled (connect ok j s).
Proof.
  intros C. unfold connect. destruct ok.
  - unfold settled in *. cbn. exact C.
  - apply unauthenticated_settled.
    rewrite (isAuthenticated_core _ _ (core_scheduleReconnect _ _)). reflexivity.
Qed.

Lemma settled_onQR u time s : settled s -> settled (onQR u time s).
Proof.
  intros C. unfold onQR. destruct (qr u) as [[|c q]|]; try exact C.
  destruct (connectionState s) eqn:E; try exact C;
    apply unauthenticated_settled;
    rewrite (isAuthenticated_core _ _ (core_resetReconnectState _)); reflexivity.
Qed.

Lemma onClose_state code j s : connectionState (onClose code j s) = disconnected.
Proof.
  unfold onClose. destruct code as [[| |n]|].
  - rewrite (connectionState_core _ _ (core_resetReconnectState _)). reflexivity.
  - reflexivity.
  - cbn [isReconnecting set_isReconnecting negb andb].
    rewrite (connectionState_core _ _ (core_scheduleReconnect _ _)). reflexivity.
  - cbn [isReconnecting set_isReconnecting negb andb].
    rewrite (connectionState_core _ _ (core_scheduleReconnect _ _)). reflexivity.
Qed.

Lemma onOpen_connected user s : isConnected (onOpen user s) = true.
Proof.
  unfold onOpen. set (s0 := set_lastQRTime None _).
  assert (E : isConnected (resetReconnectState s0) = true)
    by (rewrite (isConnected_core _ _ (core_resetReconnectState _)); reflexivity).
  destruct user; exact E.
Qed.

Lemma settled_step s ev : settled s -> settled (step s ev).
Proof.
  intros C. destruct ev as [ok j|u user time j|h ok j| | |]; cbn [step].
  - apply settled_connect. exact C.
  - unfold onConnectionUpdate.
    destruct (connection u) as [[| |]|].
    + unfold settled. rewrite onClose_state. discriminate.
    + unfold settled. intros _ _. apply onOpen_connected.
    + unfold settled. cbn. discriminate.
    + apply settled_onQR. exact C.
  - unfold fire. destruct (find _ (timers s)) as [tm|]; [|exact C].
    assert (C' : settled (clearTimeout h s))
      by (apply (settled_core s); [apply core_clearTimeout|exact C]).
    destruct (callback tm); cbn [runCallback].
    + apply settled_connect. eapply settled_core; [|exact C']. reflexivity.
    + eapply settled_core; [apply core_scheduleReconnect|exact C'].
    + apply settled_connect. exact C'.
  - apply unauthenticated_settled. unfold disconnect.
    rewrite (isAuthenticated_core _ _ (core_resetReconnectState _)). reflexivity.
  - apply unauthenticated_settled. unfold forceReconnect, disconnect.
    rewrite (isAuthenticated_core _ _ (core_setTimeout _ _ _)).
    rewrite (isAuthenticated_core _ _ (core_resetReconnectState _)). reflexivity.
  - apply unauthenticated_settled. unfold resetAuthentication, disconnect.
    rewrite (isAuthenticated_core _ _ (core_setTimeout _ _ _)).
    rewrite (isAuthenticated_core _ _ (core_resetReconnectState _)). reflexivity.
Qed.

Lemma reachable_settled s : reachable s -> settled s.
Proof.
  induction 1 as [|s ev R IH En].
  - apply unauthenticated_settled. reflexivity.
  - apply settled_step. assumption.
Qed.

(** In a state the instance can be in, [isConnected] says exactly that
    the channel is connected and authenticated. *)
Lemma reachable_isConnected s : reachable s -> isConnected s = ready s.
Proof.
  intros R. pose proof (reachable_consistent s R) as C.
  pose proof (reachable_settled s R) as T.
  unfold consistent, settled, ready in *.
  destruct (isConnected s) eqn:I.
  - destruct (C eq_refl) as (-> & -> & _). reflexivity.
  - destruct (connectionState s); try reflexivity.
    destruct (isAuthenticated s); [|reflexivity].
    apply T; reflexivity.
Qed.

(** C8: in every state a channel can be in, [sendMessage] succeeds only
    when the channel is in the [connected] state and authenticated; in
    every other state it throws "WhatsApp not connected" and hands
    nothing to the socket (the process state is unchanged). *)
Theorem send_needs_ready_channel env s number message w :
  reachable s ->
  (ready s = false ->
   sendMessage env s number message w = (Throw notConnected, w))
  /\ (forall r w',
        sendMessage env s number message w = (Return r, w') ->
        connectionState s = connected /\ isAuthenticated s = true).
Proof.
  intros R. pose proof (reachable_isConnected s R) as I. split.
  - intros N. unfold sendMessage. rewrite I, N. reflexivity.
  - intros r w' H. unfold sendMessage in H.
    destruct (isConnected s) eqn:C.
    + destruct (reachable_consistent s R C) as (A & B & _). auto.
    + cbn in H. discriminate.
Qed.

Lemma send_needs_ready_channel_witness :
  (ready initial = false ->
   sendMessage Scenario.allUp initial "+15555550123" "hi"
     (Scenario.freshWorld Scenario.emptyStore)
   = (Throw notConnected, Scenario.freshWorld Scenario.emptyStore))
  /\ (forall r w',
        sendMessage Scenario.allUp initial "+15555550123" "hi"
          (Scenario.freshWorld Scenario.emptyStore) = (Return r, w') ->
        connectionState initial = connected /\ isAuthenticated initial = true).
Proof.
  apply (send_needs_ready_channel Scenario.allUp initial "+15555550123" "hi"
           (Scenario.freshWorld Scenario.emptyStore)).
  apply reachable_initial.
Defined.

(** C6 fails on the code: the close handler sets [isReconnecting] to
    false before it tests it, so a second close that arrives while a
    reconnect timer is pending schedules a second one. Here two sockets
    exist, the first has closed (one timer pending, [isReconnecting]
    true), and the second closes before that timer fires. *)
Theorem second_close_schedules_second_timer :
  let close := Scenario.closed (Some (otherReason 428)) in
  let s1 := Scenario.oneClosed in
  let s2 := step s1 close in
  reachable s1
  /\ enabled s1 close = true
  /\ isReconnecting s1 = true
  /\ List.length (pendingReconnects s1) = 1%nat
  /\ reconnectAttempts s1 < MAX_RECONNECT_ATTEMPTS
  /\ List.length (pendingReconnects s2) = 2%nat.
Proof.
  cbv zeta. split.
  - unfold Scenario.oneClosed, run. cbn [fold_left].
    repeat (apply reachable_step; [|reflexivity]). apply reachable_initial.
  - repeat split; reflexivity.
Qed.

(** C7 fails on the code: on "restart required" the handler resets the
    attempt counter and sets a one-second timer whose callback is
    [scheduleReconnect]; [connect] is not called. When that timer fires,
    [scheduleReconnect] sets the reconnect timer with the backoff delay
    of attempt 0, [5000 + jitter] ms, and [connect] runs only when that
    second timer fires, with the counter already incremented to 1. *)
Theorem restart_required_goes_through_backoff (jitter : Z) :
  let s := Scenario.restarting in
  let s' := step s (timerFired 0 true jitter) in
  let s'' := step s' (timerFired 1 true 0) in
  reachable s
  /\ reconnectAttempts s = 0
  /\ connectCalls s = 1%nat
  /\ timers s = [{| handle := 0%nat; delay := 1000; callback := scheduleTimer |}]
  /\ connectCalls s' = 1%nat
  /\ timers s' = [{| handle := 1%nat; delay := 5000 + jitter;
                     callback := reconnectTimer |}]
  /\ connectCalls s'' = 2%nat
  /\ reconnectAttempts s'' = 1.
Proof.
  cbv zeta. split.
  - unfold Scenario.restarting, run. cbn [fold_left].
    repeat (apply reachable_step; [|reflexivity]). apply reachable_initial.
  - repeat split; reflexivity.
Qed.

End DirectChannel.

(* ================================================================= *)
(** ** Conditional enqueue                                             *)
(* ================================================================= *)

Section Conditional.
Import QueueManager.
Variable env : Env.

(** Whatever the heartbeat says, the default condition evaluated on the
    status [getQueueStatus] returns is met, with reason
    ["server_offline"]: the status carries no [serverAlive]. *)
Lemma default_condition_always_met w status w' :
  getQueueStatus env w = (Return status, w') ->
  evaluateConditions status customAbsent
  = {| result := true; reason := "server_offline" |}.
Proof.
  intros H. destruct (getQueueStatus_total env w) as (s0 & w0 & E & _ & _ & _ & A & _).
  rewrite H in E. inversion E; subst s0 w0.
  unfold evaluateConditions. rewrite A. reflexivity.
Qed.

(** An exception of the caller's predicate is caught: the call returns
    a failed-condition result that quotes the message, and nothing is
    enqueued. *)
Lemma custom_exception_is_caught md f w status w' e :
  getQueueStatus env w = (Return status, w') ->
  f status = Throw e ->
  conditionalAdd env md (customFunction f) w
  = (Return {| success := false;
               method := "condition_failed";
               reason' := Some ("custom_condition_error: " ++ JS.message e)%string;
               queueStatus := Some status;
               messageId := None;
               timestamp := None;
               position := None |}, w').
Proof.
  intros H F. unfold conditionalAdd.
  erewrite tryCatch_returned; [reflexivity|].
  rewrite (bind_returned _ _ _ _ _ H). unfold evaluateConditions. rewrite F.
  reflexivity.
Qed.

End Conditional.

(** C3 fails on the code: the worker is alive (its heartbeat was seen
    at the time of the call) and the queue is empty, so the default
    policy says "do not enqueue"; [conditionalAdd] without a predicate
    enqueues the message and returns [success = true],
    [method = "queued"]. *)
Theorem conditional_add_ignores_worker_liveness :
  let w := Scenario.freshWorld Scenario.aliveAndIdle in
  let out := QueueManager.conditionalAdd Scenario.allUp Scenario.hello
               QueueManager.customAbsent w in
  workerAlive (Store.heartbeat Scenario.aliveAndIdle) (Scenario.clock 0) = true
  /\ defaultPolicy true 0 = false
  /\ fst out
     = Return {| QueueManager.success := true;
                 QueueManager.method := "queued";
                 QueueManager.reason' := None;
                 QueueManager.queueStatus := None;
                 QueueManager.messageId := Some "m1";
                 QueueManager.timestamp := Some 1001;
                 QueueManager.position := Some 0 |}
  /\ map fst (Store.pending (store (snd out))) = ["m1"].
Proof. cbv zeta. repeat split; vm_compute; reflexivity. Qed.

(* ================================================================= *)
(** ** More on the direct channel                                      *)
(* ================================================================= *)

Section Reconnection.
Import Channel WhatsAppConnection.

(** Below the ceiling and with the [isReconnecting] flag clear,
    [scheduleReconnect] creates exactly one timer, tracks it, and its
    delay is [5000 * 2^attempts + jitter]: with at most two earlier
    attempts the 60-second cap of [calculateReconnectDelay] is never
    reached. *)
Theorem scheduleReconnect_creates_backoff_timer j s :
  0 <= reconnectAttempts s < MAX_RECONNECT_ATTEMPTS ->
  isReconnecting s = false ->
  let s' := scheduleReconnect j s in
  timers s'
  = (timers s ++ [{| handle := timersCreated s;
                     delay := BASE_RECONNECT_DELAY * 2 ^ reconnectAttempts s + j;
                     callback := reconnectTimer |}])%list
  /\ reconnectTimeout s' = Some (timersCreated s)
  /\ isReconnecting s' = true
  /\ reconnectAttempts s' = reconnectAttempts s
  /\ BASE_RECONNECT_DELAY + j
     <= BASE_RECONNECT_DELAY * 2 ^ reconnectAttempts s + j
     <= 20000 + j.
Proof.
  intros [L U] P s'. subst s'. unfold scheduleReconnect.
  destruct (Z.leb_spec MAX_RECONNECT_ATTEMPTS (reconnectAttempts s)); [lia|].
  rewrite P. unfold calculateReconnectDelay, setTimeout.
  cbn [timers timersCreated reconnectTimeout isReconnecting reconnectAttempts
       set_isReconnecting set_timers set_timersCreated set_reconnectTimeout].
  unfold MAX_RECONNECT_ATTEMPTS, BASE_RECONNECT_DELAY, MAX_RECONNECT_DELAY in *.
  assert (A : 1 <= 2 ^ reconnectAttempts s <= 4).
  { assert (C : reconnectAttempts s = 0 \/ reconnectAttempts s = 1
                \/ reconnectAttempts s = 2) by lia.
    destruct C as [E | [E | E]]; rewrite E; split; discriminate. }
  rewrite Z.min_l by lia.
  repeat split; try reflexivity; lia.
Qed.

Lemma scheduleReconnect_creates_backoff_timer_witness :
  let s' := scheduleReconnect 7 initial in
  timers s'
  = (timers initial ++ [{| handle := timersCreated initial;
                           delay := BASE_RECONNECT_DELAY * 2 ^ reconnectAttempts initial + 7;
                           callback := reconnectTimer |}])%list
  /\ reconnectTimeout s' = Some (timersCreated initial)
  /\ isReconnecting s' = true
  /\ reconnectAttempts s' = reconnectAttempts initial
  /\ BASE_RECONNECT_DELAY + 7
     <= BASE_RECONNECT_DELAY * 2 ^ reconnectAttempts initial + 7
     <= 20000 + 7.
Proof.
  apply (scheduleReconnect_creates_backoff_timer 7 initial).
  - cbv. split; congruence.
  - reflexivity.
Defined.

(** At the attempt ceiling a scheduling request creates no timer and
    leaves [isReconnecting] false. *)
Theorem scheduleReconnect_gives_up_at_ceiling j s :
  MAX_RECONNECT_ATTEMPTS <= reconnectAttempts s ->
  timers (scheduleReconnect j s) = timers s
  /\ timersCreated (scheduleReconnect j s) = timersCreated s
  /\ isReconnecting (scheduleReconnect j s) = false.
Proof.
  intros H. unfold scheduleReconnect.
  destruct (Z.leb_spec MAX_RECONNECT_ATTEMPTS (reconnectAttempts s)); [|lia].
  repeat split.
Qed.

Lemma scheduleReconnect_gives_up_at_ceiling_witness :
  timers (scheduleReconnect 0 (set_reconnectAttempts 3 initial))
  = timers (set_reconnectAttempts 3 initial)
  /\ timersCreated (scheduleReconnect 0 (set_reconnectAttempts 3 initial))
     = timersCreated (set_reconnectAttempts 3 initial)
  /\ isReconnecting (scheduleReconnect 0 (set_reconnectAttempts 3 initial)) = false.
Proof.
  apply (scheduleReconnect_gives_up_at_ceiling 0 (set_reconnectAttempts 3 initial)).
  cbv. congruence.
Defined.

(** A scheduling request made while a reconnect is pending changes
    nothing: no second timer. *)
Theorem scheduleReconnect_skips_while_pending j s :
  reconnectAttempts s < MAX_RECONNECT_ATTEMPTS ->
  isReconnecting s = true ->
  scheduleReconnect j s = s.
Proof.
  intros H P. unfold scheduleReconnect.
  destruct (Z.leb_spec MAX_RECONNECT_ATTEMPTS (reconnectAttempts s)); [lia|].
  rewrite P. reflexivity.
Qed.

Lemma scheduleReconnect_skips_while_pending_witness :
  scheduleReconnect 9 (scheduleReconnect 7 initial) = scheduleReconnect 7 initial.
Proof.
  apply (scheduleReconnect_skips_while_pending 9 (scheduleReconnect 7 initial)).
  - reflexivity.
  - reflexivity.
Defined.

Lemma clearTimeout_not_pending h s : ~ In h (map handle (timers (clearTimeout h s))).
Proof.
  unfold clearTimeout. cbn. intros I. apply in_map_iff in I as (tm & E & I).
  apply filter_In in I as [_ F]. rewrite E, Nat.eqb_refl in F. discriminate.
Qed.

(** [calculateReconnectDelay] stays between the base delay and the cap
    plus the jitter, whatever the attempt counter. *)
Theorem reconnect_delay_bounds j s :
  0 <= reconnectAttempts s -> 0 <= j < 1000 ->
  BASE_RECONNECT_DELAY <= calculateReconnectDelay j s < MAX_RECONNECT_DELAY + 1000.
Proof.
  intros A J. unfold calculateReconnectDelay, BASE_RECONNECT_DELAY, MAX_RECONNECT_DELAY.
  assert (P : 1 <= 2 ^ reconnectAttempts s)
    by (apply (Z.pow_le_mono_r 2 0); lia).
  lia.
Qed.

Lemma reconnect_delay_bounds_witness :
  BASE_RECONNECT_DELAY
  <= calculateReconnectDelay 999 (set_reconnectAttempts 10 initial)
  < MAX_RECONNECT_DELAY + 1000.
Proof.
  apply (reconnect_delay_bounds 999 (set_reconnectAttempts 10 initial)).
  - cbv. congruence.
  - lia.
Defined.

(** [disconnect] leaves the channel disconnected and unauthenticated
    with the reconnect state reset, takes the tracked reconnect timer
    out of the event loop, creates no timer, and is idempotent. *)
Theorem disconnect_resets_and_is_idempotent s :
  let s' := disconnect s in
  isConnected s' = false
  /\ isAuthenticated s' = false
  /\ reconnectAttempts s' = 0
  /\ isReconnecting s' = false
  /\ reconnectTimeout s' = None
  /\ (forall h, reconnectTimeout s = Some h -> ~ In h (map handle (timers s')))
  /\ incl (timers s') (timers s)
  /\ disconnect s' = s'.
Proof.
  cbv zeta. unfold disconnect, resetReconnectState.
  cbn [reconnectTimeout set_isReconnecting set_reconnectAttempts
       set_isAuthenticated set_isConnected].
  destruct (reconnectTimeout s) as [h|] eqn:T.
  - repeat (split; [reflexivity|]). split; [|split].
    + intros h' E. inversion E; subst h'.
      apply (clearTimeout_not_pending h
               (set_isReconnecting false
                  (set_reconnectAttempts 0
                     (set_isAuthenticated false (set_isConnected false s))))).
    + cbn. intros tm I. apply filter_In in I as [I _]. exact I.
    + reflexivity.
  - cbn [reconnectTimeout set_isReconnecting set_reconnectAttempts
         set_isAuthenticated set_isConnected]. rewrite T.
    repeat (split; [reflexivity|]). split; [|split].
    + intros h' E. discriminate.
    + cbn. apply incl_refl.
    + reflexivity.
Qed.

(** A close with reason "logged out" ends the session for good: the
    authentication, the user and the pairing code are cleared, the
    reconnect state is reset, and no timer is created. *)
Theorem logged_out_close_schedules_nothing j s :
  let s' := onClose (Some loggedOut) j s in
  isConnected s' = false
  /\ isAuthenticated s' = false
  /\ connectionState s' = disconnected
  /\ userInfo s' = None
  /\ currentQR s' = None
  /\ lastQRTime s' = None
  /\ reconnectAttempts s' = 0
  /\ isReconnecting s' = false
  /\ reconnectTimeout s' = None
  /\ timersCreated s' = timersCreated s
  /\ incl (timers s') (timers s).
Proof.
  cbv zeta. unfold onClose, resetReconnectState.
  cbn [reconnectTimeout set_isReconnecting set_reconnectAttempts
       set_isAuthenticated set_isConnected set_lastQRTime set_currentQR
       set_userInfo set_connectionState].
  destruct (reconnectTimeout s) as [h|] eqn:T.
  - repeat (split; [reflexivity|]).
    cbn. intros tm I. apply filter_In in I as [I _]. exact I.
  - cbn [reconnectTimeout set_isReconnecting set_reconnectAttempts
         set_isAuthenticated set_isConnected set_lastQRTime set_currentQR
         set_userInfo set_connectionState]. rewrite T.
    repeat (split; [reflexivity|]). cbn. apply incl_refl.
Qed.

End Reconnection.

Section Dispatch.
Import Channel WhatsAppConnection.
Variable env : Env.

Lemma digits_have_no_at s : includesChar "@"%char (keepChars isDigit s) = false.
Proof.
  induction s as [|c s IH]; [reflexivity|]. cbn [keepChars].
  destruct (isDigit c) eqn:D; [|exact IH]. cbn [includesChar]. rewrite IH.
  destruct (Ascii.eqb_spec c "@"%char) as [->|]; [discriminate|reflexivity].
Qed.

Lemma orString_nonempty a k : orString a None = Some k -> k <> "".
Proof.
  unfold orString. destruct a as [[|c a]|]; intros H; inversion H. discriminate.
Qed.

(** In every state the instance can reach in which it is connected and
    authenticated, [sendMessage] hands the socket exactly one message:
    the digits of the number followed by ["@s.whatsapp.net"], with the
    text unchanged. When the socket rejects it the same error is
    thrown; when it resolves the result is a direct success with a
    non-empty message id. *)
Theorem ready_channel_dispatches s number message w :
  reachable s -> ready s = true ->
  let out := sendMessage env s number message w in
  sockLog (snd out)
  = (sockLog w
       ++ [((keepChars isDigit number ++ "@s.whatsapp.net")%string, message)])%list
  /\ match sockSendMessage env (List.length (sockLog w)) with
     | sockRejected e => fst out = Throw e
     | sockResolved _ =>
         exists r, fst out = Return r
                   /\ SendMessageResult.success r = true
                   /\ SendMessageResult.method r = direct
                   /\ SendMessageResult.messageId r <> ""
     end.
Proof.
  intros R Rd out. subst out.
  pose proof (reachable_isConnected s R) as I. rewrite Rd in I.
  destruct (reachable_consistent s R I) as (_ & _ & Sk).
  unfold sendMessage. rewrite I. destruct (sock s) as [k|]; [|congruence].
  cbn [negb orb]. rewrite digits_have_no_at.
  unfold tryCatch, bind, sockSend.
  destruct (sockSendMessage env (List.length (sockLog w))) as [keyId|e].
  - destruct (orString keyId None) as [k'|] eqn:K.
    + cbn. split; [reflexivity|]. eexists. split; [reflexivity|].
      repeat split. cbn. eapply orString_nonempty; eassumption.
    + cbn. split; [reflexivity|]. eexists. split; [reflexivity|].
      repeat split. cbn. discriminate.
  - cbn. split; reflexivity.
Qed.

End Dispatch.

Lemma ready_channel_dispatches_witness :
  let w := Scenario.withChannel Scenario.online Scenario.emptyStore in
  let out := WhatsAppConnection.sendMessage Scenario.allUp Scenario.online
               "+1 (555) 555-0123" "hi" w in
  sockLog (snd out)
  = (sockLog w
       ++ [((keepChars isDigit "+1 (555) 555-0123" ++ "@s.whatsapp.net")%string,
            "hi")])%list
  /\ match sockSendMessage Scenario.allUp (List.length (sockLog w)) with
     | sockRejected e => fst out = Throw e
     | sockResolved _ =>
         exists r, fst out = Return r
                   /\ SendMessageResult.success r = true
                   /\ SendMessageResult.method r = direct
                   /\ SendMessageResult.messageId r <> ""
     end.
Proof.
  apply (ready_channel_dispatches Scenario.allUp Scenario.online
           "+1 (555) 555-0123" "hi"
           (Scenario.withChannel Scenario.online Scenario.emptyStore)).
  - unfold Scenario.online, WhatsAppConnection.run. cbn [fold_left].
    repeat (apply WhatsAppConnection.reachable_step; [|reflexivity]).
    apply WhatsAppConnection.reachable_initial.
  - reflexivity.
Defined.

(* ================================================================= *)
(** ** More on the health monitor                                      *)
(* ================================================================= *)

Section HealthCaching.
Import HealthChecker.
Variable env : Env.

(** While the cached check is younger than [cacheTimeMs],
    [isServerHealthy] answers from the cache: no probe is made and
    nothing but the clock is read, whatever the server would say now. *)
Theorem cached_health_answer_is_reused w checked :
  HealthCache.lastCheck (cache w) = Some checked ->
  checked <> 0 ->
  dateNow env (nowCalls w) - checked < HealthCache.cacheTimeMs (cache w) ->
  isServerHealthy env w
  = (Return (HealthCache.lastResult (cache w)), set_nowCalls (S (nowCalls w)) w).
Proof.
  intros L N A. unfold isServerHealthy, isCacheValid, bind, get, ret, now.
  rewrite L. apply Z.ltb_lt in A.
  destruct checked as [|p|p]; [congruence| |];
    cbn [nowCalls cache set_nowCalls]; rewrite A; reflexivity.
Qed.

(** When the cache cannot be used, one probe is made and its outcome
    decides the answer: [true] exactly for a response with status 200.
    The answer is never an error, and it is what the cache holds
    afterwards. *)
Theorem fresh_probe_decides_health w w0 :
  isCacheValid env w = (Return false, w0) ->
  exists b w',
    isServerHealthy env w = (Return (Some b), w')
    /\ (b = true <-> healthProbe env (probeCalls w0) = probeResponse 200)
    /\ probeCalls w' = S (probeCalls w0)
    /\ HealthCache.lastResult (cache w') = Some b
    /\ HealthCache.cacheTimeMs (cache w') = HealthCache.cacheTimeMs (cache w0).
Proof.
  intros V. unfold isServerHealthy. rewrite (bind_returned _ _ _ _ _ V).
  unfold tryCatch, checkServerHealth, updateCache, updateResponseTime,
    bind, now, modify, ret, throw.
  cbn [probeCalls set_nowCalls].
  destruct (healthProbe env (probeCalls w0)) as [code| |msg|msg] eqn:O.
  - eexists _, _. split; [reflexivity|]. cbn. repeat split; try reflexivity.
    + intros E. apply Z.eqb_eq in E. congruence.
    + intros E. inversion E. reflexivity.
  - eexists _, _. split; [reflexivity|]. cbn. repeat split; discriminate.
  - eexists _, _. split; [reflexivity|]. cbn. repeat split; discriminate.
  - eexists _, _. split; [reflexivity|]. cbn. repeat split; discriminate.
Qed.

End HealthCaching.

Lemma cached_health_answer_is_reused_witness :
  HealthChecker.isServerHealthy Scenario.allDown
    (Scenario.afterProbe Scenario.allUp (Scenario.freshWorld Scenario.emptyStore))
  = (Return (HealthCache.lastResult
               (cache (Scenario.afterProbe Scenario.allUp
                         (Scenario.freshWorld Scenario.emptyStore)))),
     set_nowCalls
       (S (nowCalls (Scenario.afterProbe Scenario.allUp
                       (Scenario.freshWorld Scenario.emptyStore))))
       (Scenario.afterProbe Scenario.allUp (Scenario.freshWorld Scenario.emptyStore))).
Proof.
  apply (cached_health_answer_is_reused Scenario.allDown
           (Scenario.afterProbe Scenario.allUp
              (Scenario.freshWorld Scenario.emptyStore)) 1003).
  - vm_compute. reflexivity.
  - discriminate.
  - vm_compute. reflexivity.
Defined.

Lemma fresh_probe_decides_health_witness :
  exists b w',
    HealthChecker.isServerHealthy Scenario.allUp
      (Scenario.freshWorld Scenario.emptyStore)
    = (Return (Some b), w')
    /\ (b = true
        <-> healthProbe Scenario.allUp
              (probeCalls (Scenario.freshWorld Scenario.emptyStore))
            = probeResponse 200)
    /\ probeCalls w' = S (probeCalls (Scenario.freshWorld Scenario.emptyStore))
    /\ HealthCache.lastResult (cache w') = Some b
    /\ HealthCache.cacheTimeMs (cache w')
       = HealthCache.cacheTimeMs (cache (Scenario.freshWorld Scenario.emptyStore)).
Proof.
  apply (fresh_probe_decides_health Scenario.allUp
           (Scenario.freshWorld Scenario.emptyStore)
           (Scenario.freshWorld Scenario.emptyStore)).
  reflexivity.
Defined.

(* ================================================================= *)
(** ** More on the queue                                               *)
(* ================================================================= *)

Section QueueReads.
Import QueueManager.
Variable env : Env.

Lemma indexOfFrom_range i l k :
  indexOfFrom i l k = -1 \/ i <= indexOfFrom i l k < i + Z.of_nat (List.length l).
Proof.
  revert i. induction l as [|y l IH]; intros i; cbn [indexOfFrom List.length].
  - left. reflexivity.
  - destruct (String.eqb y k).
    + right. lia.
    + destruct (IH (i + 1)) as [E|E]; [left; exact E|right; lia].
Qed.

Lemma positionIn_range p k :
  positionIn p k = -1 \/ 0 <= positionIn p k < Z.of_nat (List.length p).
Proof.
  unfold positionIn, sortedIds, indexOf. destruct p as [|x p]; [left; reflexivity|].
  destruct (indexOfFrom_range 0 (map fst (JS.sort byQueuedAt (x :: p))) k) as [E|E].
  - left. exact E.
  - right. rewrite length_map in E.
    rewrite <- (Permutation_length (sort_perm (x :: p))) in E. lia.
Qed.

(** [getQueuePosition] never throws, and what it returns is [-1] or an
    index into the pending partition: at least 0 and below the number
    of pending messages. A failed read and an empty partition give
    [-1]. *)
Theorem queue_position_in_range messageId w :
  exists z,
    getQueuePosition env messageId w
    = (Return z, set_firebaseOps (S (firebaseOps w)) w)
    /\ (z = -1 \/ 0 <= z < Z.of_nat (List.length (Store.pending (store w))))
    /\ (firebaseFault env (firebaseOps w) <> None -> z = -1)
    /\ (Store.pending (store w) = [] -> z = -1).
Proof.
  eexists. split; [apply getQueuePosition_run|].
  destruct (firebaseFault env (firebaseOps w)) as [msg|].
  - split; [left; reflexivity|]. split; reflexivity.
  - split; [apply positionIn_range|]. split; [congruence|].
    intros E. rewrite E. reflexivity.
Qed.

(** [getQueueStatus] never throws. When one of its three reads fails it
    returns the all-zero status; otherwise the counts are the sizes of
    the two partitions, their sum, and [isProcessing] says whether
    something is processing. *)
Theorem queue_status_counts_or_zero w :
  exists status w',
    getQueueStatus env w = (Return status, w')
    /\ store w' = store w
    /\ firebaseOps w' = (3 + firebaseOps w)%nat
    /\ ((firebaseFault env (firebaseOps w) <> None
         \/ firebaseFault env (S (firebaseOps w)) <> None
         \/ firebaseFault env (S (S (firebaseOps w))) <> None) ->
        status = emptyStatus)
    /\ ((firebaseFault env (firebaseOps w) = None
         /\ firebaseFault env (S (firebaseOps w)) = None
         /\ firebaseFault env (S (S (firebaseOps w))) = None) ->
        QueueStatus.pendingMessages status
        = Z.of_nat (List.length (Store.pending (store w)))
        /\ QueueStatus.processingMessages status
           = Z.of_nat (List.length (Store.processing (store w)))
        /\ QueueStatus.totalMessages status
           = QueueStatus.pendingMessages status
             + QueueStatus.processingMessages status
        /\ QueueStatus.isProcessing status
           = negb (Nat.eqb (List.length (Store.processing (store w))) 0)).
Proof.
  unfold getQueueStatus, tryCatch. unfold bind at 1.
  unfold promiseAll3, readPending, readProcessing, readHeartbeat.
  rewrite !read_run. cbn [firebaseOps set_firebaseOps store].
  destruct (firebaseFault env (firebaseOps w)) as [m1|];
    destruct (firebaseFault env (S (firebaseOps w))) as [m2|];
    destruct (firebaseFault env (S (S (firebaseOps w)))) as [m3|];
    try (eexists _, _; split; [reflexivity|]; split; [reflexivity|];
         split; [reflexivity|]; split; [reflexivity|];
         intros (A & B & C); discriminate).
  assert (P : forall n : nat, (0 <? Z.of_nat n) = negb (Nat.eqb n 0))
    by (intros [|n]; reflexivity).
  destruct (Store.heartbeat (store w)) as [hb|]; [destruct (Heartbeat.alive hb)|];
    unfold bind, now, ret;
    (eexists _, _; split; [reflexivity|]; split; [reflexivity|];
     split; [reflexivity|]; split;
     [intros [A|[A|A]]; congruence
     |intros _; cbn; repeat split; apply P]).
Qed.

End QueueReads.

Section QueueWrites.
Import QueueManager.
Variable env : Env.

(** [addMessage] succeeds exactly when the write to [pending] resolves;
    the two position reads around it cannot make it fail. When the
    write is rejected the error is
    ["Failed to queue message: <reason>"] and the database is as it
    was. *)
Theorem enqueue_fails_only_on_write md w :
  match firebaseFault env (S (firebaseOps w)) with
  | None => exists r w', addMessage env md w = (Return r, w')
  | Some msg =>
      exists w',
        addMessage env md w
        = (Throw (error ("Failed to queue message: " ++ msg)%string), w')
        /\ store w' = store w
  end.
Proof.
  unfold addMessage, generateMessageId, tryCatch.
  rewrite bind_uuid, bind_now, bind_getQueuePosition, bind_now, bind_firebase.
  cbn [firebaseOps set_firebaseOps set_nowCalls set_uuidCalls nowCalls uuidCalls].
  destruct (firebaseFault env (S (firebaseOps w))) as [msg|].
  - eexists. split; reflexivity.
  - rewrite bind_modify, bind_getQueuePosition. unfold ret.
    eexists _, _. reflexivity.
Qed.

(** Enqueue, then look up: after a successful [addMessage] the record
    under the returned id carries the message as given, status
    [pending], no retries and no attempts; every other pending record,
    the processing partition and the heartbeat are untouched. *)
Theorem enqueued_record_is_stored md w r w' :
  addMessage env md w = (Return r, w') ->
  (exists record,
      child (SendMessageResult.messageId r) (Store.pending (store w'))
      = Some (SendMessageResult.messageId r, record)
      /\ QueueMessage.id record = SendMessageResult.messageId r
      /\ QueueMessage.number record = MessageData.number md
      /\ QueueMessage.message record = MessageData.message md
      /\ QueueMessage.priority record = MessageData.priority md
      /\ QueueMessage.status record = pending
      /\ QueueMessage.retryCount record = 0
      /\ QueueMessage.attempts record = 0
      /\ QueueMessage.timestamp record = SendMessageResult.timestamp r)
  /\ (forall k, k <> SendMessageResult.messageId r ->
        child k (Store.pending (store w')) = child k (Store.pending (store w)))
  /\ Store.processing (store w') = Store.processing (store w)
  /\ Store.heartbeat (store w') = Store.heartbeat (store w).
Proof.
  unfold addMessage, generateMessageId, tryCatch.
  rewrite bind_uuid, bind_now, bind_getQueuePosition, bind_now, bind_firebase.
  cbn [firebaseOps set_firebaseOps set_nowCalls set_uuidCalls nowCalls uuidCalls].
  destruct (firebaseFault env (S (firebaseOps w))) as [msg|]; [discriminate|].
  rewrite bind_modify, bind_getQueuePosition. unfold ret.
  intros H. inversion H; subst r w'; clear H.
  cbn [SendMessageResult.messageId SendMessageResult.timestamp store
       set_firebaseOps setPending set_store Store.pending Store.processing
       Store.heartbeat].
  split.
  - eexists. split; [apply child_setChild|]. repeat split.
  - split; [|split; reflexivity].
    intros k N. apply child_setChild_other. exact N.
Qed.

(** Without a predicate, [conditionalAdd] never returns a
    failed-condition result: in every state of the database it takes
    the enqueue branch, and what it returns has [success = true] and
    [method = "queued"]. *)
Theorem conditional_add_default_always_enqueues md w :
  conditionalAdd env md customAbsent w
  = match getQueueStatus env w with
    | (Return _, w1) =>
        match addMessage env md w1 with
        | (Return r, w2) =>
            (Return {| success := true;
                       method := "queued";
                       reason' := None;
                       queueStatus := None;
                       messageId := Some (SendMessageResult.messageId r);
                       timestamp := Some (SendMessageResult.timestamp r);
                       position := SendMessageResult.position r |}, w2)
        | (Throw e, w2) =>
            (Throw (error ("Conditional add failed: " ++ JS.message e)%string), w2)
        end
    | (Throw e, w1) =>
        (Throw (error ("Conditional add failed: " ++ JS.message e)%string), w1)
    end.
Proof.
  destruct (getQueueStatus_total env w) as (status & w1 & E & _ & _ & _ & A & _).
  rewrite E. unfold conditionalAdd, tryCatch.
  rewrite (bind_returned _ _ _ _ _ E).
  unfold evaluateConditions. rewrite A. cbn [truthy negb result].
  unfold bind, ret, throw.
  destruct (addMessage env md w1) as [[r|e] w2]; reflexivity.
Qed.

(** An exception thrown by the caller's predicate does not escape
    [conditionalAdd]: the call returns a failed-condition result whose
    reason quotes the message, and the database is as it was. *)
Theorem predicate_exception_is_reported md f w e :
  (forall status, f status = Throw e) ->
  exists status w',
    conditionalAdd env md (customFunction f) w
    = (Return {| success := false;
                 method := "condition_failed";
                 reason' := Some ("custom_condition_error: " ++ JS.message e)%string;
                 queueStatus := Some status;
                 messageId := None;
                 timestamp := None;
                 position := None |}, w')
    /\ store w' = store w.
Proof.
  intros F. destruct (getQueueStatus_total env w) as (status & w1 & E & _ & S & _).
  exists status, w1. split; [|exact S].
  unfold conditionalAdd. erewrite tryCatch_returned; [reflexivity|].
  rewrite (bind_returned _ _ _ _ _ E). unfold evaluateConditions. rewrite F.
  reflexivity.
Qed.

(** [getProcessingEstimate] never throws. It finds the message
    exactly when its read of the pending partition resolves and the id
    is in the partition; otherwise it answers "not found". For a
    message it finds, the number of messages ahead is the queue
    position, the position it reports is 1-based, the wait is 3000 ms
    per message ahead, rounded up to whole minutes, and the server
    status is always ["offline"], whatever the heartbeat says. *)
Theorem processing_estimate_shape messageId w :
  exists estimate w',
    getProcessingEstimate env messageId w = (Return estimate, w')
    /\ (found estimate = true
        <-> (firebaseFault env (3 + firebaseOps w) = None
             /\ In messageId (map fst (Store.pending (store w)))))
    /\ (found estimate = false ->
        estimateError estimate = Some "Message not found in pending queue")
    /\ (found estimate = true ->
        exists ahead minutes,
          ahead = positionIn (Store.pending (store w)) messageId
          /\ 0 <= ahead < Z.of_nat (List.length (Store.pending (store w)))
          /\ messagesAhead estimate = Some ahead
          /\ estimatePosition estimate = Some (ahead + 1)
          /\ estimatedWaitTimeMs estimate = Some (3000 * ahead)
          /\ estimatedWaitTimeMin estimate = Some minutes
          /\ 60000 * (minutes - 1) < 3000 * ahead <= 60000 * minutes
          /\ serverStatus estimate = Some "offline").
Proof.
  destruct (getQueueStatus_total env w) as (status & w1 & E & _ & St & _ & A & Ops).
  unfold getProcessingEstimate.
  rewrite <- Ops, <- St.
  destruct (firebaseFault env (firebaseOps w1)) as [msg|] eqn:F.
  - eexists _, _. split.
    + erewrite tryCatch_returned; [reflexivity|].
      rewrite (bind_returned _ _ _ _ _ E), bind_getQueuePosition, F. reflexivity.
    + split; [split; [discriminate|intros [X _]; discriminate]|].
      split; [reflexivity|discriminate].
  - destruct (in_dec string_dec messageId (map fst (Store.pending (store w1))))
      as [I|NI].
    + pose proof (positionIn_present _ _ I) as P0.
      destruct (positionIn_range (Store.pending (store w1)) messageId) as [P|P];
        [lia|].
      eexists _, _. split.
      * erewrite tryCatch_returned; [reflexivity|].
        rewrite (bind_returned _ _ _ _ _ E), bind_getQueuePosition, F.
        destruct (Z.eqb_spec (positionIn (Store.pending (store w1)) messageId) (-1))
          as [C|C]; [lia|]. reflexivity.
      * split; [split; [intros _; split; [reflexivity|exact I]|reflexivity]|].
        split; [discriminate|]. intros _.
        set (ahead := positionIn (Store.pending (store w1)) messageId) in *.
        exists ahead, (- (- (ahead * 3000) / 60000)).
        cbn [messagesAhead estimatePosition estimatedWaitTimeMs
             estimatedWaitTimeMin serverStatus].
        rewrite A. cbn [truthy].
        split; [reflexivity|]. split; [lia|]. split; [reflexivity|].
        split; [reflexivity|].
        split; [f_equal; lia|]. split; [reflexivity|]. split; [|reflexivity].
        pose proof (Z.div_mod (- (ahead * 3000)) 60000 ltac:(lia)) as D.
        pose proof (Z.mod_pos_bound (- (ahead * 3000)) 60000 ltac:(lia)) as B.
        lia.
    + pose proof (positionIn_absent _ _ NI) as P.
      eexists _, _. split.
      * erewrite tryCatch_returned; [reflexivity|].
        rewrite (bind_returned _ _ _ _ _ E), bind_getQueuePosition, F, P.
        reflexivity.
      * split; [split; [discriminate|intros [_ X]; contradiction]|].
        split; [reflexivity|discriminate].
Qed.

End QueueWrites.

Lemma enqueued_record_is_stored_witness :
  (exists record,
      child (SendMessageResult.messageId Scenario.enqueued)
        (Store.pending (store Scenario.afterEnqueue))
      = Some (SendMessageResult.messageId Scenario.enqueued, record)
      /\ QueueMessage.id record = SendMessageResult.messageId Scenario.enqueued
      /\ QueueMessage.number record = MessageData.number Scenario.hello
      /\ QueueMessage.message record = MessageData.message Scenario.hello
      /\ QueueMessage.priority record = MessageData.priority Scenario.hello
      /\ QueueMessage.status record = pending
      /\ QueueMessage.retryCount record = 0
      /\ QueueMessage.attempts record = 0
      /\ QueueMessage.timestamp record
         = SendMessageResult.timestamp Scenario.enqueued)
  /\ (forall k, k <> SendMessageResult.messageId Scenario.enqueued ->
        child k (Store.pending (store Scenario.afterEnqueue))
        = child k (Store.pending (store (Scenario.freshWorld Scenario.backlog))))
  /\ Store.processing (store Scenario.afterEnqueue)
     = Store.processing (store (Scenario.freshWorld Scenario.backlog))
  /\ Store.heartbeat (store Scenario.afterEnqueue)
     = Store.heartbeat (store (Scenario.freshWorld Scenario.backlog)).
Proof.
  apply (enqueued_record_is_stored Scenario.allUp Scenario.hello
           (Scenario.freshWorld Scenario.backlog)).
  vm_compute. reflexivity.
Defined.

Lemma predicate_exception_is_reported_witness :
  exists status w',
    QueueManager.conditionalAdd Scenario.allUp Scenario.hello
      (QueueManager.customFunction (fun _ => Throw (error "boom")))
      (Scenario.freshWorld Scenario.backlog)
    = (Return {| QueueManager.success := false;
                 QueueManager.method := "condition_failed";
                 QueueManager.reason' :=
                   Some ("custom_condition_error: " ++ JS.message (error "boom"))%string;
                 QueueManager.queueStatus := Some status;
                 QueueManager.messageId := None;
                 QueueManager.timestamp := None;
                 QueueManager.position := None |}, w')
    /\ store w' = store (Scenario.freshWorld Scenario.backlog).
Proof.
  apply (predicate_exception_is_reported Scenario.allUp Scenario.hello
           (fun _ => Throw (error "boom"))
           (Scenario.freshWorld Scenario.backlog) (error "boom")).
  intros status. reflexivity.
Defined.

(* ================================================================= *)
(** ** The API client                                                  *)
(* ================================================================= *)

Section ApiCalls.
Variable env : Env.

Lemma api_send_classified number message options w :
  exists c w',
    ApiClient.sendMessage env number message options w = (c, w')
    /\ apiLog w' = (apiLog w ++ [(number, message)])%list
    /\ store w' = store w
    /\ returned c = accepts (apiRequest env (List.length (apiLog w))).
Proof.
  unfold ApiClient.sendMessage, ApiClient.makeApiRequest, tryCatch, bind, throw, ret, now.
  destruct (apiRequest env (List.length (apiLog w))) as [response|msg]; cbn [accepts].
  - destruct (apiSuccess response); cbn [negb].
    + destruct (orString (apiMessageId response) (orString (apiKeyId response) None));
        destruct (orUndefined (apiMessageTimestamp response));
        eexists _, _; (split; [reflexivity|]); repeat split.
    + eexists _, _; (split; [reflexivity|]); repeat split.
  - eexists _, _; (split; [reflexivity|]); repeat split.
Qed.

Lemma orString_chain_nonempty a b k : orString a (orString b None) = Some k -> k <> "".
Proof.
  unfold orString at 1. destruct a as [[|c a]|]; intros H.
  - eapply orString_nonempty; eassumption.
  - inversion H. discriminate.
  - eapply orString_nonempty; eassumption.
Qed.

(** [ApiClient.sendMessage] makes one request. It returns exactly when
    the server accepts it, and then with [success = true] and a
    non-empty message id (the server's, else the key's, else a
    generated one); otherwise it throws
    ["API request failed: <reason>"], the reason being the server's
    error, the transport error, or a default. *)
Theorem api_send_outcome number message options w :
  let o := apiRequest env (List.length (apiLog w)) in
  let out := ApiClient.sendMessage env number message options w in
  apiLog (snd out) = (apiLog w ++ [(number, message)])%list
  /\ if accepts o
     then exists r, fst out = Return r
                    /\ ApiClient.success r = true
                    /\ ApiClient.messageId r <> ""
     else fst out = Throw (error ("API request failed: " ++ refusal o)%string).
Proof.
  cbv zeta.
  unfold ApiClient.sendMessage, ApiClient.makeApiRequest, tryCatch, bind, throw, ret, now.
  destruct (apiRequest env (List.length (apiLog w))) as [response|msg];
    cbn [accepts refusal].
  - destruct (apiSuccess response); cbn [negb].
    + destruct (orString (apiMessageId response) (orString (apiKeyId response) None))
        as [k|] eqn:K;
        destruct (orUndefined (apiMessageTimestamp response));
        (split; [reflexivity|]); eexists; (split; [reflexivity|]);
        (split; [reflexivity|]); cbn [ApiClient.messageId];
        try (eapply orString_chain_nonempty; eassumption); discriminate.
    + split; reflexivity.
  - split; reflexivity.
Qed.

Lemma seq_shifted {A} (f : nat -> A) n :
  map f (seq 1 n) = map (fun k => f (S k)) (seq 0 n).
Proof. rewrite <- seq_shift, map_map. reflexivity. Qed.

Lemma sendBatchFrom_spec messages : forall i pause w,
  exists results w',
    ApiClient.sendBatchFrom env i messages pause w = (Return results, w')
    /\ map ApiClient.index results
       = map (fun k => i + Z.of_nat k) (seq 0 (List.length messages))
    /\ map ApiClient.sent results
       = map (fun k => accepts (apiRequest env (List.length (apiLog w) + k)))
           (seq 0 (List.length messages))
    /\ apiLog w'
       = (apiLog w
            ++ map (fun m => (ApiClient.batchNumber m, ApiClient.batchText m)) messages)%list
    /\ store w' = store w.
Proof.
  induction messages as [|msg rest IH]; intros i pause w.
  - exists [], w. cbn. rewrite app_nil_r. repeat split.
  - destruct (api_send_classified (ApiClient.batchNumber msg) (ApiClient.batchText msg)
                (ApiClient.batchOptions msg) w) as (c & w1 & E & L & St & C).
    destruct (IH (i + 1) pause w1) as (results & w2 & E2 & I2 & T2 & L2 & St2).
    cbn [ApiClient.sendBatchFrom].
    assert (D : forall (k : unit -> M (list ApiClient.BatchResult)),
               bind (match rest with
                     | [] => ret tt
                     | _ :: _ => ApiClient.delay pause
                     end) k w1 = k tt w1)
      by (intros k; destruct rest; reflexivity).
    assert (T : map (fun k => accepts (apiRequest env (List.length (apiLog w1) + k)))
                  (seq 0 (List.length rest))
                = map (fun k => accepts (apiRequest env (List.length (apiLog w) + S k)))
                    (seq 0 (List.length rest))).
    { apply map_ext. intros k. rewrite L, length_app. cbn [List.length].
      do 2 f_equal. lia. }
    assert (I : map (fun k => i + 1 + Z.of_nat k) (seq 0 (List.length rest))
                = map (fun k => i + Z.of_nat (S k)) (seq 0 (List.length rest))).
    { apply map_ext. intros k. lia. }
    destruct c as [r|e].
    + eexists _, w2. split.
      * erewrite bind_returned;
          [|erewrite tryCatch_returned;
              [reflexivity|rewrite (bind_returned _ _ _ _ _ E); reflexivity]].
        rewrite D. rewrite (bind_returned _ _ _ _ _ E2). reflexivity.
      * cbn [map List.length seq ApiClient.index ApiClient.sent].
        rewrite !seq_shifted, I2, T2, I, T, L2, L, St2, St, <- app_assoc.
        cbn [returned] in C. rewrite Nat.add_0_r, Z.add_0_r, <- C.
        repeat split.
    + eexists _, w2. split.
      * erewrite bind_returned;
          [|erewrite tryCatch_thrown;
              [reflexivity|rewrite (bind_thrown _ _ _ _ _ E); reflexivity]].
        rewrite D. rewrite (bind_returned _ _ _ _ _ E2). reflexivity.
      * cbn [map List.length seq ApiClient.index ApiClient.sent].
        rewrite !seq_shifted, I2, T2, I, T, L2, L, St2, St, <- app_assoc.
        cbn [returned] in C. rewrite Nat.add_0_r, Z.add_0_r, <- C.
        repeat split.
Qed.

(** [sendBatch] never throws, whatever the requests do. It makes one
    request per message, in order; it returns one result per message,
    numbered from 0, and a result says [success] exactly when the
    server accepted that message's request. *)
Theorem batch_reports_every_message messages batchDelay w :
  exists results w',
    ApiClient.sendBatch env messages batchDelay w = (Return results, w')
    /\ List.length results = List.length messages
    /\ map ApiClient.index results
       = map Z.of_nat (seq 0 (List.length messages))
    /\ map ApiClient.sent results
       = map (fun k => accepts (apiRequest env (List.length (apiLog w) + k)))
           (seq 0 (List.length messages))
    /\ apiLog w'
       = (apiLog w
            ++ map (fun m => (ApiClient.batchNumber m, ApiClient.batchText m)) messages)%list.
Proof.
  unfold ApiClient.sendBatch.
  destruct (sendBatchFrom_spec messages 0 (orNumber batchDelay 1000) w)
    as (results & w' & E & I & T & L & _).
  exists results, w'. split; [exact E|]. split; [|split; [|split]].
  - rewrite <- (length_map ApiClient.index results), I, length_map, length_seq.
    reflexivity.
  - rewrite I. apply map_ext. intros k. lia.
  - exact T.
  - exact L.
Qed.

End ApiCalls.

(* ================================================================= *)
(** ** More on the router                                              *)
(* ================================================================= *)

Section Modes.
Import Whaple.
Variable env : Env.

Lemma missing_credential given variable :
  missing (spreadOver (orString (read given) (orString variable (Some ""))) given)
  = missing (credential given variable).
Proof.
  destruct given as [| |[|c s]]; destruct variable as [[|c' s']|]; reflexivity.
Qed.

Lemma serviceAccount_spread host config :
  spreadOver
    (match read (firebaseConfig config) with
     | Some c => Some c
     | None => parseFirebaseConfig host
     end)
    (firebaseConfig config)
  = serviceAccountOf host config.
Proof. unfold serviceAccountOf. destruct (firebaseConfig config); reflexivity. Qed.

(** The constructor returns exactly when the instance has what its
    mode needs (the direct connection is asked for, or the server URL
    and the API key are there, passed or from the environment), a
    service account is there, and Firebase initialises with it. A key
    passed with the value [undefined] hides the environment variable.
    Every error it throws is a [ConfigurationError] stamped with the
    time, and nothing else has happened then. When it returns, the
    health cache is empty, the direct connection exists exactly in
    direct mode, and the database is untouched. *)
Theorem create_accepts_complete_configurations host config w :
  let direct := truthy (read (useDirectWhatsApp config)) in
  ((exists this w', create env host config w = (Return this, w'))
   <-> ((direct = true
         \/ (missing (credential (whatsappServerUrl config)
                        (WHATSAPP_SERVER_URL host)) = false
             /\ missing (credential (apiKey config)
                           (WHATSAPP_API_KEY host)) = false))
        /\ serviceAccountOf host config <> None
        /\ initializeFirebase host (serviceAccountOf host config) = None))
  /\ (forall e w', create env host config w = (Throw e, w') ->
        name e = ConfigurationError
        /\ JS.timestamp e = Some (dateNow env (nowCalls w))
        /\ w' = set_nowCalls (S (nowCalls w)) w)
  /\ (forall this w', create env host config w = (Return this, w') ->
        directWhatsApp this = direct
        /\ whatsappConnection w' = (if direct then Some Channel.initial else None)
        /\ cache w' = HealthChecker.initialCache
        /\ store w' = store w).
Proof.
  cbv zeta. unfold create. cbv zeta. unfold validateConfig, initializeServices.
  rewrite !missing_credential, !serviceAccount_spread.
  unfold newWhapleError, bind, now, throw, ret, modify.
  destruct (truthy (read (useDirectWhatsApp config)));
    destruct (missing (credential (whatsappServerUrl config) (WHATSAPP_SERVER_URL host)));
    destruct (missing (credential (apiKey config) (WHATSAPP_API_KEY host)));
    cbn [negb andb];
    destruct (serviceAccountOf host config) as [c|];
    try destruct (initializeFirebase host (Some c)) as [msg|];
    (split; [split|split]);
    try (intros (this & w' & H); discriminate);
    try (intros (_ & H & _); congruence);
    try (intros ([H|[H1 H2]] & _); discriminate);
    try (intros (_ & _ & H); discriminate);
    try (intros e w' H; inversion H; subst; repeat split);
    try (intros e w' H; discriminate);
    try (intros _; eexists _, _; reflexivity);
    try (intros _; repeat split; try discriminate; auto).
Qed.

(** An empty number is rejected before anything else happens.
    [sendMessage] and [queueMessage] throw the [ValidationError] itself
    (not wrapped in "Failed to send message"), stamped with the time:
    one reading of the clock is all that has happened. [sendDirect]
    does the same on an instance that has an API client; in direct
    mode it throws the [TypeError] of the missing client and reads
    nothing. *)
Theorem empty_number_is_rejected_first this message options w :
  let rejected :=
    mkExn ValidationError "Phone number is required"
      (Some (dateNow env (nowCalls w))) in
  let w' := set_nowCalls (S (nowCalls w)) w in
  sendMessage env this "" message options w = (Throw rejected, w')
  /\ queueMessage env "" message options w = (Throw rejected, w')
  /\ sendDirect env this "" message options w
     = if directWhatsApp this then (Throw undefinedReceiver, w)
       else (Throw rejected, w').
Proof.
  cbv zeta. split; [reflexivity|]. split; [reflexivity|].
  unfold sendDirect, withApiClient. destruct (directWhatsApp this); reflexivity.
Qed.

Lemma addMessage_frame md w :
  let w' := snd (QueueManager.addMessage env md w) in
  probeCalls w' = probeCalls w
  /\ apiLog w' = apiLog w
  /\ sockLog w' = sockLog w
  /\ cache w' = cache w
  /\ whatsappConnection w' = whatsappConnection w.
Proof.
  cbv zeta. unfold QueueManager.addMessage, QueueManager.generateMessageId, tryCatch.
  rewrite bind_uuid, bind_now, bind_getQueuePosition, bind_now, bind_firebase.
  cbn [firebaseOps set_firebaseOps set_nowCalls set_uuidCalls nowCalls uuidCalls].
  destruct (firebaseFault env (S (firebaseOps w))) as [msg|].
  - repeat split.
  - rewrite bind_modify, bind_getQueuePosition. unfold ret. repeat split.
Qed.

Lemma buildMessageData_cases number message options w :
  (number = ""
   /\ exists e, buildMessageData env number message options w
                = (Throw e, set_nowCalls (S (nowCalls w)) w))
  \/ (exists md,
        buildMessageData env number message options w
        = (Return md, set_nowCalls (S (nowCalls w)) w)
        /\ MessageData.number md <> "").
Proof.
  destruct number as [|c n].
  - left. split; [reflexivity|]. eexists. reflexivity.
  - right.
    destruct (normalize_shape env (String c n) w) as (s & E & P); [discriminate|].
    unfold buildMessageData. rewrite (bind_returned _ _ _ _ _ E).
    unfold bind, now, ret. eexists. split; [reflexivity|]. cbn.
    destruct s; [discriminate|discriminate].
Qed.

Lemma sendMessage_forced_queue this number message options w md w0 :
  directWhatsApp this = false -> smartRouting this = false ->
  buildMessageData env number message options w = (Return md, w0) ->
  sendMessage env this number message options w
  = wrapFailure (queueMessage env (MessageData.number md)
                   (MessageData.message md) options w0).
Proof.
  intros D Sm B. unfold sendMessage. rewrite (bind_returned _ _ _ _ _ B).
  unfold tryCatch, bind, get, wrapFailure, throw, failed. rewrite D, Sm.
  destruct (queueMessage env (MessageData.number md) (MessageData.message md)
              options w0) as [[r|e] w']; reflexivity.
Qed.

(** The forced-queue path reads no health and sends nothing: neither
    [queueMessage] nor [sendMessage] with smart routing switched off
    makes a health probe, an API request or a socket send, and what
    they return is an enqueue result. *)
Theorem forced_queue_contacts_no_server this number message options w :
  directWhatsApp this = false -> smartRouting this = false ->
  let viaQueue := queueMessage env number message options w in
  let viaSend := sendMessage env this number message options w in
  (probeCalls (snd viaQueue) = probeCalls w
   /\ apiLog (snd viaQueue) = apiLog w
   /\ sockLog (snd viaQueue) = sockLog w)
  /\ (probeCalls (snd viaSend) = probeCalls w
      /\ apiLog (snd viaSend) = apiLog w
      /\ sockLog (snd viaSend) = sockLog w)
  /\ (forall r w', viaQueue = (Return r, w') \/ viaSend = (Return r, w') ->
        SendMessageResult.success r = true
        /\ SendMessageResult.method r = queued).
Proof.
  intros D Sm viaQueue viaSend.
  assert (Q : forall n m w0,
             let out := queueMessage env n m options w0 in
             (probeCalls (snd out) = probeCalls w0
              /\ apiLog (snd out) = apiLog w0
              /\ sockLog (snd out) = sockLog w0)
             /\ (forall r w', out = (Return r, w') ->
                   SendMessageResult.success r = true
                   /\ SendMessageResult.method r = queued)).
  { intros n m w0 out. subst out. unfold queueMessage.
    destruct (buildMessageData_cases n m options w0)
      as [[_ [e E]]|(md & E & _)].
    - rewrite (bind_thrown _ _ _ _ _ E). split; [repeat split|discriminate].
    - rewrite (bind_returned _ _ _ _ _ E).
      destruct (addMessage_frame md (set_nowCalls (S (nowCalls w0)) w0))
        as (F1 & F2 & F3 & _).
      split; [repeat split; assumption|].
      intros r w' H. destruct (addMessage_returned env md _ r w' H) as (A & B & _).
      auto. }
  destruct (Q number message w) as (QF & QR). fold viaQueue in QF, QR.
  assert (V : (probeCalls (snd viaSend) = probeCalls w
               /\ apiLog (snd viaSend) = apiLog w
               /\ sockLog (snd viaSend) = sockLog w)
              /\ (forall r w', viaSend = (Return r, w') ->
                    SendMessageResult.success r = true
                    /\ SendMessageResult.method r = queued)).
  { subst viaSend.
    destruct (buildMessageData_cases number message options w)
      as [[_ [e E]]|(md & E & _)].
    - unfold sendMessage. rewrite (bind_thrown _ _ _ _ _ E).
      split; [repeat split|discriminate].
    - rewrite (sendMessage_forced_queue _ _ _ _ _ _ _ D Sm E).
      destruct (Q (MessageData.number md) (MessageData.message md)
                  (set_nowCalls (S (nowCalls w)) w))
        as ((F1 & F2 & F3) & R).
      rewrite wrapFailure_world. cbn [probeCalls apiLog sockLog set_nowCalls] in *.
      split; [repeat split; assumption|].
      intros r' w' H. apply wrapFailure_returned in H. eauto. }
  destruct V as (VF & VR).
  split; [exact QF|]. split; [exact VF|].
  intros r w' [H|H]; eauto.
Qed.

(** The forced-direct path never touches the queue: [sendDirect] makes
    no database operation and generates no message id. On an instance
    with an API client and for a non-empty number it is the API send
    of the normalised number, so a failure of the request reaches the
    caller as it is; in direct mode, where there is no API client, it
    throws a [TypeError] and makes no request. *)
Theorem forced_direct_never_enqueues this number message options w :
  let out := sendDirect env this number message options w in
  store (snd out) = store w
  /\ firebaseOps (snd out) = firebaseOps w
  /\ uuidCalls (snd out) = uuidCalls w
  /\ (if directWhatsApp this
      then out = (Throw undefinedReceiver, w)
      else match number with
           | EmptyString => apiLog (snd out) = apiLog w
           | _ =>
               exists normalized,
                 normalizePhoneNumber env number w = (Return normalized, w)
                 /\ out = ApiClient.sendMessage env normalized message options w
           end).
Proof.
  cbv zeta. unfold sendDirect, withApiClient.
  destruct (directWhatsApp this).
  - repeat split.
  - destruct number as [|c n]; [repeat split|].
    destruct (normalize_shape env (String c n) w) as (s & E & _); [discriminate|].
    rewrite (bind_returned _ _ _ _ _ E).
    destruct (api_sendMessage_cases env s message options w)
      as (r & w' & A & _ & St & F & U).
    rewrite A. cbn [snd]. split; [exact St|]. split; [exact F|]. split; [exact U|].
    exists s. split; [exact E|]. symmetry. exact A.
Qed.

End Modes.

Lemma forced_queue_contacts_no_server_witness :
  let this := {| Whaple.directWhatsApp := false; Whaple.smartRouting := false;
                 Whaple.threshold := Some 0 |} in
  let w := Scenario.freshWorld Scenario.backlog in
  let viaQueue := Whaple.queueMessage Scenario.allUp "+15555550123" "hi"
                    SendMessageOptions.empty w in
  let viaSend := Whaple.sendMessage Scenario.allUp this "+15555550123" "hi"
                   SendMessageOptions.empty w in
  (probeCalls (snd viaQueue) = probeCalls w
   /\ apiLog (snd viaQueue) = apiLog w
   /\ sockLog (snd viaQueue) = sockLog w)
  /\ (probeCalls (snd viaSend) = probeCalls w
      /\ apiLog (snd viaSend) = apiLog w
      /\ sockLog (snd viaSend) = sockLog w)
  /\ (forall r w', viaQueue = (Return r, w') \/ viaSend = (Return r, w') ->
        SendMessageResult.success r = true
        /\ SendMessageResult.method r = queued).
Proof.
  apply (forced_queue_contacts_no_server Scenario.allUp
           {| Whaple.directWhatsApp := false; Whaple.smartRouting := false;
              Whaple.threshold := Some 0 |}
           "+15555550123" "hi" SendMessageOptions.empty
           (Scenario.freshWorld Scenario.backlog)).
  - reflexivity.
  - reflexivity.
Defined.

Section DirectMode.
Import Whaple.
Variable env : Env.

Lemma buildMessageData_world number message options w md w0 :
  buildMessageData env number message options w = (Return md, w0) ->
  w0 = set_nowCalls (S (nowCalls w)) w /\ MessageData.number md <> "".
Proof.
  intros B.
  destruct (buildMessageData_cases env number message options w)
    as [[_ [e E]]|(md' & E & N)]; rewrite E in B; inversion B; subst; auto.
Qed.

Lemma sendMessage_direct_mode this number message options w md w0 c :
  directWhatsApp this = true -> whatsappConnection w = Some c ->
  buildMessageData env number message options w = (Return md, w0) ->
  sendMessage env this number message options w
  = wrapFailure
      (if Channel.isConnected c && Channel.isAuthenticated c
       then tryCatch
              (WhatsAppConnection.sendMessage env c (MessageData.number md)
                 (MessageData.message md))
              (fun _ => QueueManager.addMessage env md) w0
       else QueueManager.addMessage env md w0).
Proof.
  intros D C B. destruct (buildMessageData_world _ _ _ _ _ _ B) as (W & _).
  unfold sendMessage. rewrite (bind_returned _ _ _ _ _ B).
  unfold tryCatch at 1. unfold bind at 1, get. rewrite D.
  replace (whatsappConnection w0) with (Some c) by (subst w0; symmetry; exact C).
  unfold wrapFailure, throw, failed.
  destruct (Channel.isConnected c && Channel.isAuthenticated c); reflexivity.
Qed.

(** Direct WhatsApp mode. When the channel is not connected and
    authenticated the message goes straight to the queue and the socket
    is not touched. When it is and the socket send throws, the message
    is enqueued instead and the caller gets the plain enqueue result
    (the error of the send is not reported). When the send returns, so
    does [sendMessage], with the same result. *)
Theorem direct_mode_falls_back_to_queue this number message options w md w0 c :
  directWhatsApp this = true -> whatsappConnection w = Some c ->
  buildMessageData env number message options w = (Return md, w0) ->
  let out := sendMessage env this number message options w in
  let attempt := WhatsAppConnection.sendMessage env c (MessageData.number md)
                   (MessageData.message md) w0 in
  (Channel.isConnected c && Channel.isAuthenticated c = false ->
   out = wrapFailure (QueueManager.addMessage env md w0)
   /\ sockLog (snd out) = sockLog w)
  /\ (Channel.isConnected c && Channel.isAuthenticated c = true ->
      (forall e w1, attempt = (Throw e, w1) ->
         out = wrapFailure (QueueManager.addMessage env md w1))
      /\ (forall r w1, attempt = (Return r, w1) -> out = (Return r, w1))).
Proof.
  intros D C B out attempt. subst out attempt.
  rewrite (sendMessage_direct_mode _ _ _ _ _ _ _ _ D C B).
  destruct (buildMessageData_world _ _ _ _ _ _ B) as (W & _).
  split.
  - intros R. rewrite R. split; [reflexivity|].
    rewrite wrapFailure_world.
    destruct (addMessage_frame env md w0) as (_ & _ & L & _).
    rewrite L, W. reflexivity.
  - intros R. rewrite R. split.
    + intros e w1 E. rewrite (tryCatch_thrown _ _ _ _ _ E). reflexivity.
    + intros r w1 E. rewrite (tryCatch_returned _ _ _ _ _ E). reflexivity.
Qed.

Lemma addMessage_succeeds md w :
  (forall n, firebaseFault env n = None) ->
  exists r w', QueueManager.addMessage env md w = (Return r, w')
               /\ SendMessageResult.success r = true.
Proof.
  intros F.
  destruct (addMessage_cases env md w)
    as [(msg & w1 & X & _)|(r & w1 & rec & _ & E & Sc & _)].
  - rewrite F in X. discriminate.
  - exists r, w1. auto.
Qed.

Lemma channel_send_returned c number message w r w' :
  WhatsAppConnection.sendMessage env c number message w = (Return r, w') ->
  SendMessageResult.success r = true.
Proof.
  unfold WhatsAppConnection.sendMessage.
  destruct (negb (Channel.isConnected c) || _); [discriminate|].
  unfold tryCatch, bind, WhatsAppConnection.sockSend, throw, now, ret.
  destruct (sockSendMessage env (List.length (sockLog w))) as [keyId|e];
    [|discriminate].
  destruct (orString keyId None); intros H; inversion H; reflexivity.
Qed.

(** No message is lost while the database works: when no Firebase
    operation fails, [sendMessage] with a non-empty number returns a
    result with [success = true] in every mode, whatever the health
    probe, the API server and the socket do. *)
Theorem working_store_means_success this number message options w :
  (forall n, firebaseFault env n = None) ->
  number <> "" ->
  exists r w',
    sendMessage env this number message options w = (Return r, w')
    /\ SendMessageResult.success r = true.
Proof.
  intros F N.
  destruct (buildMessageData_cases env number message options w)
    as [[E _]|(md & B & Nm)]; [congruence|].
  set (w0 := set_nowCalls (S (nowCalls w)) w) in *.
  assert (Q : forall w1, exists r w',
               wrapFailure (QueueManager.addMessage env md w1) = (Return r, w')
               /\ SendMessageResult.success r = true).
  { intros w1. destruct (addMessage_succeeds md w1 F) as (r & w' & E & Sc).
    exists r, w'. rewrite E. auto. }
  assert (Smart : smartRouting this = true ->
                  exists r w',
                    wrapFailure (smartRoutingDecision env this md w0) = (Return r, w')
                    /\ SendMessageResult.success r = true).
  { intros _.
    destruct (isServerHealthy_total env w0) as (h & w1 & H & _).
    destruct (getQueueStatus_total env w1) as (status & w2 & G & _).
    destruct (shouldUseQueue this h status) eqn:U.
    - rewrite (smartRouting_queue _ _ _ _ _ _ _ _ H G U). unfold enqueueOnce.
      destruct (addMessage_succeeds md w2 F) as (r & w' & E & Sc).
      rewrite E. exists r, w'. auto.
    - rewrite (smartRouting_direct _ _ _ _ _ _ _ _ H G U).
      destruct (directWhatsApp this) eqn:D.
      + rewrite (sendDirectWithFallback_no_client _ _ _ _ D).
        destruct (addMessage_succeeds md w2 F) as (q & w4 & E & Sc).
        rewrite E. exists (annotate q undefinedReceiver), w4. auto.
      + destruct (sendDirectWithFallback_cases env this md w2 D)
          as (c & w3 & _ & _ & X).
        destruct c as [res|e].
        * destruct X as (r & w4 & E & Sc & _). rewrite E. exists r, w4. auto.
        * rewrite X. destruct (addMessage_succeeds md w3 F) as (q & w4 & E & Sc).
          rewrite E. exists (annotate q e), w4. auto. }
  assert (Forced : smartRouting this = false ->
                   exists r w',
                     wrapFailure (queueMessage env (MessageData.number md)
                                    (MessageData.message md) options w0)
                     = (Return r, w')
                     /\ SendMessageResult.success r = true).
  { intros _. unfold queueMessage.
    destruct (buildMessageData_cases env (MessageData.number md)
                (MessageData.message md) options w0)
      as [[E _]|(md' & B' & _)]; [congruence|].
    rewrite (bind_returned _ _ _ _ _ B').
    destruct (addMessage_succeeds md' (set_nowCalls (S (nowCalls w0)) w0) F)
      as (r & w' & E & Sc).
    rewrite E. exists r, w'. auto. }
  assert (Api : directWhatsApp this = false \/ whatsappConnection w = None ->
                exists r w',
                  sendMessage env this number message options w = (Return r, w')
                  /\ SendMessageResult.success r = true).
  { intros M. destruct (smartRouting this) eqn:Sm.
    - destruct (Smart eq_refl) as (r & w' & E & Sc). exists r, w'. split; [|exact Sc].
      rewrite <- E. unfold sendMessage. rewrite (bind_returned _ _ _ _ _ B).
      unfold tryCatch at 1. unfold bind at 1, get.
      replace (if directWhatsApp this then whatsappConnection w0 else None)
        with (@None Channel.t)
        by (destruct M as [-> | M]; [reflexivity|];
            destruct (directWhatsApp this); [symmetry; exact M|reflexivity]).
      rewrite Sm. unfold wrapFailure, throw, failed.
      destruct (smartRoutingDecision env this md w0) as [[r0|e0] w1]; reflexivity.
    - destruct (Forced eq_refl) as (r & w' & E & Sc). exists r, w'. split; [|exact Sc].
      rewrite <- E. unfold sendMessage. rewrite (bind_returned _ _ _ _ _ B).
      unfold tryCatch at 1. unfold bind at 1, get.
      replace (if directWhatsApp this then whatsappConnection w0 else None)
        with (@None Channel.t)
        by (destruct M as [-> | M]; [reflexivity|];
            destruct (directWhatsApp this); [symmetry; exact M|reflexivity]).
      rewrite Sm. unfold wrapFailure, throw, failed.
      destruct (queueMessage env (MessageData.number md) (MessageData.message md)
                  options w0) as [[r0|e0] w1]; reflexivity. }
  destruct (directWhatsApp this) eqn:D; [|apply Api; left; reflexivity].
  destruct (whatsappConnection w) as [c|] eqn:C; [|apply Api; right; reflexivity].
  rewrite (sendMessage_direct_mode _ _ _ _ _ _ _ _ D C B).
  destruct (Channel.isConnected c && Channel.isAuthenticated c); [|apply Q].
  destruct (WhatsAppConnection.sendMessage env c (MessageData.number md)
              (MessageData.message md) w0) as [[r|e] w1] eqn:E.
  - rewrite (tryCatch_returned _ _ _ _ _ E). exists r, w1. split; [reflexivity|].
    eapply channel_send_returned; eassumption.
  - rewrite (tryCatch_thrown _ _ _ _ _ E). apply Q.
Qed.

End DirectMode.

Lemma direct_mode_falls_back_to_queue_witness :
  let w := Scenario.withChannel Scenario.online Scenario.emptyStore in
  let out := Whaple.sendMessage Scenario.socketDown Scenario.directSdk
               "+15555550123" "hi" SendMessageOptions.empty w in
  let attempt := WhatsAppConnection.sendMessage Scenario.socketDown Scenario.online
                   (MessageData.number Scenario.hello)
                   (MessageData.message Scenario.hello)
                   (Scenario.afterBuild Scenario.socketDown w) in
  (Channel.isConnected Scenario.online && Channel.isAuthenticated Scenario.online
   = false ->
   out = wrapFailure (QueueManager.addMessage Scenario.socketDown Scenario.hello
                        (Scenario.afterBuild Scenario.socketDown w))
   /\ sockLog (snd out) = sockLog w)
  /\ (Channel.isConnected Scenario.online && Channel.isAuthenticated Scenario.online
      = true ->
      (forall e w1, attempt = (Throw e, w1) ->
         out = wrapFailure (QueueManager.addMessage Scenario.socketDown
                              Scenario.hello w1))
      /\ (forall r w1, attempt = (Return r, w1) -> out = (Return r, w1))).
Proof.
  apply (direct_mode_falls_back_to_queue Scenario.socketDown Scenario.directSdk
           "+15555550123" "hi" SendMessageOptions.empty
           (Scenario.withChannel Scenario.online Scenario.emptyStore)
           Scenario.hello
           (Scenario.afterBuild Scenario.socketDown
              (Scenario.withChannel Scenario.online Scenario.emptyStore))
           Scenario.online).
  - reflexivity.
  - reflexivity.
  - vm_compute. reflexivity.
Defined.

Lemma working_store_means_success_witness :
  exists r w',
    Whaple.sendMessage Scenario.apiDown Scenario.sdk "+15555550123" "hi"
      SendMessageOptions.empty (Scenario.freshWorld Scenario.emptyStore)
    = (Return r, w')
    /\ SendMessageResult.success r = true.
Proof.
  apply (working_store_means_success Scenario.apiDown Scenario.sdk
           "+15555550123" "hi" SendMessageOptions.empty
           (Scenario.freshWorld Scenario.emptyStore)).
  - intros n. reflexivity.
  - discriminate.
Defined.
